(** * Availability engine and booking protocol of the calendly backend

    A shallow embedding of the Go sources
    [backend/internal/controller/utils.go] (slot generator, token check,
    calendar client), the availability handler and the meeting handlers
    ([GetPublicEventAvailability], [CreateBooking], [CancelMeeting]),
    together with the error package they report through.

    Conventions of the embedding:
    - a [time.Time] is an integer count of nanoseconds of local civil time
      (one fixed-offset location for the whole request), so that midnight is
      a multiple of [Day]; instants are unbounded;
    - a [time.Duration] is a signed 64-bit integer: products wrap around;
    - storage is an explicit [Store]; what the driver, the OAuth provider and
      the calendar API answer is read from an [Env];
    - a loop that the source does not bound runs on fuel and answers [None]
      when the fuel is used up. *)

From Stdlib Require Import ZArith List String Ascii Bool Lia.
From Stdlib Require Import Sorted Permutation.
Import ListNotations.
Open Scope string_scope.
Open Scope Z_scope.

(** A Go result pair [(value, error)]: exactly one side is meaningful. *)
Inductive Result (E A : Type) :=
| Ok (a : A)
| Err (e : E).
Arguments Ok {E A} a.
Arguments Err {E A} e.

(** ** Go's [time] package, as far as the controller uses it *)
Module GoTime.

Definition Time := Z.
Definition Duration := Z.

Definition Nanosecond : Duration := 1.
Definition Second : Duration := 1000000000.
Definition Minute : Duration := 60 * Second.
Definition Hour : Duration := 60 * Minute.
Definition Day : Duration := 24 * Hour.

(** Two's complement reduction to 64 bits (Go integer arithmetic wraps). *)
Definition wrap64 (z : Z) : Z := (z + 2 ^ 63) mod 2 ^ 64 - 2 ^ 63.

(** [time.Minute * time.Duration(n)] *)
Definition minutes (n : Z) : Duration := wrap64 (Minute * n).

Definition Add (t : Time) (d : Duration) : Time := t + d.
Definition Before (t u : Time) : bool := t <? u.
Definition After (t u : Time) : bool := u <? t.
Definition Equal (t u : Time) : bool := t =? u.

(** Midnight of the civil day that contains [t]. *)
Definition midnight (t : Time) : Time := (t / Day) * Day.

(** [time.Date(t.Year(), t.Month(), t.Day(), hour, min, 0, 0, loc)] *)
Definition Date (t : Time) (hour min : Z) : Time :=
  midnight t + hour * Hour + min * Minute.

(** [time.Unix(sec, 0)] *)
Definition Unix (sec : Z) : Time := sec * Second.

(** [t.AddDate(0, 0, days)] *)
Definition AddDays (t : Time) (days : Z) : Time := t + days * Day.

(** [t.Weekday()], Sunday = 0; day 0 of the epoch is a Thursday. *)
Definition Weekday (t : Time) : Z := (t / Day + 4) mod 7.

Definition HourOf (t : Time) : Z := (t mod Day) / Hour.
Definition MinuteOf (t : Time) : Z := (t mod Hour) / Minute.

Definition digitChar (d : Z) : ascii := ascii_of_N (48 + Z.to_N d).
Definition pad2 (n : Z) : string :=
  String (digitChar (n / 10)) (String (digitChar (n mod 10)) EmptyString).

(** [t.Format("15:04")] *)
Definition FormatHM (t : Time) : string :=
  (pad2 (HourOf t) ++ ":" ++ pad2 (MinuteOf t))%string.

(** *** [time.Parse] for the layout ["15:04:05"] *)

Definition isDigit (c : ascii) : bool :=
  let n := N_of_ascii c in ((48 <=? n) && (n <=? 57))%N.
Definition digitOf (c : ascii) : Z := Z.of_N (N_of_ascii c) - 48.

(** [getnum]: one or two digits; exactly two when [fixed]. *)
Definition getnum (s : string) (fixed : bool) : option (Z * string) :=
  match s with
  | String c0 rest =>
      if isDigit c0 then
        match rest with
        | String c1 rest' =>
            if isDigit c1 then Some (digitOf c0 * 10 + digitOf c1, rest')
            else if fixed then None else Some (digitOf c0, rest)
        | EmptyString => if fixed then None else Some (digitOf c0, rest)
        end
      else None
  | EmptyString => None
  end.

(** [skip(value, ":")] *)
Definition skipColon (s : string) : option string :=
  match s with
  | String c rest => if Ascii.eqb c ":" then Some rest else None
  | EmptyString => None
  end.

Fixpoint dropDigits (s : string) : string :=
  match s with
  | String c rest => if isDigit c then dropDigits rest else s
  | EmptyString => s
  end.

Definition commaOrPeriod (c : ascii) : bool :=
  Ascii.eqb c "." || Ascii.eqb c ",".

(** A fractional second in the value is accepted though the layout has
    none: a separator, one digit at least, then digits. *)
Definition skipFraction (s : string) : string :=
  match s with
  | String c0 (String c1 rest) =>
      if commaOrPeriod c0 && isDigit c1 then dropDigits rest else s
  | _ => s
  end.

Record Clock := { clockHour : Z; clockMinute : Z }.

(** [time.Parse("15:04:05", s)], keeping the fields the callers read
    ([Hour()] and [Minute()]); [None] stands for a parse error. *)
Definition ParseDBTime (s : string) : option Clock :=
  match getnum s false with
  | None => None
  | Some (h, s1) =>
      if 24 <=? h then None else
      match skipColon s1 with
      | None => None
      | Some s2 =>
          match getnum s2 true with
          | None => None
          | Some (m, s3) =>
              if 60 <=? m then None else
              match skipColon s3 with
              | None => None
              | Some s4 =>
                  match getnum s4 true with
                  | None => None
                  | Some (sec, s5) =>
                      if 60 <=? sec then None else
                      match skipFraction s5 with
                      | EmptyString => Some {| clockHour := h; clockMinute := m |}
                      | _ => None
                      end
                  end
              end
          end
      end
  end.

End GoTime.

(** ** Package [enum] *)
Module Enum.

Inductive DayOfWeek :=
  Sunday | Monday | Tuesday | Wednesday | Thursday | Friday | Saturday.

Definition AllDayOfWeek : list DayOfWeek :=
  [Sunday; Monday; Tuesday; Wednesday; Thursday; Friday; Saturday].

Definition DayOfWeek_eqb (a b : DayOfWeek) : bool :=
  match a, b with
  | Sunday, Sunday | Monday, Monday | Tuesday, Tuesday
  | Wednesday, Wednesday | Thursday, Thursday | Friday, Friday
  | Saturday, Saturday => true
  | _, _ => false
  end.

Inductive MeetingStatus := Scheduled | Cancelled.

Definition MeetingStatus_eqb (a b : MeetingStatus) : bool :=
  match a, b with
  | Scheduled, Scheduled | Cancelled, Cancelled => true
  | _, _ => false
  end.

Inductive ErrorCode :=
| AuthUserNotFound | AuthEmailAlreadyExists | AuthInvalidToken
| AuthNotFound | AuthTooManyAttempts | AuthUnauthorizedAccess
| AuthTokenNotFound | AccessUnauthorized | ValidationError
| ResourceNotFound | InternalServerError | BadRequest.

Inductive IntegrationAppType :=
  AppGoogleMeetAndCalendar | AppZoomMeeting | AppOutlookCalendar.

Definition IntegrationAppType_eqb (a b : IntegrationAppType) : bool :=
  match a, b with
  | AppGoogleMeetAndCalendar, AppGoogleMeetAndCalendar
  | AppZoomMeeting, AppZoomMeeting
  | AppOutlookCalendar, AppOutlookCalendar => true
  | _, _ => false
  end.

(** [EventLocationType] shares the string values of the app types; a
    stored event may carry any of them. *)
Definition EventLocationType := IntegrationAppType.
Definition LocationGoogleMeetAndCalendar : EventLocationType := AppGoogleMeetAndCalendar.
Definition LocationZoomMeeting : EventLocationType := AppZoomMeeting.
Definition AllEventLocationType : list EventLocationType :=
  [LocationGoogleMeetAndCalendar; LocationZoomMeeting].

End Enum.

(** ** Package [appError] *)
Module AppError.
Import Enum.

Record ErrorDetail := { DetailHTTPStatus : Z; DetailMessage : string }.

Definition StatusBadRequest : Z := 400.
Definition StatusUnauthorized : Z := 401.
Definition StatusForbidden : Z := 403.
Definition StatusNotFound : Z := 404.
Definition StatusConflict : Z := 409.
Definition StatusTooManyRequests : Z := 429.
Definition StatusInternalServerError : Z := 500.

(** The map [appErrorConfig]; [BadRequest] has no entry. *)
Definition appErrorConfig (c : ErrorCode) : option ErrorDetail :=
  match c with
  | AuthUserNotFound =>
      Some {| DetailHTTPStatus := StatusNotFound;
              DetailMessage := "Authentication failed: User not found" |}
  | AuthEmailAlreadyExists =>
      Some {| DetailHTTPStatus := StatusConflict;
              DetailMessage := "Cannot register: Email address is already in use." |}
  | AuthInvalidToken =>
      Some {| DetailHTTPStatus := StatusUnauthorized;
              DetailMessage := "Authentication failed: Invalid or expired token." |}
  | AuthNotFound =>
      Some {| DetailHTTPStatus := StatusNotFound;
              DetailMessage := "Authentication details not found." |}
  | AuthTooManyAttempts =>
      Some {| DetailHTTPStatus := StatusTooManyRequests;
              DetailMessage := "Too many authentication attempts. Please try again later." |}
  | AuthUnauthorizedAccess =>
      Some {| DetailHTTPStatus := StatusUnauthorized;
              DetailMessage := "Authentication required to access this resource." |}
  | AuthTokenNotFound =>
      Some {| DetailHTTPStatus := StatusUnauthorized;
              DetailMessage := "Authentication token not provided." |}
  | AccessUnauthorized =>
      Some {| DetailHTTPStatus := StatusForbidden;
              DetailMessage := "Access denied: You do not have permission to perform this action." |}
  | ValidationError =>
      Some {| DetailHTTPStatus := StatusBadRequest;
              DetailMessage := "Input validation failed." |}
  | ResourceNotFound =>
      Some {| DetailHTTPStatus := StatusNotFound;
              DetailMessage := "The requested resource could not be found." |}
  | InternalServerError =>
      Some {| DetailHTTPStatus := StatusInternalServerError;
              DetailMessage := "An unexpected internal error occurred. Please try again later." |}
  | BadRequest => None
  end.

(** [AppError]; the wrapped cause is kept as a flag (nil or not). *)
Record AppError := { Code : ErrorCode; Message : string; HasCause : bool }.

Definition NewAppError (code : ErrorCode) (msg : string) (cause : bool) : AppError :=
  {| Code := code; Message := msg; HasCause := cause |}.

Definition GetErrorDetail (e : AppError) : ErrorDetail :=
  match appErrorConfig (Code e) with
  | Some detail => detail
  | None => {| DetailHTTPStatus := StatusInternalServerError;
               DetailMessage := "An unknown internal error occurred." |}
  end.

Definition Error (e : AppError) : string :=
  if String.eqb (Message e) "" then DetailMessage (GetErrorDetail e) else Message e.

Definition HTTPStatus (e : AppError) : Z := DetailHTTPStatus (GetErrorDetail e).

Definition NewNotFoundError (resource : string) (cause : bool) : AppError :=
  let msg := ("Resource '" ++ resource ++ "' not found.")%string in
  NewAppError ResourceNotFound (if String.eqb resource "" then "" else msg) cause.

End AppError.

(** ** Package [model] and the controller's helper types *)
Module Model.
Import GoTime Enum.

(** [sql.NullString] and [sql.NullInt64]. *)
Record NullString := { NSString : string; NSValid : bool }.
Record NullInt64 := { NIInt64 : Z; NIValid : bool }.

Record User := { UserIDOf : string; UserEmail : string }.

Record Event := {
  EventID : string;
  EventUserID : string;
  EventTitle : string;
  EventDuration : Z;
  EventIsPrivate : bool;
  EventLocation : EventLocationType
}.

Record Integration := {
  IntegrationUserID : string;
  AppType : IntegrationAppType;
  AccessToken : NullString;
  RefreshToken : NullString;
  ExpiryDate : NullInt64;
  IsConnected : bool
}.

(** [CalendarAppType] is the string of an app type, or empty ([None]). *)
Record Meeting := {
  MeetingID : string;
  MeetingUserID : string;
  MeetingEventID : string;
  GuestName : string;
  GuestEmail : string;
  AdditionalInfo : string;
  StartTime : Time;
  EndTime : Time;
  MeetLink : string;
  CalendarEventID : string;
  CalendarAppType : option IntegrationAppType;
  Status : MeetingStatus
}.

(** Rows of [availability] and [day_availability]. *)
Record Availability := { AvailabilityID : string; AvailabilityUserID : string; TimeGap : Z }.

Record DayAvailability := {
  DayAvailabilityOf : string;
  DayAvailabilityDay : DayOfWeek;
  DayStartTime : string;
  DayEndTime : string;
  DayIsAvailable : bool
}.

Record AvailabilityDetail := {
  RuleTimeGap : Z;
  RuleDay : DayOfWeek;
  RuleStartTime : string;
  RuleEndTime : string;
  RuleIsAvailable : bool
}.

Record DailyAvailabilitySlots := {
  SlotsDay : DayOfWeek;
  Slots : list string;
  SlotsIsAvailable : bool
}.

(** [dto.CreateMeetingDto] *)
Record CreateMeetingDto := {
  DtoEventID : string;
  DtoStartTime : Time;
  DtoEndTime : Time;
  DtoGuestName : string;
  DtoGuestEmail : string;
  DtoAdditionalInfo : string
}.

(** [oauth2.Token], the fields read by the controller. *)
Record Token := {
  TokenAccess : string;
  TokenRefresh : string;
  TokenExpiry : option Z
}.

End Model.

(** ** The slot generator ([utils.go]) *)
Module Slots.
Import GoTime Enum Model.

(** [IsSlotAvailable] *)
Fixpoint IsSlotAvailable (slotStart slotEnd : Time) (meetings : list Meeting) : bool :=
  match meetings with
  | [] => true
  | meeting :: rest =>
      if Before slotStart (EndTime meeting) && After slotEnd (StartTime meeting)
      then false
      else IsSlotAvailable slotStart slotEnd rest
  end.

(** The [for] loop of [GenerateAvailableTimeSlots]; [duration] and [gap]
    are the two [time.Duration] values added in the body, [slots] the
    starts appended so far. *)
Fixpoint slotLoop (fuel : nat) (currentSlotStart dayEndBoundary now : Time)
    (duration gap : Duration) (meetings : list Meeting) (slots : list Time)
    : option (list Time) :=
  match fuel with
  | O => None
  | S fuel' =>
      if Before currentSlotStart dayEndBoundary then
        let slotEnd := Add currentSlotStart duration in
        if After slotEnd dayEndBoundary then Some slots
        else
          let isFutureSlot := After currentSlotStart now || Equal currentSlotStart now in
          let slots' :=
            if isFutureSlot && IsSlotAvailable currentSlotStart slotEnd meetings
            then (slots ++ [currentSlotStart])%list else slots in
          slotLoop fuel' (Add currentSlotStart gap) dayEndBoundary now
                   duration gap meetings slots'
      else Some slots
  end.

(** [if timeGapMinutes <= 0 { timeGapMinutes = 30 }] *)
Definition effectiveGap (timeGapMinutes : Z) : Z :=
  if timeGapMinutes <=? 0 then 30 else timeGapMinutes.

(** The first cursor value: the hour of the start time and the minute of
    the END time, as the source writes it. *)
Definition slotStartBase (dayStartParsed dayEndParsed : Clock) (targetDate : Time) : Time :=
  Date targetDate (clockHour dayStartParsed) (clockMinute dayEndParsed).

Definition dayEndBoundary (dayEndParsed : Clock) (targetDate : Time) : Time :=
  Date targetDate (clockHour dayEndParsed) (clockMinute dayEndParsed).

(** The instants of the slots that [GenerateAvailableTimeSlots] emits,
    before they are formatted. *)
Definition slotStarts (fuel : nat) (dayStartTimeStr dayEndTimeStr : string)
    (durationMinutes timeGapMinutes : Z) (meetingsOnDate : list Meeting)
    (targetDate now : Time) : option (Result string (list Time)) :=
  match ParseDBTime dayStartTimeStr with
  | None => Some (Err ("invalid start time format '" ++ dayStartTimeStr ++ "'")%string)
  | Some dayStartParsed =>
      match ParseDBTime dayEndTimeStr with
      | None => Some (Err ("invalid end time format '" ++ dayEndTimeStr ++ "'")%string)
      | Some dayEndParsed =>
          match slotLoop fuel (slotStartBase dayStartParsed dayEndParsed targetDate)
                  (dayEndBoundary dayEndParsed targetDate) now
                  (minutes durationMinutes) (minutes (effectiveGap timeGapMinutes))
                  meetingsOnDate [] with
          | None => None
          | Some starts => Some (Ok starts)
          end
      end
  end.

(** [GenerateAvailableTimeSlots]; [now] is the reading of [time.Now()]. *)
Definition GenerateAvailableTimeSlots (fuel : nat) (dayStartTimeStr dayEndTimeStr : string)
    (durationMinutes timeGapMinutes : Z) (meetingsOnDate : list Meeting)
    (targetDate now : Time) : option (Result string (list string)) :=
  match slotStarts fuel dayStartTimeStr dayEndTimeStr durationMinutes timeGapMinutes
          meetingsOnDate targetDate now with
  | None => None
  | Some (Err msg) => Some (Err msg)
  | Some (Ok starts) => Some (Ok (map FormatHM starts))
  end.

End Slots.


(** ** The controller: storage, environment and handlers *)
Module Controller.
Import GoTime Enum AppError Model Slots.

(** The tables the handlers read and write. *)
Record Store := {
  users : list User;
  events : list Event;
  availability : list Availability;
  day_availability : list DayAvailability;
  integrations : list Integration;
  meetings : list Meeting
}.

(** The statements the handlers send to the database. *)
Inductive Query :=
| QEventAvailability | QMeetingsInRange
| QEvent | QIntegration | QInsertMeeting
| QFetchMeeting | QCancelIntegration | QUpdateMeeting.

(** A driver failure (anything but [sql.ErrNoRows]). *)
Inductive DriverError := ConstraintViolation | ConnectionFailure.

Inductive DbError := ErrNoRows | Driver (d : DriverError).

(** [calendar.Event] as [CreateBooking] fills it. *)
Record CalendarEvent := {
  Summary : string;
  Description : string;
  CalStart : Time;
  CalEnd : Time;
  Attendees : list string;
  ConferenceRequestId : string * Time
}.

Record CreatedCalendarEvent := { CalId : string; HangoutLink : string }.

(** [*calendar.Service]: an HTTP client holding the token it was built on. *)
Record CalendarService := { ServiceToken : Token }.

(** What the outside answers during one request; the clock is read once. *)
Record Env := {
  (** [time.Now()] *)
  Now : Time;
  driverError : Query -> option DriverError;
  (** [googleOAuthConfig.TokenSource(ctx, t).Token()]; [None] is an error *)
  tokenSourceToken : Token -> option Token;
  (** [calendar.NewService] succeeds *)
  calendarNewService : bool;
  (** [svc.Events.Insert("primary", e).ConferenceDataVersion(1).Do()] *)
  eventsInsert : CalendarEvent -> option CreatedCalendarEvent;
  (** [svc.Events.Delete("primary", id).Do()] succeeds *)
  eventsDelete : string -> bool;
  (** the id the database gives to an inserted meeting *)
  newMeetingID : string
}.

(** What a request does besides touching the store. *)
Inductive Effect :=
| TokenSourceCall (t : Token)
| CalendarInsertCall (e : CalendarEvent)
| CalendarDeleteCall (id : string)
| LogPrintf (msg : string)
| LogFatalf.

Record World := { store : Store; trace : list Effect }.

Inductive Body :=
| MeetingScheduled (meetLink : string) (meeting : Meeting)
| SimpleMessage (message : string)
| EventAvailability (data : list DailyAvailabilitySlots).

(** A response written by [appError.WriteError] or by [helper.ResponseJson]. *)
Inductive Response :=
| ErrorResponse (e : AppError)
| JsonResponse (code : Z) (body : Body).

Definition StatusCode (r : Response) : Z :=
  match r with
  | ErrorResponse e => HTTPStatus e
  | JsonResponse code _ => code
  end.

Definition StatusOK : Z := 200.
Definition StatusCreated : Z := 201.

(** *** A state monad for the helpers, with early return for handlers *)

Definition Eff (A : Type) : Type := World -> A * World.

Definition ret {A} (a : A) : Eff A := fun w => (a, w).
Definition bind {A B} (c : Eff A) (k : A -> Eff B) : Eff B :=
  fun w => let (a, w') := c w in k a w'.

Definition emit (e : Effect) : Eff unit :=
  fun w => (tt, {| store := store w; trace := (trace w ++ [e])%list |}).
Definition getStore : Eff Store := fun w => (store w, w).
Definition putStore (st : Store) : Eff unit :=
  fun w => (tt, {| store := st; trace := trace w |}).

(** A handler step either goes on with a value or has written its response. *)
Inductive Step (A : Type) :=
| Continue (a : A)
| Return (r : Response).
Arguments Continue {A} a.
Arguments Return {A} r.

Definition Handler (A : Type) : Type := Eff (Step A).

Definition hbind {A B} (c : Handler A) (k : A -> Handler B) : Handler B :=
  fun w => match c w with
           | (Continue a, w') => k a w'
           | (Return r, w') => (Return r, w')
           end.
Definition lift {A} (c : Eff A) : Handler A :=
  fun w => let (a, w') := c w in (Continue a, w').
Definition continue {A} (a : A) : Handler A := ret (Continue a).

(** [appError.WriteError(w, e); return]: the response is written, then the
    error is logged through [log.Fatalf]. *)
Definition WriteError {A} (e : AppError) : Handler A :=
  fun w => (Return (ErrorResponse e),
            {| store := store w; trace := (trace w ++ [LogFatalf])%list |}).

(** [helper.ResponseJson(w, code, body)] as the last statement. *)
Definition ResponseJson {A} (code : Z) (body : Body) : Handler A :=
  ret (Return (JsonResponse code body)).

Definition run (h : Handler Response) (w : World) : Response * World :=
  match h w with
  | (Continue r, w') => (r, w')
  | (Return r, w') => (r, w')
  end.

Notation "x <- c ;; k" := (bind c (fun x => k))
  (at level 61, c at next level, right associativity).
Notation "x <<- c ;; k" := (hbind c (fun x => k))
  (at level 61, c at next level, right associativity).

(** [db.GetContext]: the driver's failure, no row, or the first row. *)
Definition dbGet {A} (env : Env) (q : Query) (rows : list A) : Result DbError A :=
  match driverError env q with
  | Some d => Err (Driver d)
  | None => match rows with
            | [] => Err ErrNoRows
            | r :: _ => Ok r
            end
  end.

Definition IntegrationAppType_string (a : IntegrationAppType) : string :=
  match a with
  | AppGoogleMeetAndCalendar => "GOOGLE_MEET_AND_CALENDAR"
  | AppZoomMeeting => "ZOOM_MEETING"
  | AppOutlookCalendar => "OUTLOOK_CALENDAR"
  end.

(** *** [utils.go]: token check and calendar client *)

Definition IntegrationAppTypeFromEventLocation (loc : EventLocationType)
    : option IntegrationAppType :=
  match loc with
  | AppGoogleMeetAndCalendar => Some AppGoogleMeetAndCalendar
  | AppZoomMeeting => Some AppZoomMeeting
  | AppOutlookCalendar => None
  end.

(** [ValidateGoogleToken] *)
Definition ValidateGoogleToken (env : Env) (accessToken refreshToken : string)
    (expiryDateUnix : Z) : Eff (Result AppError string) :=
  let expiryTime := Unix expiryDateUnix in
  if String.eqb refreshToken "" then
    (* the source tests the expiry here and does nothing in either case *)
    if After (Now env) expiryTime then ret (Ok accessToken) else ret (Ok accessToken)
  else
    let currentToken := {| TokenAccess := accessToken;
                           TokenRefresh := refreshToken;
                           TokenExpiry := Some expiryDateUnix |} in
    _ <- emit (TokenSourceCall currentToken) ;;
    match tokenSourceToken env currentToken with
    | None =>
        ret (Err (NewAppError AuthInvalidToken "Failed to refresh Google token" true))
    | Some newToken =>
        _ <- (if negb (String.eqb (TokenAccess newToken) accessToken)
              then emit (LogPrintf "Google token refreshed.")
              else ret tt) ;;
        ret (Ok (TokenAccess newToken))
    end.

(** [GetCalendarClient] *)
Definition GetCalendarClient (env : Env) (integration : Integration)
    : Eff (Result AppError CalendarService * IntegrationAppType) :=
  let appType := AppType integration in
  match appType with
  | AppGoogleMeetAndCalendar =>
      if negb (NSValid (RefreshToken integration))
         || String.eqb (NSString (RefreshToken integration)) ""
      then
        ret (Err (NewAppError AuthUnauthorizedAccess
                    "Google integration missing refresh token for offline access." false),
             appType)
      else
        r <- ValidateGoogleToken env
               (NSString (AccessToken integration))
               (NSString (RefreshToken integration))
               (NIInt64 (ExpiryDate integration)) ;;
        match r with
        | Err _ =>
            ret (Err (NewAppError AuthInvalidToken
                        "Failed to validate/refresh Google token" true), appType)
        | Ok validAccessToken =>
            let token := {| TokenAccess := validAccessToken;
                            TokenRefresh := NSString (RefreshToken integration);
                            TokenExpiry :=
                              if NIValid (ExpiryDate integration)
                              then Some (NIInt64 (ExpiryDate integration))
                              else None |} in
            if calendarNewService env
            then ret (Ok {| ServiceToken := token |}, appType)
            else ret (Err (NewAppError InternalServerError
                             "Failed to create Google Calendar service client" true),
                      appType)
        end
  | _ =>
      ret (Err (NewAppError BadRequest
                  ("Unsupported calendar provider app type: "
                     ++ IntegrationAppType_string appType)%string false),
           appType)
  end.


(** *** [CreateBooking] *)

(** [t.Format(time.RFC3339)] read back by the database: whole seconds. *)
Definition formatRFC3339 (t : Time) : Time := (t / Second) * Second.

Definition setMeetings (st : Store) (ms : list Meeting) : Store :=
  {| users := users st; events := events st;
     availability := availability st;
     day_availability := day_availability st;
     integrations := integrations st;
     meetings := ms |}.

(** [SELECT e.* FROM events e WHERE e.id = $1 AND e.is_private = FALSE] *)
Definition publicEventRows (st : Store) (eventID : string) : list Event :=
  filter (fun e => String.eqb (EventID e) eventID && negb (EventIsPrivate e))
         (events st).

(** [SELECT * FROM integrations WHERE user_id = $1 AND app_type = $2
    AND is_connected = TRUE] *)
Definition integrationRows (st : Store) (userID : string)
    (appType : IntegrationAppType) : list Integration :=
  filter (fun i => String.eqb (IntegrationUserID i) userID
                   && IntegrationAppType_eqb (AppType i) appType
                   && IsConnected i)
         (integrations st).

(** The e-mail of [integration.User], a field the query leaves empty. *)
Definition integrationUserEmail (i : Integration) : string := "".

(** Step 4 of [CreateBooking]: the remote event, for a Google location. *)
Definition createRemoteEvent (env : Env) (dto : CreateMeetingDto) (event : Event)
    (integration : Integration) (startTime endTime : Time)
    : Handler (string * string * option IntegrationAppType) :=
  if IntegrationAppType_eqb (EventLocation event) LocationGoogleMeetAndCalendar then
    c <<- lift (GetCalendarClient env integration) ;;
    match c with
    | (Err err, _) => WriteError (NewAppError InternalServerError (Error err) true)
    | (Ok calendarSvc, appType) =>
        let calEvent :=
          {| Summary := (DtoGuestName dto ++ " - " ++ EventTitle event)%string;
             Description := DtoAdditionalInfo dto;
             CalStart := startTime;
             CalEnd := endTime;
             Attendees := [DtoGuestEmail dto; integrationUserEmail integration];
             ConferenceRequestId := (EventID event, Now env) |} in
        _ <<- lift (emit (CalendarInsertCall calEvent)) ;;
        match eventsInsert env calEvent with
        | None =>
            WriteError (NewAppError InternalServerError "Failed to create calendar event" true)
        | Some createdCalEvent =>
            if String.eqb (CalId createdCalEvent) "" then
              WriteError (NewAppError InternalServerError
                            "Created calendar event missing ID" false)
            else
              continue (HangoutLink createdCalEvent, CalId createdCalEvent, Some appType)
        end
    end
  else continue ("", "", None).

(** Steps 2 to 4 of [CreateBooking]: the event, its integration and the
    remote calendar event. *)
Definition prepareBooking (env : Env) (dto : CreateMeetingDto)
    : Handler (Event * (string * string * option IntegrationAppType)) :=
  let startTime := formatRFC3339 (DtoStartTime dto) in
  let endTime := formatRFC3339 (DtoEndTime dto) in
  st <<- lift getStore ;;
  event <<- match dbGet env QEvent (publicEventRows st (DtoEventID dto)) with
            | Err ErrNoRows => WriteError (NewNotFoundError "Public event" false)
            | Err (Driver _) =>
                WriteError (NewAppError InternalServerError "Failed to fetch event" true)
            | Ok event => continue event
            end ;;
  _ <<- (if existsb (IntegrationAppType_eqb (EventLocation event)) AllEventLocationType
         then continue tt
         else WriteError (NewAppError BadRequest
                            ("Event has invalid location type: "
                               ++ IntegrationAppType_string (EventLocation event))%string
                            false)) ;;
  requiredAppType <<-
    match IntegrationAppTypeFromEventLocation (EventLocation event) with
    | None => WriteError (NewAppError InternalServerError
                            "Cannot map event location to integration app type" false)
    | Some a => continue a
    end ;;
  integration <<-
    match dbGet env QIntegration
            (integrationRows st (EventUserID event) requiredAppType) with
    | Err ErrNoRows =>
        WriteError (NewAppError BadRequest
                      ("Required integration '"
                         ++ IntegrationAppType_string requiredAppType
                         ++ "' not found or disconnected for the event owner.")%string
                      false)
    | Err (Driver _) =>
        WriteError (NewAppError InternalServerError "Failed to fetch integration" true)
    | Ok integration => continue integration
    end ;;
  remote <<- createRemoteEvent env dto event integration startTime endTime ;;
  continue (event, remote).

(** Step 5 of [CreateBooking]: the [INSERT INTO meetings ... RETURNING *]
    and the response. A statement the driver fails leaves the table as it
    was. *)
Definition insertMeeting (env : Env) (dto : CreateMeetingDto) (event : Event)
    (remote : string * string * option IntegrationAppType) : Handler Response :=
  let '(meetLink, calendarEventID, calendarAppType) := remote in
  match driverError env QInsertMeeting with
  | Some _ =>
      WriteError (NewAppError InternalServerError "Failed to save meeting record" true)
  | None =>
      let createdMeeting :=
        {| MeetingID := newMeetingID env;
           MeetingUserID := EventUserID event;
           MeetingEventID := EventID event;
           GuestName := DtoGuestName dto;
           GuestEmail := DtoGuestEmail dto;
           AdditionalInfo := DtoAdditionalInfo dto;
           StartTime := formatRFC3339 (DtoStartTime dto);
           EndTime := formatRFC3339 (DtoEndTime dto);
           MeetLink := meetLink;
           CalendarEventID := calendarEventID;
           CalendarAppType := calendarAppType;
           Status := Scheduled |} in
      st <<- lift getStore ;;
      _ <<- lift (putStore (setMeetings st (meetings st ++ [createdMeeting])%list)) ;;
      ResponseJson StatusCreated (MeetingScheduled meetLink createdMeeting)
  end.

Definition CreateBookingSteps (env : Env) (validated : option CreateMeetingDto)
    : Handler Response :=
  match validated with
  | None =>
      WriteError (NewAppError InternalServerError "Validated DTO not found in context" false)
  | Some dto =>
      prepared <<- prepareBooking env dto ;;
      insertMeeting env dto (fst prepared) (snd prepared)
  end.

Definition CreateBooking (env : Env) (validated : option CreateMeetingDto)
    (w : World) : Response * World :=
  run (CreateBookingSteps env validated) w.

(** *** [CancelMeeting] *)

(** [SELECT m.*, e.user_id AS event_user_id FROM meetings m
    JOIN events e ON m.event_id = e.id WHERE m.id = $1] *)
Definition meetingWithOwnerRows (st : Store) (meetingID : string)
    : list (Meeting * string) :=
  flat_map
    (fun m =>
       if String.eqb (MeetingID m) meetingID then
         map (fun e => (m, EventUserID e))
             (filter (fun e => String.eqb (EventID e) (MeetingEventID m)) (events st))
       else [])
    (meetings st).

Definition setStatus (m : Meeting) (s : MeetingStatus) : Meeting :=
  {| MeetingID := MeetingID m; MeetingUserID := MeetingUserID m;
     MeetingEventID := MeetingEventID m; GuestName := GuestName m;
     GuestEmail := GuestEmail m; AdditionalInfo := AdditionalInfo m;
     StartTime := StartTime m; EndTime := EndTime m; MeetLink := MeetLink m;
     CalendarEventID := CalendarEventID m;
     CalendarAppType := CalendarAppType m; Status := s |}.

(** [UPDATE meetings SET status = $1 WHERE id = $2] on the table. *)
Definition updateStatus (ms : list Meeting) (meetingID : string) (s : MeetingStatus)
    : list Meeting :=
  map (fun m => if String.eqb (MeetingID m) meetingID then setStatus m s else m) ms.

Definition rowsAffected (ms : list Meeting) (meetingID : string) : nat :=
  List.length (filter (fun m => String.eqb (MeetingID m) meetingID) ms).

(** Step 2 of [CancelMeeting]: the remote event is deleted when that works;
    every failure is logged and nothing else. *)
Definition deleteRemoteEvent (env : Env) (meeting : Meeting) (eventUserID : string)
    : Eff unit :=
  match CalendarAppType meeting with
  | Some calendarAppType =>
      if negb (String.eqb (CalendarEventID meeting) "") then
        st <- getStore ;;
        match dbGet env QCancelIntegration
                (integrationRows st eventUserID calendarAppType) with
        | Err (Driver _) =>
            emit (LogPrintf "Warning: Failed to fetch integration for calendar deletion")
        | Err ErrNoRows => ret tt
        | Ok integration =>
            c <- GetCalendarClient env integration ;;
            match c with
            | (Err _, _) =>
                emit (LogPrintf "Warning: Failed to get calendar client for deletion")
            | (Ok calendarSvc, _) =>
                _ <- emit (CalendarDeleteCall (CalendarEventID meeting)) ;;
                if eventsDelete env (CalendarEventID meeting)
                then emit (LogPrintf "Successfully deleted calendar event")
                else emit (LogPrintf "Warning: Failed to delete calendar event")
            end
        end
      else ret tt
  | None => ret tt
  end.

Definition CancelMeetingSteps (env : Env) (meetingID : string) : Handler Response :=
  if String.eqb meetingID "" then
    WriteError (NewAppError BadRequest "Missing meetingId in path" false)
  else
    st <<- lift getStore ;;
    row <<- match dbGet env QFetchMeeting (meetingWithOwnerRows st meetingID) with
            | Err ErrNoRows => WriteError (NewNotFoundError "Meeting" false)
            | Err (Driver _) =>
                WriteError (NewAppError InternalServerError "Failed to fetch meeting" true)
            | Ok row => continue row
            end ;;
    let '(meeting, eventUserID) := row in
    if MeetingStatus_eqb (Status meeting) Cancelled then
      WriteError (NewAppError BadRequest "Meeting is already cancelled" false)
    else
      _ <<- lift (deleteRemoteEvent env meeting eventUserID) ;;
      match driverError env QUpdateMeeting with
      | Some _ =>
          WriteError (NewAppError InternalServerError "Failed to update meeting status" true)
      | None =>
          st' <<- lift getStore ;;
          _ <<- lift (putStore (setMeetings st' (updateStatus (meetings st') meetingID Cancelled))) ;;
          if Nat.eqb (rowsAffected (meetings st') meetingID) 0 then
            WriteError (NewNotFoundError "Meeting (for update)" false)
          else
            ResponseJson StatusOK (SimpleMessage "Meeting cancelled successfully")
      end.

Definition CancelMeeting (env : Env) (meetingID : string) (w : World)
    : Response * World :=
  run (CancelMeetingSteps env meetingID) w.

(** *** [GetNextDateForDay] and [GetPublicEventAvailability] *)

Definition weekdayIndex (d : DayOfWeek) : Z :=
  match d with
  | Sunday => 0 | Monday => 1 | Tuesday => 2 | Wednesday => 3
  | Thursday => 4 | Friday => 5 | Saturday => 6
  end.

(** [GetNextDateForDay]; every [DayOfWeek] of the embedding is a key of
    the source's table, so the error result does not arise. *)
Definition GetNextDateForDay (today : Time) (dayOfWeek : DayOfWeek) : Time :=
  let targetWeekDay := weekdayIndex dayOfWeek in
  let todayWeekDay := Weekday today in
  let daysUntilTarget := Z.rem (targetWeekDay - todayWeekDay + 7) 7 in
  let nextDate := AddDays today daysUntilTarget in
  midnight nextDate.

(** A row of the first query: the event, its owner's availability and one
    day rule; columns the LEFT JOINs leave NULL hold zero values. *)
Record AvailabilityRow := {
  RowEvent : Event;
  RowAvailabilityID : NullString;
  RowTimeGap : NullInt64;
  RowDay : option DayOfWeek;
  RowStartTime : string;
  RowEndTime : string;
  RowIsAvailable : bool
}.

Definition eventAvailabilityRows (st : Store) (eventID : string) : list AvailabilityRow :=
  flat_map
    (fun e =>
       flat_map
         (fun u =>
            if String.eqb (UserIDOf u) (EventUserID e) then
              match filter (fun a => String.eqb (AvailabilityUserID a) (UserIDOf u))
                           (availability st) with
              | [] =>
                  [{| RowEvent := e;
                      RowAvailabilityID := {| NSString := ""; NSValid := false |};
                      RowTimeGap := {| NIInt64 := 0; NIValid := false |};
                      RowDay := None; RowStartTime := ""; RowEndTime := "";
                      RowIsAvailable := false |}]
              | avs =>
                  flat_map
                    (fun a =>
                       let aid := {| NSString := AvailabilityID a; NSValid := true |} in
                       let gap := {| NIInt64 := TimeGap a; NIValid := true |} in
                       match filter (fun d => String.eqb (DayAvailabilityOf d) (AvailabilityID a))
                                    (day_availability st) with
                       | [] =>
                           [{| RowEvent := e; RowAvailabilityID := aid;
                               RowTimeGap := gap; RowDay := None;
                               RowStartTime := ""; RowEndTime := "";
                               RowIsAvailable := false |}]
                       | ds =>
                           map (fun d =>
                                  {| RowEvent := e; RowAvailabilityID := aid;
                                     RowTimeGap := gap;
                                     RowDay := Some (DayAvailabilityDay d);
                                     RowStartTime := DayStartTime d;
                                     RowEndTime := DayEndTime d;
                                     RowIsAvailable := DayIsAvailable d |})
                               ds
                       end)
                    avs
              end
            else [])
         (users st))
    (publicEventRows st eventID).

(** The map [dayRules]: a later row for a day replaces an earlier one. *)
Definition DayRules := DayOfWeek -> option AvailabilityDetail.

Definition buildDayRules (timeGap : Z) (dbResult : list AvailabilityRow) : DayRules :=
  fold_left
    (fun (dayRules : DayRules) row =>
       match RowDay row with
       | Some day =>
           if NSValid (RowAvailabilityID row) then
             fun d => if DayOfWeek_eqb d day
                      then Some {| RuleTimeGap := timeGap; RuleDay := day;
                                   RuleStartTime := RowStartTime row;
                                   RuleEndTime := RowEndTime row;
                                   RuleIsAvailable := RowIsAvailable row |}
                      else dayRules d
           else dayRules
       | None => dayRules
       end)
    dbResult (fun _ => None).

(** [SELECT ... FROM meetings WHERE user_id = $1 AND start_time < $2
    AND end_time > $3] *)
Definition meetingsInRangeRows (st : Store) (userID : string)
    (dateRangeEnd dateRangeStart : Time) : list Meeting :=
  filter (fun m => String.eqb (MeetingUserID m) userID
                   && (StartTime m <? dateRangeEnd)
                   && (dateRangeStart <? EndTime m))
         (meetings st).

(** The body of the loop over the days of the week. *)
Definition dailySlots (fuel : nat) (env : Env) (event : Event) (timeGap : Z)
    (dayRules : DayRules) (meetingsInRange : list Meeting) (dayOfWeek : DayOfWeek)
    (w : World) : option (DailyAvailabilitySlots * World) :=
  let targetDate := GetNextDateForDay (Now env) dayOfWeek in
  let isAvailable :=
    match dayRules dayOfWeek with
    | Some rule => RuleIsAvailable rule
    | None => false
    end in
  match dayRules dayOfWeek with
  | Some rule =>
      if isAvailable then
        let dayStart := targetDate in
        let dayEnd := AddDays targetDate 1 in
        let meetingsForThisDate :=
          filter (fun m => Before (StartTime m) dayEnd && After (EndTime m) dayStart)
                 meetingsInRange in
        match GenerateAvailableTimeSlots fuel (RuleStartTime rule) (RuleEndTime rule)
                (EventDuration event) timeGap meetingsForThisDate targetDate (Now env) with
        | None => None
        | Some (Err errSlots) =>
            Some ({| SlotsDay := dayOfWeek; Slots := []; SlotsIsAvailable := isAvailable |},
                  snd (emit (LogPrintf ("Error generating slots: " ++ errSlots)%string) w))
        | Some (Ok slots) =>
            Some ({| SlotsDay := dayOfWeek; Slots := slots; SlotsIsAvailable := isAvailable |}, w)
        end
      else
        Some ({| SlotsDay := dayOfWeek; Slots := []; SlotsIsAvailable := isAvailable |}, w)
  | None =>
      Some ({| SlotsDay := dayOfWeek; Slots := []; SlotsIsAvailable := isAvailable |}, w)
  end.

Fixpoint slotsForDays (fuel : nat) (env : Env) (event : Event) (timeGap : Z)
    (dayRules : DayRules) (meetingsInRange : list Meeting) (days : list DayOfWeek)
    (resultSlots : list DailyAvailabilitySlots) (w : World)
    : option (list DailyAvailabilitySlots * World) :=
  match days with
  | [] => Some (resultSlots, w)
  | dayOfWeek :: rest =>
      match dailySlots fuel env event timeGap dayRules meetingsInRange dayOfWeek w with
      | None => None
      | Some (dailyResult, w') =>
          slotsForDays fuel env event timeGap dayRules meetingsInRange rest
                       (resultSlots ++ [dailyResult])%list w'
      end
  end.

(** [GetPublicEventAvailability]; [None] when the fuel of a slot loop ran
    out. [SelectContext] reports an empty result as an empty slice. *)
Definition GetPublicEventAvailability (fuel : nat) (env : Env) (eventID : string)
    (w : World) : option (Response * World) :=
  if String.eqb eventID "" then
    Some (run (WriteError (NewAppError BadRequest "Missing eventId in path" false)) w)
  else
    match driverError env QEventAvailability with
    | Some _ =>
        Some (run (WriteError (NewAppError InternalServerError
                                 "Failed to fetch event and availabilty" true)) w)
    | None =>
        let dbResult := eventAvailabilityRows (store w) eventID in
        match dbResult with
        | [] =>
            Some (run (WriteError (NewAppError BadRequest
                                     "Event found but no availability for user" false)) w)
        | first :: _ =>
            if negb (NSValid (RowAvailabilityID first)) then
              Some (run (WriteError (NewAppError BadRequest
                                       "Event found but no availability for user" false)) w)
            else
              let event := RowEvent first in
              let timeGap := NIInt64 (RowTimeGap first) in
              let userID := EventUserID event in
              let dayRules := buildDayRules timeGap dbResult in
              let dateRangeStart := Now env in
              let dateRangeEnd := AddDays dateRangeStart 7 in
              match driverError env QMeetingsInRange with
              | Some _ =>
                  Some (run (WriteError (NewAppError InternalServerError
                                           "Failed to fetch meetings" true)) w)
              | None =>
                  let meetingsInRange :=
                    meetingsInRangeRows (store w) userID dateRangeEnd dateRangeStart in
                  match slotsForDays fuel env event timeGap dayRules meetingsInRange
                          AllDayOfWeek [] w with
                  | None => None
                  | Some (resultSlots, w') =>
                      Some (JsonResponse StatusOK (EventAvailability resultSlots), w')
                  end
              end
        end
    end.

End Controller.

(** ** Package [httpStatus] and the validity of error codes *)
Module HttpStatus.
Import Enum.

(** [HttpStatusCode.IsSuccess], [IsClientError], [IsServerError] *)
Definition IsSuccess (sc : Z) : bool := (200 <=? sc) && (sc <? 300).
Definition IsClientError (sc : Z) : bool := (400 <=? sc) && (sc <? 500).
Definition IsServerError (sc : Z) : bool := (500 <=? sc) && (sc <? 600).

(** [enum.AllErrorCodes] *)
Definition AllErrorCodes : list ErrorCode :=
  [AuthUserNotFound; AuthEmailAlreadyExists; AuthInvalidToken; AuthNotFound;
   AuthTooManyAttempts; AuthUnauthorizedAccess; AuthTokenNotFound;
   AccessUnauthorized; ValidationError; ResourceNotFound; InternalServerError].

(** [ErrorCode.IsValid] *)
Definition IsValid (ec : ErrorCode) : bool :=
  match ec with
  | AuthUserNotFound | AuthEmailAlreadyExists | AuthInvalidToken | AuthNotFound
  | AuthTooManyAttempts | AuthUnauthorizedAccess | AuthTokenNotFound
  | AccessUnauthorized | ValidationError | ResourceNotFound
  | InternalServerError => true
  | BadRequest => false
  end.

End HttpStatus.

(** ** [GetUserMeetings] ([controller.go]) *)
Module Meetings.
Import GoTime Enum AppError Model Slots Controller.

(** [enum.MeetingFilter] *)
Inductive MeetingFilter :=
  MeetingFilterUpcoming | MeetingFilterPast | MeetingFilterCancelled.

(** The first [switch]; the argument is [strings.ToUpper(filterQuery)]. *)
Definition filterOfQuery (upperFilterQuery : string) : MeetingFilter :=
  if String.eqb upperFilterQuery "UPCOMING" then MeetingFilterUpcoming
  else if String.eqb upperFilterQuery "PAST" then MeetingFilterPast
  else if String.eqb upperFilterQuery "CANCELLED" then MeetingFilterCancelled
  else MeetingFilterUpcoming.

(** The [filterClause] of the second [switch], as a test on a row. *)
Definition filterClause (filter : MeetingFilter) (now : Time) (m : Meeting) : bool :=
  match filter with
  | MeetingFilterUpcoming =>
      MeetingStatus_eqb (Status m) Scheduled && (now <? StartTime m)
  | MeetingFilterPast =>
      MeetingStatus_eqb (Status m) Scheduled && (StartTime m <? now)
  | MeetingFilterCancelled => MeetingStatus_eqb (Status m) Cancelled
  end.

(** A meeting with the aliased columns of its event. *)
Record MeetingRow := {
  RowMeeting : Meeting;
  RowEventTitle : string;
  RowEventLocationType : EventLocationType
}.

(** [FROM meetings m JOIN events e ON m.event_id = e.id
    WHERE m.user_id = $1] and the filter clause, in table order. *)
Definition selectedRows (st : Store) (userID : string) (filter : MeetingFilter)
    (now : Time) : list MeetingRow :=
  flat_map
    (fun m =>
       if String.eqb (MeetingUserID m) userID && filterClause filter now m then
         map (fun e => {| RowMeeting := m; RowEventTitle := EventTitle e;
                          RowEventLocationType := EventLocation e |})
             (List.filter (fun e => String.eqb (EventID e) (MeetingEventID m))
                          (events st))
       else [])
    (meetings st).

(** [ORDER BY m.start_time ASC]: rows with the same start time keep the
    order of the table. *)
Fixpoint insertByStartTime (r : MeetingRow) (sorted : list MeetingRow)
    : list MeetingRow :=
  match sorted with
  | [] => [r]
  | x :: rest =>
      if StartTime (RowMeeting r) <? StartTime (RowMeeting x)
      then r :: sorted
      else x :: insertByStartTime r rest
  end.

Definition orderByStartTime (rows : list MeetingRow) : list MeetingRow :=
  fold_left (fun sorted r => insertByStartTime r sorted) rows [].

Inductive MeetingsResponse :=
| MeetingsError (e : AppError)
| MeetingsJson (code : Z) (message : string) (meetings : list MeetingRow).

(** [appError.NewUnauthorizedError(nil)] *)
Definition NewUnauthorizedError (cause : bool) : AppError :=
  NewAppError AccessUnauthorized "" cause.

(** [appError.WriteError] for this handler's response type. *)
Definition writeMeetingsError (e : AppError) (w : World) : MeetingsResponse * World :=
  (MeetingsError e, {| store := store w; trace := (trace w ++ [LogFatalf])%list |}).

(** [GetUserMeetings]; [userID] is what [GetUserIDFromContext] yields,
    [dbError] the driver's failure of the query, if any ([SelectContext]
    does not answer [sql.ErrNoRows]). *)
Definition GetUserMeetings (now : Time) (dbError : option DriverError)
    (userID : option string) (upperFilterQuery : string) (w : World)
    : MeetingsResponse * World :=
  match userID with
  | None => writeMeetingsError (NewUnauthorizedError false) w
  | Some userID =>
      let filter := filterOfQuery upperFilterQuery in
      match dbError with
      | Some _ =>
          writeMeetingsError
            (NewAppError InternalServerError "Failed to retrieve useer meetings" true) w
      | None =>
          (MeetingsJson StatusOK "Meetings fetched successfully"
             (orderByStartTime (selectedRows (store w) userID filter now)),
           w)
      end
  end.

End Meetings.

(** ** [TogglePrivacy] ([event.go]) *)
Module Events.
Import GoTime Enum AppError Model Slots Controller.

Definition setEvents (st : Store) (es : list Event) : Store :=
  {| users := users st; events := es;
     availability := availability st;
     day_availability := day_availability st;
     integrations := integrations st;
     meetings := meetings st |}.

Definition togglePrivate (e : Event) : Event :=
  {| EventID := EventID e; EventUserID := EventUserID e;
     EventTitle := EventTitle e; EventDuration := EventDuration e;
     EventIsPrivate := negb (EventIsPrivate e);
     EventLocation := EventLocation e |}.

(** The rows [WHERE id = $1 AND user_id = $2]. *)
Definition ownedEvent (eventID userID : string) (e : Event) : bool :=
  String.eqb (EventID e) eventID && String.eqb (EventUserID e) userID.

(** [UPDATE events SET is_private = NOT is_private WHERE id = $1 AND
    user_id = $2 RETURNING ...]: the table after the statement and the rows
    it returns. *)
Definition togglePrivacyRows (es : list Event) (eventID userID : string)
    : list Event * list Event :=
  (map (fun e => if ownedEvent eventID userID e then togglePrivate e else e) es,
   map togglePrivate (filter (ownedEvent eventID userID) es)).

(** [TogglePrivacy]; a statement the driver fails changes nothing. *)
Definition TogglePrivacySteps (dbError : option DriverError) (userID : option string)
    (eventID : string) : Handler Response :=
  match userID with
  | None => WriteError (Meetings.NewUnauthorizedError false)
  | Some userID =>
      if String.eqb eventID "" then
        WriteError (NewAppError BadRequest "Missing eventId in path" false)
      else
        match dbError with
        | Some _ =>
            WriteError (NewAppError InternalServerError
                          "Failed to toggle event privacy" true)
        | None =>
            st <<- lift getStore ;;
            let (es, returned) := togglePrivacyRows (events st) eventID userID in
            _ <<- lift (putStore (setEvents st es)) ;;
            match returned with
            | [] =>
                WriteError
                  (NewNotFoundError ("Event with ID " ++ eventID ++ " for user")%string
                     false)
            | event :: _ =>
                let privacyStatus :=
                  if EventIsPrivate event then "private" else "public" in
                ResponseJson StatusOK
                  (SimpleMessage ("Event sent to " ++ privacyStatus
                                    ++ " successfully")%string)
            end
        end
  end.

Definition TogglePrivacy (dbError : option DriverError) (userID : option string)
    (eventID : string) (w : World) : Response * World :=
  run (TogglePrivacySteps dbError userID eventID) w.

End Events.

(** ** [UpdateAvailability] and the [time_hm] validation *)
Module Availabilities.
Import GoTime Enum AppError Model Slots Controller.

(** [time.Parse("15:04", s)]: the hour in one or two digits, a colon, the
    minute in two digits, and nothing after it. *)
Definition ParseHM (s : string) : option Clock :=
  match getnum s false with
  | None => None
  | Some (h, s1) =>
      if 24 <=? h then None else
      match skipColon s1 with
      | None => None
      | Some s2 =>
          match getnum s2 true with
          | None => None
          | Some (m, s3) =>
              if 60 <=? m then None else
              match s3 with
              | EmptyString => Some {| clockHour := h; clockMinute := m |}
              | _ => None
              end
          end
      end
  end.

Definition between (lo hi c : ascii) : bool :=
  ((N_of_ascii lo <=? N_of_ascii c) && (N_of_ascii c <=? N_of_ascii hi))%N.

(** [ValidateTimeHM]: the whole string matches
    [^([01]\d|2[0-3]):([0-5]\d)$]. *)
Definition ValidateTimeHM (s : string) : bool :=
  match s with
  | String h1 (String h2 (String c (String m1 (String m2 EmptyString)))) =>
      (between "0" "1" h1 && between "0" "9" h2
       || Ascii.eqb h1 "2" && between "0" "3" h2)
      && Ascii.eqb c ":"
      && between "0" "5" m1 && between "0" "9" m2
  | _ => false
  end.

(** [dto.DayAvailabilityDto] and [dto.UpdateAvailabilityDto] *)
Record DayAvailabilityDto := {
  DtoDay : DayOfWeek;
  DtoDayStartTime : string;
  DtoDayEndTime : string;
  DtoDayIsAvailable : bool
}.

Record UpdateAvailabilityDto := {
  DtoTimeGap : Z;
  DtoDays : list DayAvailabilityDto
}.

Definition DayOfWeek_string (d : DayOfWeek) : string :=
  match d with
  | Sunday => "SUNDAY" | Monday => "MONDAY" | Tuesday => "TUESDAY"
  | Wednesday => "WEDNESDAY" | Thursday => "THURSDAY" | Friday => "FRIDAY"
  | Saturday => "SATURDAY"
  end.

(** The statements of [UpdateAvailability], [BeginTxx] and [Commit]
    included. *)
Inductive TxQuery :=
| QBeginTx | QFindAvailability | QCreateAvailability | QUpdateTimeGap
| QDeleteDays | QInsertDays | QCommit.

(** What the database answers during one update. *)
Record TxEnv := {
  txError : TxQuery -> option DriverError;
  (** the id the database gives to an inserted availability row *)
  newAvailabilityID : string;
  (** the text of a stored [TIME] value ([start_time::TEXT]) for the text
      that was inserted *)
  timeText : string -> string
}.

Definition setAvailability (st : Store) (avs : list Availability) : Store :=
  {| users := users st; events := events st;
     availability := avs;
     day_availability := day_availability st;
     integrations := integrations st;
     meetings := meetings st |}.

Definition setDayAvailability (st : Store) (days : list DayAvailability) : Store :=
  {| users := users st; events := events st;
     availability := availability st;
     day_availability := days;
     integrations := integrations st;
     meetings := meetings st |}.

(** [SELECT id FROM availability WHERE user_id = $1] *)
Definition availabilityIDRows (st : Store) (userID : string) : list string :=
  map AvailabilityID
      (filter (fun a => String.eqb (AvailabilityUserID a) userID) (availability st)).

(** [UPDATE availability SET time_gap = $1 WHERE id = $2] on the table. *)
Definition updateTimeGap (avs : list Availability) (availabilityID : string)
    (timeGap : Z) : list Availability :=
  map (fun a => if String.eqb (AvailabilityID a) availabilityID
                then {| AvailabilityID := AvailabilityID a;
                        AvailabilityUserID := AvailabilityUserID a;
                        TimeGap := timeGap |}
                else a) avs.

(** [DELETE FROM day_availability WHERE availability_id = $1] on the table. *)
Definition deleteDays (days : list DayAvailability) (availabilityID : string)
    : list DayAvailability :=
  filter (fun d => negb (String.eqb (DayAvailabilityOf d) availabilityID)) days.

(** Step 1 of [UpdateAvailability]: the availability row of the user is
    found and its gap updated, or the row is created. *)
Definition findOrCreateAvailability (env : TxEnv) (userID : string)
    (dto : UpdateAvailabilityDto) : Handler string :=
  st <<- lift getStore ;;
  match txError env QFindAvailability with
  | Some _ =>
      WriteError (NewAppError InternalServerError
                    "Failed to find availability record" true)
  | None =>
      match availabilityIDRows st userID with
      | [] =>
          match txError env QCreateAvailability with
          | Some _ =>
              WriteError (NewAppError InternalServerError
                            "Failed to create availability record" true)
          | None =>
              _ <<- lift (putStore
                            (setAvailability st
                               (availability st
                                ++ [{| AvailabilityID := newAvailabilityID env;
                                       AvailabilityUserID := userID;
                                       TimeGap := DtoTimeGap dto |}])%list)) ;;
              continue (newAvailabilityID env)
          end
      | availabilityID :: _ =>
          match txError env QUpdateTimeGap with
          | Some _ =>
              WriteError (NewAppError InternalServerError
                            "Failed to update time gap" true)
          | None =>
              _ <<- lift (putStore
                            (setAvailability st
                               (updateTimeGap (availability st) availabilityID
                                  (DtoTimeGap dto)))) ;;
              continue availabilityID
          end
      end
  end.

(** Step 2: the old day rows are deleted. *)
Definition deleteOldDays (env : TxEnv) (availabilityID : string) : Handler unit :=
  match txError env QDeleteDays with
  | Some _ =>
      WriteError (NewAppError InternalServerError
                    "Failed to delete old availability days" true)
  | None =>
      st <<- lift getStore ;;
      lift (putStore (setDayAvailability st
                        (deleteDays (day_availability st) availabilityID)))
  end.

(** The test of the loop of step 3 on one day. *)
Definition parsesHM (dayDto : DayAvailabilityDto) : bool :=
  match ParseHM (DtoDayStartTime dayDto), ParseHM (DtoDayEndTime dayDto) with
  | Some _, Some _ => true
  | _, _ => false
  end.

Definition invalidTimeFormat (dayDto : DayAvailabilityDto) : string :=
  ("invalid time format for day " ++ DayOfWeek_string (DtoDay dayDto)
   ++ ": start='" ++ DtoDayStartTime dayDto
   ++ "', end='" ++ DtoDayEndTime dayDto ++ "'")%string.

Definition dayInsert (env : TxEnv) (availabilityID : string)
    (dayDto : DayAvailabilityDto) : DayAvailability :=
  {| DayAvailabilityOf := availabilityID;
     DayAvailabilityDay := DtoDay dayDto;
     DayStartTime := timeText env (DtoDayStartTime dayDto);
     DayEndTime := timeText env (DtoDayEndTime dayDto);
     DayIsAvailable := DtoDayIsAvailable dayDto |}.

(** Step 3: the days are checked in order, then inserted in one statement. *)
Definition insertNewDays (env : TxEnv) (availabilityID : string)
    (dto : UpdateAvailabilityDto) : Handler unit :=
  match DtoDays dto with
  | [] => continue tt
  | _ :: _ =>
      match find (fun dayDto => negb (parsesHM dayDto)) (DtoDays dto) with
      | Some dayDto =>
          WriteError (NewAppError ValidationError (invalidTimeFormat dayDto) false)
      | None =>
          match txError env QInsertDays with
          | Some _ =>
              WriteError (NewAppError InternalServerError
                            "Failed to insert new availability days" true)
          | None =>
              st <<- lift getStore ;;
              lift (putStore
                      (setDayAvailability st
                         (day_availability st
                          ++ map (dayInsert env availabilityID) (DtoDays dto))%list))
          end
      end
  end.

(** The statements between [BeginTxx] and the deferred function. *)
Definition UpdateAvailabilitySteps (env : TxEnv) (userID : string)
    (dto : UpdateAvailabilityDto) : Handler Response :=
  availabilityID <<- findOrCreateAvailability env userID dto ;;
  _ <<- deleteOldDays env availabilityID ;;
  _ <<- insertNewDays env availabilityID dto ;;
  ResponseJson StatusOK (SimpleMessage "Availability updated successfully").

(** The deferred function: [err] is not nil exactly on the paths that end
    in [WriteError]; then, and when [Commit] fails, the tables are as they
    were before the transaction. The response has been written already. *)
Definition endTransaction (env : TxEnv) (before : Store) (out : Response * World)
    : Response * World :=
  let (r, w') := out in
  match r with
  | ErrorResponse _ => (r, {| store := before; trace := trace w' |})
  | JsonResponse _ _ =>
      match txError env QCommit with
      | Some _ => (r, {| store := before; trace := trace w' |})
      | None => (r, w')
      end
  end.

(** [UpdateAvailability]; [userID] is what [GetUserIDFromContext] yields,
    [validated] what [GetValidatedDTOFromContext] yields. *)
Definition UpdateAvailability (env : TxEnv) (userID : option string)
    (validated : option UpdateAvailabilityDto) (w : World) : Response * World :=
  match userID with
  | None => run (WriteError (Meetings.NewUnauthorizedError false)) w
  | Some userID =>
      match validated with
      | None =>
          run (WriteError (NewAppError InternalServerError
                             "Validated DTO not found in context" false)) w
      | Some dto =>
          match txError env QBeginTx with
          | Some _ =>
              run (WriteError (NewAppError InternalServerError
                                 "Failed to start transaction" true)) w
          | None =>
              endTransaction env (store w)
                (run (UpdateAvailabilitySteps env userID dto) w)
          end
      end
  end.

End Availabilities.

(** ** Sample data: one host, one public event, the default weekly rules *)
Module Fixtures.
Import GoTime Enum AppError Model Slots Controller.

(** Friday 2024-10-04 and the Monday after it. *)
Definition friday : Time := 20000 * Day.
Definition monday : Time := 20003 * Day.

Definition at_ (date : Time) (hour min : Z) : Time := date + hour * Hour + min * Minute.

Definition defaultDays (availabilityID startTime : string) : list DayAvailability :=
  map (fun d => {| DayAvailabilityOf := availabilityID;
                   DayAvailabilityDay := d;
                   DayStartTime := startTime;
                   DayEndTime := "17:00:00";
                   DayIsAvailable :=
                     negb (DayOfWeek_eqb d Sunday || DayOfWeek_eqb d Saturday) |})
      AllDayOfWeek.

(** The default rules, with a malformed start time on Wednesday. *)
Definition brokenWednesday (availabilityID : string) : list DayAvailability :=
  map (fun d => {| DayAvailabilityOf := availabilityID;
                   DayAvailabilityDay := d;
                   DayStartTime :=
                     if DayOfWeek_eqb d Wednesday then "9 o'clock" else "09:00:00";
                   DayEndTime := "17:00:00";
                   DayIsAvailable :=
                     negb (DayOfWeek_eqb d Sunday || DayOfWeek_eqb d Saturday) |})
      AllDayOfWeek.

Definition meetingOn (id : string) (startTime endTime : Time) (status : MeetingStatus)
    : Meeting :=
  {| MeetingID := id; MeetingUserID := "u1"; MeetingEventID := "e1";
     GuestName := "Guest"; GuestEmail := "guest@example.org"; AdditionalInfo := "";
     StartTime := startTime; EndTime := endTime; MeetLink := "";
     CalendarEventID := "cal-1";
     CalendarAppType := Some AppGoogleMeetAndCalendar;
     Status := status |}.

Definition hostIntegration : Integration :=
  {| IntegrationUserID := "u1"; AppType := AppGoogleMeetAndCalendar;
     AccessToken := {| NSString := "old-access"; NSValid := true |};
     RefreshToken := {| NSString := "refresh-1"; NSValid := true |};
     ExpiryDate := {| NIInt64 := 1728000000; NIValid := true |};
     IsConnected := true |}.

Definition introEvent : Event :=
  {| EventID := "e1"; EventUserID := "u1"; EventTitle := "Intro call";
     EventDuration := 60; EventIsPrivate := false;
     EventLocation := LocationGoogleMeetAndCalendar |}.



Definition storeWith (days : list DayAvailability) (ms : list Meeting) : Store :=
  {| users := [{| UserIDOf := "u1"; UserEmail := "host@example.org" |}];
     events := [introEvent];
     availability := [{| AvailabilityID := "a1"; AvailabilityUserID := "u1"; TimeGap := 30 |}];
     day_availability := days;
     integrations := [hostIntegration];
     meetings := ms |}.

Definition worldOf (st : Store) : World := {| store := st; trace := [] |}.

(** Monday 10:00 to 11:00, once cancelled and once scheduled. *)
Definition cancelledWorld : World :=
  worldOf (storeWith (defaultDays "a1" "09:00:00")
             [meetingOn "m1" (at_ monday 10 0) (at_ monday 11 0) Cancelled]).
Definition scheduledWorld : World :=
  worldOf (storeWith (defaultDays "a1" "09:00:00")
             [meetingOn "m1" (at_ monday 10 0) (at_ monday 11 0) Scheduled]).
Definition emptyWorld : World :=
  worldOf (storeWith (defaultDays "a1" "09:00:00") []).
Definition brokenWorld : World :=
  worldOf (storeWith (brokenWednesday "a1") []).

(** Friday 08:00; the provider rotates the token and every call works. *)
Definition healthyEnv : Env :=
  {| Now := at_ friday 8 0;
     driverError := fun _ => None;
     tokenSourceToken := fun _ =>
       Some {| TokenAccess := "new-access"; TokenRefresh := "refresh-2";
               TokenExpiry := Some 1728003600 |};
     calendarNewService := true;
     eventsInsert := fun _ =>
       Some {| CalId := "cal-2"; HangoutLink := "https://meet.example/abc" |};
     eventsDelete := fun _ => true;
     newMeetingID := "m2" |}.

(** The calendar API refuses to create and to delete events. *)
Definition calendarDownEnv : Env :=
  {| Now := at_ friday 8 0;
     driverError := fun _ => None;
     tokenSourceToken := tokenSourceToken healthyEnv;
     calendarNewService := true;
     eventsInsert := fun _ => None;
     eventsDelete := fun _ => false;
     newMeetingID := "m2" |}.

(** The insert of the meeting row violates a constraint. *)
Definition conflictEnv : Env :=
  {| Now := at_ friday 8 0;
     driverError := fun q => match q with
                             | QInsertMeeting => Some ConstraintViolation
                             | _ => None
                             end;
     tokenSourceToken := tokenSourceToken healthyEnv;
     calendarNewService := true;
     eventsInsert := eventsInsert healthyEnv;
     eventsDelete := fun _ => true;
     newMeetingID := "m2" |}.

Definition bookingDto : CreateMeetingDto :=
  {| DtoEventID := "e1";
     DtoStartTime := at_ monday 12 0; DtoEndTime := at_ monday 13 0;
     DtoGuestName := "Guest"; DtoGuestEmail := "guest@example.org";
     DtoAdditionalInfo := "" |}.

End Fixtures.

(** ** Further worlds *)
Module Scenarios.
Import GoTime Enum AppError Model Slots Controller.

(** A public event held on Zoom, and the owner's Zoom integration. *)
Definition zoomEvent : Event :=
  {| EventID := "e2"; EventUserID := "u1"; EventTitle := "Zoom call";
     EventDuration := 30; EventIsPrivate := false;
     EventLocation := LocationZoomMeeting |}.

Definition zoomIntegration : Integration :=
  {| IntegrationUserID := "u1"; AppType := AppZoomMeeting;
     AccessToken := {| NSString := "zoom-access"; NSValid := true |};
     RefreshToken := {| NSString := "zoom-refresh"; NSValid := true |};
     ExpiryDate := {| NIInt64 := 1728000000; NIValid := true |};
     IsConnected := true |}.

Definition zoomWorld : World :=
  {| store :=
       {| users := [{| UserIDOf := "u1"; UserEmail := "host@example.org" |}];
          events := [Fixtures.introEvent; zoomEvent];
          availability :=
            [{| AvailabilityID := "a1"; AvailabilityUserID := "u1"; TimeGap := 30 |}];
          day_availability := Fixtures.defaultDays "a1" "09:00:00";
          integrations := [Fixtures.hostIntegration; zoomIntegration];
          meetings := [] |};
     trace := [] |}.

Definition zoomDto : CreateMeetingDto :=
  {| DtoEventID := "e2";
     DtoStartTime := Fixtures.at_ Fixtures.monday 12 0;
     DtoEndTime := Fixtures.at_ Fixtures.monday 12 30;
     DtoGuestName := "Guest"; DtoGuestEmail := "guest@example.org";
     DtoAdditionalInfo := "" |}.

(** The week of the default rules for a 60 minute event, nothing booked. *)
Definition freeDay : list string :=
  ["09:00"; "09:30"; "10:00"; "10:30"; "11:00"; "11:30"; "12:00"; "12:30";
   "13:00"; "13:30"; "14:00"; "14:30"; "15:00"; "15:30"; "16:00"].

Definition freeWeek : list DailyAvailabilitySlots :=
  [ {| SlotsDay := Sunday; Slots := []; SlotsIsAvailable := false |};
    {| SlotsDay := Monday; Slots := freeDay; SlotsIsAvailable := true |};
    {| SlotsDay := Tuesday; Slots := freeDay; SlotsIsAvailable := true |};
    {| SlotsDay := Wednesday; Slots := freeDay; SlotsIsAvailable := true |};
    {| SlotsDay := Thursday; Slots := freeDay; SlotsIsAvailable := true |};
    {| SlotsDay := Friday; Slots := freeDay; SlotsIsAvailable := true |};
    {| SlotsDay := Saturday; Slots := []; SlotsIsAvailable := false |} ].

(** A database that carries out every statement of an update, and one
    that refuses the commit; a stored time reads back with its seconds. *)
Definition healthyTx : Availabilities.TxEnv :=
  {| Availabilities.txError := fun _ => None;
     Availabilities.newAvailabilityID := "a2";
     Availabilities.timeText := fun s => (s ++ ":00")%string |}.

Definition commitFailsTx : Availabilities.TxEnv :=
  {| Availabilities.txError :=
       fun q => match q with
                | Availabilities.QCommit => Some ConnectionFailure
                | _ => None
                end;
     Availabilities.newAvailabilityID := "a2";
     Availabilities.timeText := fun s => (s ++ ":00")%string |}.

(** The deletion of the old day rows fails. *)
Definition deleteFailsTx : Availabilities.TxEnv :=
  {| Availabilities.txError :=
       fun q => match q with
                | Availabilities.QDeleteDays => Some ConnectionFailure
                | _ => None
                end;
     Availabilities.newAvailabilityID := "a2";
     Availabilities.timeText := fun s => (s ++ ":00")%string |}.

(** Saturdays from 10:00 to 14:00, no Sundays, a gap of 15 minutes. *)
Definition weekendDto : Availabilities.UpdateAvailabilityDto :=
  {| Availabilities.DtoTimeGap := 15;
     Availabilities.DtoDays :=
       [ {| Availabilities.DtoDay := Saturday;
            Availabilities.DtoDayStartTime := "10:00";
            Availabilities.DtoDayEndTime := "14:00";
            Availabilities.DtoDayIsAvailable := true |};
         {| Availabilities.DtoDay := Sunday;
            Availabilities.DtoDayStartTime := "10:00";
            Availabilities.DtoDayEndTime := "12:30";
            Availabilities.DtoDayIsAvailable := false |} ] |}.

End Scenarios.

Import GoTime Enum AppError Model Slots Controller.

(** * Vocabulary of the properties *)

(** A slot of the given length that starts at [s] lies in the window. *)
Definition slotWithin (openTime closeTime : Time) (duration : Duration) (s : Time) : Prop :=
  openTime <= s /\ s + duration <= closeTime.

(** What holds of a start the slot loop appends. *)
Definition emitted (dayEnd now : Time) (duration : Duration) (meetings : list Meeting)
    (s : Time) : Prop :=
  s < dayEnd /\ s + duration <= dayEnd /\ now <= s
  /\ IsSlotAvailable s (s + duration) meetings = true.

(** A step that leaves the store alone. *)
Definition preserves {A} (c : Eff A) : Prop :=
  forall w, store (snd (c w)) = store w.

(** The spec's ConflictError, in the terms of the error package: a failure
    reported with the HTTP status 409 (Conflict). *)
Definition ConflictError (r : Response) : Prop :=
  match r with
  | ErrorResponse e => HTTPStatus e = StatusConflict
  | JsonResponse _ _ => False
  end.

(** A failure reported under the code [InternalServerError]. *)
Definition InternalError (r : Response) : Prop :=
  match r with
  | ErrorResponse e => Code e = InternalServerError
  | JsonResponse _ _ => False
  end.

(** The slot list of one day in an availability response. *)
Definition slotsOfDay (r : option (Response * World)) (day : DayOfWeek)
    : option (list string) :=
  match r with
  | Some (JsonResponse _ (EventAvailability data), _) =>
      match filter (fun d => DayOfWeek_eqb (SlotsDay d) day) data with
      | d :: _ => Some (Slots d)
      | [] => None
      end
  | _ => None
  end.


(** The calls a trace makes to the OAuth provider and the calendar API. *)
Definition isRemoteCall (e : Effect) : bool :=
  match e with
  | TokenSourceCall _ | CalendarInsertCall _ | CalendarDeleteCall _ => true
  | LogPrintf _ | LogFatalf => false
  end.

Definition remoteCalls (tr : list Effect) : list Effect := filter isRemoteCall tr.

(** The token [GetCalendarClient] hands to the token source. *)
Definition storedToken (i : Integration) : Token :=
  {| TokenAccess := NSString (AccessToken i);
     TokenRefresh := NSString (RefreshToken i);
     TokenExpiry := Some (NIInt64 (ExpiryDate i)) |}.

(** A Google integration that carries a refresh token. *)
Definition refreshable (i : Integration) : bool :=
  IntegrationAppType_eqb (AppType i) AppGoogleMeetAndCalendar
  && NSValid (RefreshToken i)
  && negb (String.eqb (NSString (RefreshToken i)) "").


(** A handler step that, when it answers itself, answers with an error. *)
Definition failsOnly {A} (h : Handler A) : Prop :=
  forall w r w', h w = (Return r, w') -> exists e, r = ErrorResponse e.


(** Rows in ascending order of their start time. *)
Definition ascendingByStart (rows : list Meetings.MeetingRow) : Prop :=
  StronglySorted
    (fun a b => StartTime (Meetings.RowMeeting a) <= StartTime (Meetings.RowMeeting b))
    rows.

(** What a filter asks of a meeting at the clock reading [now]. *)
Definition meetingMatches (filter : Meetings.MeetingFilter) (now : Time) (m : Meeting)
    : Prop :=
  match filter with
  | Meetings.MeetingFilterUpcoming => Status m = Scheduled /\ now < StartTime m
  | Meetings.MeetingFilterPast => Status m = Scheduled /\ StartTime m < now
  | Meetings.MeetingFilterCancelled => Status m = Cancelled
  end.

(** A row of the listing of [userID]: a stored meeting of the user that
    matches the filter, with the title and the location of a stored event
    that has the meeting's event id. *)
Definition listedRow (st : Store) (userID : string) (filter : Meetings.MeetingFilter)
    (now : Time) (r : Meetings.MeetingRow) : Prop :=
  In (Meetings.RowMeeting r) (meetings st)
  /\ MeetingUserID (Meetings.RowMeeting r) = userID
  /\ meetingMatches filter now (Meetings.RowMeeting r)
  /\ exists e, In e (events st)
               /\ EventID e = MeetingEventID (Meetings.RowMeeting r)
               /\ Meetings.RowEventTitle r = EventTitle e
               /\ Meetings.RowEventLocationType r = EventLocation e.

(** * Properties *)

(** ** The slot loop *)

Section SlotLoop.
Variables (dayEnd now : Time) (duration gap : Duration) (meetings : list Meeting).

Lemma slotLoop_appends fuel : forall cur acc r,
  slotLoop fuel cur dayEnd now duration gap meetings acc = Some r ->
  exists new, r = (acc ++ new)%list
                /\ Forall (emitted dayEnd now duration meetings) new.
Proof.
  induction fuel as [|fuel IH]; intros cur acc r; simpl; [discriminate|].
  unfold Before, After, Equal, Add.
  destruct (cur <? dayEnd) eqn:Hlt.
  - destruct (dayEnd <? cur + duration) eqn:Hend.
    + intros [= <-]. exists []. now rewrite app_nil_r.
    + destruct (((now <? cur) || (cur =? now)) &&
                IsSlotAvailable cur (cur + duration) meetings) eqn:Hok; intros Hrec.
      * apply IH in Hrec as (new & -> & Hnew).
        exists (cur :: new). rewrite <- app_assoc. split; [reflexivity|].
        constructor; [|exact Hnew].
        apply andb_true_iff in Hok as [Hfut Hfree].
        apply orb_true_iff in Hfut. unfold emitted.
        repeat split; try lia; exact Hfree.
      * apply IH in Hrec as (new & -> & Hnew). now exists new.
  - intros [= <-]. exists []. now rewrite app_nil_r.
Qed.

(** With a positive step the cursor never falls below its first value. *)
Lemma slotLoop_from fuel : 0 <= gap -> forall cur acc r,
  slotLoop fuel cur dayEnd now duration gap meetings acc = Some r ->
  exists new, r = (acc ++ new)%list /\ Forall (fun s => cur <= s) new.
Proof.
  intros Hgap. induction fuel as [|fuel IH]; intros cur acc r; simpl; [discriminate|].
  unfold Before, After, Equal, Add.
  destruct (cur <? dayEnd); [|intros [= <-]; exists []; now rewrite app_nil_r].
  destruct (dayEnd <? cur + duration); [intros [= <-]; exists []; now rewrite app_nil_r|].
  destruct (((now <? cur) || (cur =? now)) &&
            IsSlotAvailable cur (cur + duration) meetings); intros Hrec;
    apply IH in Hrec as (new & -> & Hnew).
  - exists (cur :: new). rewrite <- app_assoc. split; [reflexivity|].
    constructor; [lia|]. eapply Forall_impl; [|exact Hnew]. simpl. intros; lia.
  - exists new. split; [reflexivity|].
    eapply Forall_impl; [|exact Hnew]. simpl. intros; lia.
Qed.

(** Enough fuel for a cursor that moves forward. *)
Lemma slotLoop_terminates fuel : 0 < gap -> forall cur acc,
  dayEnd - cur <= Z.of_nat fuel * gap ->
  exists r, slotLoop (S fuel) cur dayEnd now duration gap meetings acc = Some r.
Proof.
  intros Hgap. induction fuel as [|fuel IH]; intros cur acc Hfuel.
  - simpl. unfold Before. destruct (cur <? dayEnd) eqn:Hlt; [lia|]. eauto.
  - cbn [slotLoop]. unfold Before at 1.
    destruct (cur <? dayEnd) eqn:Hlt; [|eauto].
    destruct (After (Add cur duration) dayEnd); [eauto|].
    apply IH. unfold Add. lia.
Qed.

(** A cursor that does not move forward never leaves the loop. *)
Lemma slotLoop_diverges fuel : gap <= 0 -> forall cur acc,
  cur < dayEnd -> cur + duration <= dayEnd ->
  slotLoop fuel cur dayEnd now duration gap meetings acc = None.
Proof.
  intros Hgap. induction fuel as [|fuel IH]; intros cur acc Hlt Hend; [reflexivity|].
  simpl. unfold Before, After, Add.
  destruct (cur <? dayEnd) eqn:E1; [|lia].
  destruct (dayEnd <? cur + duration) eqn:E2; [lia|].
  apply IH; lia.
Qed.

End SlotLoop.

(** ** The slot generator *)

Lemma IsSlotAvailable_true slotStart slotEnd meetings :
  IsSlotAvailable slotStart slotEnd meetings = true <->
  Forall (fun m => ~ (slotStart < EndTime m /\ StartTime m < slotEnd)) meetings.
Proof.
  induction meetings as [|m ms IH]; simpl.
  - split; [constructor | reflexivity].
  - unfold Before, After.
    destruct ((slotStart <? EndTime m) && (StartTime m <? slotEnd)) eqn:E.
    + split; [discriminate|]. intros H. inversion H; subst.
      apply andb_true_iff in E. exfalso. apply H2. lia.
    + rewrite IH. apply andb_false_iff in E.
      split; intros H.
      * constructor; [lia | exact H].
      * now inversion H.
Qed.

Lemma wrap64_small z : - 2 ^ 63 <= z < 2 ^ 63 -> wrap64 z = z.
Proof.
  intros H. unfold wrap64.
  rewrite Z.mod_small; lia.
Qed.

Lemma getnum_range s fixed n rest :
  getnum s fixed = Some (n, rest) -> 0 <= n.
Proof.
  assert (Hd : forall c, isDigit c = true -> 0 <= digitOf c).
  { intros c. unfold isDigit, digitOf. intros H.
    apply andb_true_iff in H as [H _]. apply N.leb_le in H. lia. }
  unfold getnum. destruct s as [|c0 rest0]; [discriminate|].
  destruct (isDigit c0) eqn:E0; [|discriminate].
  specialize (Hd c0 E0).
  destruct rest0 as [|c1 rest1].
  - destruct fixed; [discriminate|]. intros [= <- _]. exact Hd.
  - destruct (isDigit c1) eqn:E1.
    + intros [= <- _]. pose proof (Hd0 := E1).
      unfold isDigit, digitOf in *.
      apply andb_true_iff in Hd0 as [Hd0 _]. apply N.leb_le in Hd0. lia.
    + destruct fixed; [discriminate|]. intros [= <- _]. exact Hd.
Qed.

(** A parsed time of day has an hour between 0 and 23. *)
Lemma ParseDBTime_hour s c :
  ParseDBTime s = Some c -> 0 <= clockHour c < 24.
Proof.
  unfold ParseDBTime.
  destruct (getnum s false) as [[h s1]|] eqn:Eh; [|discriminate].
  apply getnum_range in Eh.
  destruct (24 <=? h) eqn:E24; [discriminate|].
  destruct (skipColon s1) as [s2|]; [|discriminate].
  destruct (getnum s2 true) as [[m s3]|]; [|discriminate].
  destruct (60 <=? m); [discriminate|].
  destruct (skipColon s3) as [s4|]; [|discriminate].
  destruct (getnum s4 true) as [[sec s5]|]; [|discriminate].
  destruct (60 <=? sec); [discriminate|].
  destruct (skipFraction s5); [|discriminate].
  intros [= <-]. simpl. lia.
Qed.

(** The first cursor value and the day's end are less than a day apart. *)
Lemma window_shorter_than_a_day o c targetDate :
  0 <= clockHour o < 24 -> 0 <= clockHour c < 24 ->
  dayEndBoundary c targetDate - slotStartBase o c targetDate <= Day.
Proof.
  intros Ho Hc. unfold dayEndBoundary, slotStartBase, Date.
  replace Day with (24 * Hour) by reflexivity.
  assert (0 < Hour) by reflexivity. nia.
Qed.

(** What does hold of every emitted start: the slot ends by the close time,
    is not in the past, overlaps no meeting of the input, and starts no
    earlier than the first cursor value. *)
Lemma slotStarts_sound fuel startStr endStr durationMinutes timeGapMinutes
    meetingsOnDate targetDate now o c starts :
  ParseDBTime startStr = Some o ->
  ParseDBTime endStr = Some c ->
  slotStarts fuel startStr endStr durationMinutes timeGapMinutes
             meetingsOnDate targetDate now = Some (Ok starts) ->
  forall s, In s starts ->
    s + minutes durationMinutes <= Date targetDate (clockHour c) (clockMinute c)
    /\ now <= s
    /\ Forall (fun m => ~ (s < EndTime m /\ StartTime m < s + minutes durationMinutes))
              meetingsOnDate
    /\ (0 <= minutes (effectiveGap timeGapMinutes) ->
        Date targetDate (clockHour o) (clockMinute c) <= s).
Proof.
  intros Ho Hc. unfold slotStarts. rewrite Ho, Hc.
  destruct (slotLoop _ _ _ _ _ _ _ _) as [r|] eqn:Hloop; [|discriminate].
  intros [= <-] s Hin.
  pose proof (slotLoop_appends _ _ _ _ _ _ _ _ _ Hloop) as (new & -> & Hnew).
  simpl in Hin. rewrite Forall_forall in Hnew.
  destruct (Hnew s Hin) as (_ & Hend & Hnow & Hfree).
  apply IsSlotAvailable_true in Hfree.
  repeat split; try assumption.
  intros Hgap.
  pose proof (slotLoop_from _ _ _ _ _ _ Hgap _ _ _ Hloop) as (new' & Heq & Hfrom).
  simpl in Heq. subst new'. rewrite Forall_forall in Hfrom.
  exact (Hfrom s Hin).
Qed.

(** When the close time's minute is not below the open time's minute (as
    with 09:00 to 17:00), every emitted slot lies in the day's window. *)
Lemma slotStarts_within_window fuel startStr endStr durationMinutes timeGapMinutes
    meetingsOnDate targetDate now o c starts :
  ParseDBTime startStr = Some o ->
  ParseDBTime endStr = Some c ->
  clockMinute o <= clockMinute c ->
  0 <= minutes (effectiveGap timeGapMinutes) ->
  slotStarts fuel startStr endStr durationMinutes timeGapMinutes
             meetingsOnDate targetDate now = Some (Ok starts) ->
  Forall (slotWithin (Date targetDate (clockHour o) (clockMinute o))
                     (Date targetDate (clockHour c) (clockMinute c))
                     (minutes durationMinutes))
         starts.
Proof.
  intros Ho Hc Hmin Hgap Hrun. apply Forall_forall. intros s Hin.
  destruct (slotStarts_sound _ _ _ _ _ _ _ _ _ _ _ Ho Hc Hrun s Hin)
    as (Hend & _ & _ & Hfrom).
  split; [|exact Hend].
  specialize (Hfrom Hgap). unfold Date in *.
  assert (0 < Minute) by reflexivity. nia.
Qed.

(** With a step that is positive as a [time.Duration] the generator returns. *)
Lemma slotStarts_terminates fuel startStr endStr durationMinutes timeGapMinutes
    meetingsOnDate targetDate now :
  0 < minutes (effectiveGap timeGapMinutes) ->
  (Z.to_nat Day < fuel)%nat ->
  exists r, slotStarts fuel startStr endStr durationMinutes timeGapMinutes
              meetingsOnDate targetDate now = Some r.
Proof.
  intros Hgap Hfuel. unfold slotStarts.
  destruct (ParseDBTime startStr) as [o|] eqn:Ho; [|eauto].
  destruct (ParseDBTime endStr) as [c|] eqn:Hc; [|eauto].
  destruct fuel as [|fuel]; [lia|].
  pose proof (window_shorter_than_a_day o c targetDate
                (ParseDBTime_hour _ _ Ho) (ParseDBTime_hour _ _ Hc)) as Hwin.
  destruct (slotLoop_terminates (dayEndBoundary c targetDate) now
              (minutes durationMinutes) (minutes (effectiveGap timeGapMinutes))
              meetingsOnDate fuel Hgap (slotStartBase o c targetDate) []) as [r ->].
  - assert (0 < Day) by reflexivity. nia.
  - eauto.
Qed.

(** A gap that is not positive is replaced by 30 minutes, and then the
    generator returns. *)
Lemma nonpositive_gap_terminates startStr endStr durationMinutes timeGapMinutes
    meetingsOnDate targetDate now :
  timeGapMinutes <= 0 ->
  exists fuel r, GenerateAvailableTimeSlots fuel startStr endStr durationMinutes
                   timeGapMinutes meetingsOnDate targetDate now = Some r.
Proof.
  intros Hgap. exists (S (Z.to_nat Day)).
  destruct (slotStarts_terminates (S (Z.to_nat Day)) startStr endStr durationMinutes
              timeGapMinutes meetingsOnDate targetDate now) as [r Hr].
  - unfold effectiveGap. destruct (timeGapMinutes <=? 0) eqn:E; [reflexivity | lia].
  - lia.
  - unfold GenerateAvailableTimeSlots. rewrite Hr. destruct r; eauto.
Qed.

(** The scenarios of the specification: 09:00 to 17:00, 60-minute slots
    every 30 minutes, asked at 08:00 of the same day. *)
Example scenario_no_bookings :
  GenerateAvailableTimeSlots 100 "09:00:00" "17:00:00" 60 30 []
    Fixtures.friday (Fixtures.at_ Fixtures.friday 8 0)
  = Some (Ok ["09:00"; "09:30"; "10:00"; "10:30"; "11:00"; "11:30"; "12:00";
              "12:30"; "13:00"; "13:30"; "14:00"; "14:30"; "15:00"; "15:30";
              "16:00"]).
Proof. vm_compute. reflexivity. Qed.

Example scenario_one_meeting :
  GenerateAvailableTimeSlots 100 "09:00:00" "17:00:00" 60 30
    [Fixtures.meetingOn "m1" (Fixtures.at_ Fixtures.friday 10 0)
       (Fixtures.at_ Fixtures.friday 11 0) Scheduled]
    Fixtures.friday (Fixtures.at_ Fixtures.friday 8 0)
  = Some (Ok ["09:00"; "11:00"; "11:30"; "12:00"; "12:30"; "13:00"; "13:30";
              "14:00"; "14:30"; "15:00"; "15:30"; "16:00"]).
Proof. vm_compute. reflexivity. Qed.

(** The overlap test is half-open: a slot that ends when a meeting starts
    is free, one that reaches into it is not. *)
Example overlap_is_half_open :
  IsSlotAvailable (Fixtures.at_ Fixtures.friday 10 0) (Fixtures.at_ Fixtures.friday 10 30)
    [Fixtures.meetingOn "m1" (Fixtures.at_ Fixtures.friday 10 30)
       (Fixtures.at_ Fixtures.friday 11 0) Scheduled] = true
  /\ IsSlotAvailable (Fixtures.at_ Fixtures.friday 10 0) (Fixtures.at_ Fixtures.friday 10 30)
       [Fixtures.meetingOn "m1" (Fixtures.at_ Fixtures.friday 10 29)
          (Fixtures.at_ Fixtures.friday 10 45) Scheduled] = false.
Proof. split; vm_compute; reflexivity. Qed.

(** Times of day as the database prints them, and strings that are none. *)
Example ParseDBTime_samples :
  ParseDBTime "09:00:00" = Some {| clockHour := 9; clockMinute := 0 |}
  /\ ParseDBTime "17:45:30.250" = Some {| clockHour := 17; clockMinute := 45 |}
  /\ ParseDBTime "09:00" = None
  /\ ParseDBTime "24:00:00" = None
  /\ ParseDBTime "9 o'clock" = None.
Proof. repeat split. Qed.

(** C1, at an input where the code departs from it. The claim: every slot
    the generator emits lies within the open and close times of the target
    date and overlaps no booked meeting. Open 09:30, close 17:00, 30-minute
    slots every 30 minutes, nothing booked, asked on Friday at 08:00: the
    first cursor value takes its minute from the close time, so the list
    starts with 09:00, half an hour before the open time. *)
Theorem GenerateAvailableTimeSlots_emits_slot_before_open :
  ParseDBTime "09:30:00" = Some {| clockHour := 9; clockMinute := 30 |}
  /\ GenerateAvailableTimeSlots 100 "09:30:00" "17:00:00" 30 30 []
       Fixtures.friday (Fixtures.at_ Fixtures.friday 8 0)
     = Some (Ok ["09:00"; "09:30"; "10:00"; "10:30"; "11:00"; "11:30"; "12:00";
                 "12:30"; "13:00"; "13:30"; "14:00"; "14:30"; "15:00"; "15:30";
                 "16:00"; "16:30"])
  /\ exists starts,
       slotStarts 100 "09:30:00" "17:00:00" 30 30 []
         Fixtures.friday (Fixtures.at_ Fixtures.friday 8 0) = Some (Ok starts)
       /\ hd_error starts = Some (Date Fixtures.friday 9 0)
       /\ Date Fixtures.friday 9 0 < Date Fixtures.friday 9 30
       /\ ~ Forall (slotWithin (Date Fixtures.friday 9 30) (Date Fixtures.friday 17 0)
                      (minutes 30))
                   starts.
Proof.
  split; [reflexivity|]. split; [vm_compute; reflexivity|].
  eexists. split; [vm_compute; reflexivity|].
  split; [vm_compute; reflexivity|]. split; [vm_compute; reflexivity|].
  intros Hall. inversion Hall as [|s rest [Hopen _] _]. vm_compute in Hopen.
  now apply Hopen.
Qed.

(** The 64-bit product [time.Minute * time.Duration(153722868)] is negative. *)
Lemma minutes_overflow : minutes 153722868 = -9223371993709551616.
Proof. vm_compute. reflexivity. Qed.

(** C10, at an input where the code departs from it. The claim: the
    generator terminates on every input, the cursor moving forward in each
    iteration. With a gap of 153722868 minutes the step wraps to a negative
    duration, the cursor moves backward from 09:00 and the loop is never
    left: no amount of fuel yields a result. *)
Theorem GenerateAvailableTimeSlots_overflowing_gap_never_returns : forall fuel,
  GenerateAvailableTimeSlots fuel "09:00:00" "17:00:00" 30 153722868 []
    Fixtures.friday (Fixtures.at_ Fixtures.friday 8 0) = None.
Proof.
  intros fuel. unfold GenerateAvailableTimeSlots, slotStarts.
  change (ParseDBTime "09:00:00") with (Some {| clockHour := 9; clockMinute := 0 |}).
  change (ParseDBTime "17:00:00") with (Some {| clockHour := 17; clockMinute := 0 |}).
  cbv beta iota.
  rewrite slotLoop_diverges; [reflexivity | | |].
  - change (effectiveGap 153722868) with 153722868.
    rewrite minutes_overflow. lia.
  - vm_compute. reflexivity.
  - vm_compute. discriminate.
Qed.

(** ** Steps that leave the store alone *)

Lemma preserves_ret {A} (a : A) : preserves (ret a).
Proof. intros w. reflexivity. Qed.

Lemma preserves_emit e : preserves (emit e).
Proof. intros w. reflexivity. Qed.

Lemma preserves_getStore : preserves getStore.
Proof. intros w. reflexivity. Qed.

Lemma preserves_bind {A B} (c : Eff A) (k : A -> Eff B) :
  preserves c -> (forall a, preserves (k a)) -> preserves (bind c k).
Proof.
  intros Hc Hk w. unfold bind. specialize (Hc w).
  destruct (c w) as [a w']. simpl in Hc. rewrite Hk. exact Hc.
Qed.

Lemma preserves_hbind {A B} (c : Handler A) (k : A -> Handler B) :
  preserves c -> (forall a, preserves (k a)) -> preserves (hbind c k).
Proof.
  intros Hc Hk w. unfold hbind. specialize (Hc w).
  destruct (c w) as [[a|r] w']; simpl in Hc; [rewrite Hk|]; exact Hc.
Qed.

Lemma preserves_lift {A} (c : Eff A) : preserves c -> preserves (lift c).
Proof.
  intros Hc w. unfold lift. specialize (Hc w). now destruct (c w).
Qed.

Lemma preserves_WriteError {A} e : preserves (@WriteError A e).
Proof. intros w. reflexivity. Qed.

Lemma preserves_continue {A} (a : A) : preserves (continue a).
Proof. intros w. reflexivity. Qed.

Create HintDb preserve.
#[local] Hint Resolve preserves_ret preserves_emit preserves_getStore
  preserves_WriteError preserves_continue : preserve.

(** Splits a computation along its binds and its case analyses. *)
Ltac preserve :=
  repeat first
    [ progress auto with preserve
    | match goal with
      | |- preserves (hbind _ _) => apply preserves_hbind; [|intros ?]
      | |- preserves (bind _ _) => apply preserves_bind; [|intros ?]
      | |- preserves (lift _) => apply preserves_lift
      | |- preserves (match ?x with _ => _ end) => destruct x
      | |- preserves (if ?x then _ else _) => destruct x
      | |- preserves (let '(_, _) := ?x in _) => destruct x
      end ].

Lemma ValidateGoogleToken_preserves env accessToken refreshToken expiryDateUnix :
  preserves (ValidateGoogleToken env accessToken refreshToken expiryDateUnix).
Proof. unfold ValidateGoogleToken. preserve. Qed.

Lemma GetCalendarClient_preserves env integration :
  preserves (GetCalendarClient env integration).
Proof.
  unfold GetCalendarClient. pose proof ValidateGoogleToken_preserves. preserve.
Qed.

Lemma deleteRemoteEvent_preserves env meeting eventUserID :
  preserves (deleteRemoteEvent env meeting eventUserID).
Proof.
  unfold deleteRemoteEvent. pose proof GetCalendarClient_preserves. preserve.
Qed.

Lemma createRemoteEvent_preserves env dto event integration startTime endTime :
  preserves (createRemoteEvent env dto event integration startTime endTime).
Proof.
  unfold createRemoteEvent. pose proof GetCalendarClient_preserves. preserve.
Qed.

Lemma prepareBooking_preserves env dto : preserves (prepareBooking env dto).
Proof.
  unfold prepareBooking. pose proof createRemoteEvent_preserves. preserve.
Qed.

(** ** The token check *)

(** C8: when the refresh token is empty, [ValidateGoogleToken] returns the
    access token it was given, without error, whatever the expiry and the
    clock; the world is left as it was, so the provider's token source is
    not consulted. *)
Theorem ValidateGoogleToken_without_refresh_token :
  forall env accessToken refreshToken expiryDateUnix w,
    refreshToken = "" ->
    ValidateGoogleToken env accessToken refreshToken expiryDateUnix w
    = (Ok accessToken, w).
Proof.
  intros env accessToken refreshToken expiryDateUnix w Hempty.
  unfold ValidateGoogleToken. rewrite Hempty.
  change (String.eqb "" "") with true. cbv beta iota zeta.
  destruct (After (Now env) (Unix expiryDateUnix)); reflexivity.
Qed.

(** A token that expired long before the request, and no refresh token. *)
Lemma ValidateGoogleToken_without_refresh_token_witness :
  After (Now Fixtures.healthyEnv) (Unix 1) = true
  /\ ValidateGoogleToken Fixtures.healthyEnv "old-access" "" 1 Fixtures.emptyWorld
     = (Ok "old-access", Fixtures.emptyWorld).
Proof.
  split; [reflexivity|].
  apply (ValidateGoogleToken_without_refresh_token Fixtures.healthyEnv "old-access" ""
           1 Fixtures.emptyWorld).
  reflexivity.
Defined.

(** With a refresh token the token source is consulted exactly once. *)
Lemma ValidateGoogleToken_with_refresh_token env accessToken refreshToken expiryDateUnix w :
  String.eqb refreshToken "" = false ->
  exists rest,
    trace (snd (ValidateGoogleToken env accessToken refreshToken expiryDateUnix w))
    = (trace w
         ++ TokenSourceCall {| TokenAccess := accessToken; TokenRefresh := refreshToken;
                               TokenExpiry := Some expiryDateUnix |}
         :: rest)%list
    /\ Forall (fun e => match e with TokenSourceCall _ => False | _ => True end) rest.
Proof.
  intros Hr. unfold ValidateGoogleToken. cbv zeta. rewrite Hr.
  unfold bind, emit, ret. simpl.
  destruct (tokenSourceToken env _) as [newToken|]; simpl.
  - destruct (negb (TokenAccess newToken =? accessToken)%string); simpl.
    + eexists. rewrite <- app_assoc. split; [reflexivity|]. repeat constructor.
    + exists []. split; [reflexivity | constructor].
  - exists []. split; [reflexivity | constructor].
Qed.

(** ** Creating a booking *)

Lemma run_hbind_Return {A} (c : Handler A) (k : A -> Handler Response) w r w' :
  c w = (Return r, w') -> run (hbind c k) w = (r, w').
Proof. intros H. unfold run, hbind. now rewrite H. Qed.

Lemma run_hbind_Continue {A} (c : Handler A) (k : A -> Handler Response) w a w' :
  c w = (Continue a, w') -> run (hbind c k) w = run (k a) w'.
Proof. intros H. unfold run, hbind. now rewrite H. Qed.

(** When the calendar API refuses the event, the steps before the insert
    end in an error response. *)
Lemma prepareBooking_remote_failure env dto w event :
  dbGet env QEvent (publicEventRows (store w) (DtoEventID dto)) = Ok event ->
  EventLocation event = LocationGoogleMeetAndCalendar ->
  (forall e, eventsInsert env e = None) ->
  exists err w', prepareBooking env dto w = (Return (ErrorResponse err), w').
Proof.
  intros Hevent Hloc Hinsert.
  unfold prepareBooking, hbind, lift, getStore. rewrite Hevent.
  unfold continue, ret. rewrite Hloc. simpl.
  destruct (dbGet env QIntegration _) as [integration|[|d]]; simpl; [|eauto|eauto].
  unfold createRemoteEvent. rewrite Hloc. simpl.
  unfold hbind, lift.
  destruct (GetCalendarClient env integration w) as [[[svc|err] appType] w1]; simpl;
    [|eauto].
  rewrite Hinsert. simpl. eauto.
Qed.

(** C5: a booking of an event that needs a remote calendar, whose remote
    event creation fails, ends in an error response and leaves the store
    (the meetings table included) as it was. *)
Theorem CreateBooking_remote_failure_aborts :
  forall env dto w event,
    dbGet env QEvent (publicEventRows (store w) (DtoEventID dto)) = Ok event ->
    EventLocation event = LocationGoogleMeetAndCalendar ->
    (forall e, eventsInsert env e = None) ->
    exists err,
      fst (CreateBooking env (Some dto) w) = ErrorResponse err
      /\ store (snd (CreateBooking env (Some dto) w)) = store w
      /\ meetings (store (snd (CreateBooking env (Some dto) w))) = meetings (store w).
Proof.
  intros env dto w event Hevent Hloc Hinsert.
  destruct (prepareBooking_remote_failure env dto w event Hevent Hloc Hinsert)
    as (err & w' & Hprep).
  exists err. unfold CreateBooking, CreateBookingSteps.
  rewrite (run_hbind_Return _ _ _ _ _ Hprep). simpl.
  pose proof (prepareBooking_preserves env dto w) as Hst.
  rewrite Hprep in Hst. simpl in Hst. rewrite Hst. auto.
Qed.

Lemma CreateBooking_remote_failure_aborts_witness :
  dbGet Fixtures.calendarDownEnv QEvent
    (publicEventRows (store Fixtures.emptyWorld) (DtoEventID Fixtures.bookingDto))
  = Ok Fixtures.introEvent
  /\ exists err,
      fst (CreateBooking Fixtures.calendarDownEnv (Some Fixtures.bookingDto)
             Fixtures.emptyWorld) = ErrorResponse err
      /\ store (snd (CreateBooking Fixtures.calendarDownEnv (Some Fixtures.bookingDto)
                       Fixtures.emptyWorld)) = store Fixtures.emptyWorld
      /\ meetings (store (snd (CreateBooking Fixtures.calendarDownEnv
                                 (Some Fixtures.bookingDto) Fixtures.emptyWorld)))
         = meetings (store Fixtures.emptyWorld).
Proof.
  split; [reflexivity|].
  apply (CreateBooking_remote_failure_aborts Fixtures.calendarDownEnv Fixtures.bookingDto
           Fixtures.emptyWorld Fixtures.introEvent);
    reflexivity.
Defined.

(** C4 as stated fails: the insert of the meeting row hits a constraint
    violation, and the caller receives the internal error of every failed
    insert, not a conflict. *)
Lemma CreateBooking_constraint_violation_is_not_a_conflict :
  driverError Fixtures.conflictEnv QInsertMeeting = Some ConstraintViolation
  /\ fst (CreateBooking Fixtures.conflictEnv (Some Fixtures.bookingDto) Fixtures.emptyWorld)
     = ErrorResponse (NewAppError InternalServerError "Failed to save meeting record" true)
  /\ ~ (ConflictError
          (fst (CreateBooking Fixtures.conflictEnv (Some Fixtures.bookingDto)
                  Fixtures.emptyWorld))
        /\ ~ InternalError
               (fst (CreateBooking Fixtures.conflictEnv (Some Fixtures.bookingDto)
                       Fixtures.emptyWorld))).
Proof.
  split; [reflexivity|]. split; [vm_compute; reflexivity|].
  intros [Hconflict _]. vm_compute in Hconflict. discriminate.
Qed.

(** C4, amended: when the steps before the insert have succeeded and the
    driver fails the insert (a constraint violation included), the caller
    receives the error [InternalServerError] with the message "Failed to
    save meeting record", and the store is left as it was. *)
Theorem CreateBooking_insert_failure_is_internal_error :
  forall env dto w d prepared,
    fst (prepareBooking env dto w) = Continue prepared ->
    driverError env QInsertMeeting = Some d ->
    fst (CreateBooking env (Some dto) w)
    = ErrorResponse (NewAppError InternalServerError "Failed to save meeting record" true)
    /\ store (snd (CreateBooking env (Some dto) w)) = store w.
Proof.
  intros env dto w d prepared Hprep Hdrv.
  pose proof (prepareBooking_preserves env dto w) as Hst.
  destruct (prepareBooking env dto w) as [step w1] eqn:E. simpl in Hprep, Hst. subst step.
  unfold CreateBooking, CreateBookingSteps.
  rewrite (run_hbind_Continue _ _ _ _ _ E).
  unfold insertMeeting. destruct (snd prepared) as [[meetLink calendarEventID] appType].
  rewrite Hdrv. simpl. auto.
Qed.

Lemma CreateBooking_insert_failure_is_internal_error_witness :
  fst (prepareBooking Fixtures.conflictEnv Fixtures.bookingDto Fixtures.emptyWorld)
  = Continue (Fixtures.introEvent,
              ("https://meet.example/abc", "cal-2", Some AppGoogleMeetAndCalendar))
  /\ driverError Fixtures.conflictEnv QInsertMeeting = Some ConstraintViolation
  /\ fst (CreateBooking Fixtures.conflictEnv (Some Fixtures.bookingDto) Fixtures.emptyWorld)
     = ErrorResponse (NewAppError InternalServerError "Failed to save meeting record" true)
  /\ store (snd (CreateBooking Fixtures.conflictEnv (Some Fixtures.bookingDto)
                   Fixtures.emptyWorld)) = store Fixtures.emptyWorld.
Proof.
  split; [vm_compute; reflexivity|]. split; [reflexivity|].
  apply (CreateBooking_insert_failure_is_internal_error Fixtures.conflictEnv
           Fixtures.bookingDto Fixtures.emptyWorld ConstraintViolation
           (Fixtures.introEvent,
            ("https://meet.example/abc", "cal-2", Some AppGoogleMeetAndCalendar)));
    [vm_compute; reflexivity | reflexivity].
Defined.

(** ** Cancelling a meeting *)

Lemma fetched_meeting_has_id st meetingID m owner :
  In (m, owner) (meetingWithOwnerRows st meetingID) ->
  In m (meetings st) /\ String.eqb (MeetingID m) meetingID = true.
Proof.
  unfold meetingWithOwnerRows. rewrite in_flat_map.
  intros (m' & Hin & Hrow).
  destruct (String.eqb (MeetingID m') meetingID) eqn:E; [|contradiction].
  apply in_map_iff in Hrow as (e & [= <- _] & _). auto.
Qed.

Lemma dbGet_Ok_In {A} env q (rows : list A) r :
  dbGet env q rows = Ok r -> In r rows.
Proof.
  unfold dbGet. destruct (driverError env q); [discriminate|].
  destruct rows; [discriminate|]. intros [= <-]. now left.
Qed.

Lemma rowsAffected_positive ms meetingID m :
  In m ms -> String.eqb (MeetingID m) meetingID = true ->
  Nat.eqb (rowsAffected ms meetingID) 0 = false.
Proof.
  intros Hin Hid. unfold rowsAffected.
  assert (Hf : In m (filter (fun m => String.eqb (MeetingID m) meetingID) ms))
    by (apply filter_In; auto).
  destruct (filter _ ms); [contradiction | reflexivity].
Qed.


(** C6 as stated fails: cancelling a meeting that is already cancelled is
    answered under the code [BadRequest], which the error package reports
    with a status other than 409; it is no ConflictError. *)
Lemma CancelMeeting_already_cancelled_is_not_a_conflict :
  map Status (meetings (store Fixtures.cancelledWorld)) = [Cancelled]
  /\ fst (CancelMeeting Fixtures.healthyEnv "m1" Fixtures.cancelledWorld)
     = ErrorResponse (NewAppError BadRequest "Meeting is already cancelled" false)
  /\ ~ ConflictError (fst (CancelMeeting Fixtures.healthyEnv "m1" Fixtures.cancelledWorld)).
Proof.
  split; [reflexivity|]. split; [vm_compute; reflexivity|].
  intros Hconflict. vm_compute in Hconflict. discriminate.
Qed.

(** C6, amended: cancelling a meeting whose status is already [Cancelled]
    is answered with the error [BadRequest] and the message "Meeting is
    already cancelled", never with success; the store is left as it was and
    nothing is done besides reporting the error. *)
Theorem CancelMeeting_already_cancelled :
  forall env meetingID w meeting owner,
    String.eqb meetingID "" = false ->
    dbGet env QFetchMeeting (meetingWithOwnerRows (store w) meetingID) = Ok (meeting, owner) ->
    Status meeting = Cancelled ->
    CancelMeeting env meetingID w
    = (ErrorResponse (NewAppError BadRequest "Meeting is already cancelled" false),
       {| store := store w; trace := (trace w ++ [LogFatalf])%list |}).
Proof.
  intros env meetingID w meeting owner Hid Hfetch Hstatus.
  unfold CancelMeeting, CancelMeetingSteps, run. rewrite Hid.
  unfold hbind, lift, getStore. rewrite Hfetch. unfold continue, ret.
  rewrite Hstatus. reflexivity.
Qed.

Lemma CancelMeeting_already_cancelled_witness :
  String.eqb "m1" "" = false
  /\ Status (Fixtures.meetingOn "m1" (Fixtures.at_ Fixtures.monday 10 0)
               (Fixtures.at_ Fixtures.monday 11 0) Cancelled) = Cancelled
  /\ CancelMeeting Fixtures.healthyEnv "m1" Fixtures.cancelledWorld
     = (ErrorResponse (NewAppError BadRequest "Meeting is already cancelled" false),
        {| store := store Fixtures.cancelledWorld;
           trace := (trace Fixtures.cancelledWorld ++ [LogFatalf])%list |}).
Proof.
  split; [reflexivity|]. split; [reflexivity|].
  apply (CancelMeeting_already_cancelled Fixtures.healthyEnv "m1" Fixtures.cancelledWorld
           (Fixtures.meetingOn "m1" (Fixtures.at_ Fixtures.monday 10 0)
              (Fixtures.at_ Fixtures.monday 11 0) Cancelled) "u1");
    reflexivity.
Defined.



(** ** Refreshed tokens *)

Lemma CreateBooking_keeps_integrations env validated w :
  integrations (store (snd (CreateBooking env validated w))) = integrations (store w).
Proof.
  unfold CreateBooking, CreateBookingSteps, run.
  destruct validated as [dto|]; [|reflexivity].
  unfold hbind. pose proof (prepareBooking_preserves env dto w) as Hst.
  destruct (prepareBooking env dto w) as [[prepared|r] w1]; simpl in Hst;
    [|simpl; now rewrite Hst].
  unfold insertMeeting. destruct (snd prepared) as [[meetLink calendarEventID] appType].
  destruct (driverError env QInsertMeeting); simpl; now rewrite Hst.
Qed.

Lemma CancelMeeting_keeps_integrations env meetingID w :
  integrations (store (snd (CancelMeeting env meetingID w))) = integrations (store w).
Proof.
  unfold CancelMeeting, CancelMeetingSteps, run.
  destruct (String.eqb meetingID ""); [reflexivity|].
  unfold hbind, lift, getStore.
  destruct (dbGet env QFetchMeeting _) as [[meeting owner]|[|d]]; simpl; try reflexivity.
  destruct (MeetingStatus_eqb (Status meeting) Cancelled); [reflexivity|].
  pose proof (deleteRemoteEvent_preserves env meeting owner w) as Hst.
  destruct (deleteRemoteEvent env meeting owner w) as [[] w1]. simpl in Hst.
  destruct (driverError env QUpdateMeeting); simpl; [now rewrite Hst|].
  destruct (Nat.eqb _ 0); simpl; now rewrite Hst.
Qed.


(** ** The availability of a public event *)

(** C2, at an input where the code departs from it. The claim: only
    [Scheduled] meetings exclude slots. The only stored meeting, Monday
    10:00 to 11:00, is [Cancelled]; the query for the meetings in range
    does not look at the status, and Monday comes back without 09:30, 10:00
    and 10:30, which an empty meetings table leaves in. *)
Theorem cancelled_meeting_excludes_slots :
  map Status (meetings (store Fixtures.cancelledWorld)) = [Cancelled]
  /\ slotsOfDay (GetPublicEventAvailability 100 Fixtures.healthyEnv "e1"
                   Fixtures.cancelledWorld) Monday
     = Some ["09:00"; "11:00"; "11:30"; "12:00"; "12:30"; "13:00"; "13:30";
             "14:00"; "14:30"; "15:00"; "15:30"; "16:00"]
  /\ slotsOfDay (GetPublicEventAvailability 100 Fixtures.healthyEnv "e1"
                   Fixtures.emptyWorld) Monday
     = Some ["09:00"; "09:30"; "10:00"; "10:30"; "11:00"; "11:30"; "12:00";
             "12:30"; "13:00"; "13:30"; "14:00"; "14:30"; "15:00"; "15:30";
             "16:00"].
Proof.
  split; [reflexivity|]. split; vm_compute; reflexivity.
Qed.

(** The generator reports an error exactly when a time string does not parse. *)
Lemma GenerateAvailableTimeSlots_error fuel startStr endStr durationMinutes timeGapMinutes
    meetingsOnDate targetDate now :
  ParseDBTime startStr = None \/ ParseDBTime endStr = None ->
  exists msg, GenerateAvailableTimeSlots fuel startStr endStr durationMinutes
                timeGapMinutes meetingsOnDate targetDate now = Some (Err msg).
Proof.
  unfold GenerateAvailableTimeSlots, slotStarts.
  intros [H|H].
  - rewrite H. eauto.
  - destruct (ParseDBTime startStr); rewrite ?H; eauto.
Qed.

Section Days.
Variables (fuel : nat) (env : Env) (event : Event) (timeGap : Z)
          (dayRules : DayRules) (meetingsInRange : list Meeting).




End Days.




(** The response for the rules with the malformed Wednesday: Wednesday is
    available and has no slots, the other days have theirs. *)
Example broken_wednesday_response :
  option_map fst (GetPublicEventAvailability 100 Fixtures.healthyEnv "e1" Fixtures.brokenWorld)
  = Some (JsonResponse StatusOK (EventAvailability
      (let full := ["09:00"; "09:30"; "10:00"; "10:30"; "11:00"; "11:30"; "12:00";
                    "12:30"; "13:00"; "13:30"; "14:00"; "14:30"; "15:00"; "15:30";
                    "16:00"] in
       [ {| SlotsDay := Sunday; Slots := []; SlotsIsAvailable := false |};
         {| SlotsDay := Monday; Slots := full; SlotsIsAvailable := true |};
         {| SlotsDay := Tuesday; Slots := full; SlotsIsAvailable := true |};
         {| SlotsDay := Wednesday; Slots := []; SlotsIsAvailable := true |};
         {| SlotsDay := Thursday; Slots := full; SlotsIsAvailable := true |};
         {| SlotsDay := Friday; Slots := full; SlotsIsAvailable := true |};
         {| SlotsDay := Saturday; Slots := []; SlotsIsAvailable := false |} ]))).
Proof. vm_compute. reflexivity. Qed.

(** * Further properties of the slot engine *)

(** X1: a slot is available exactly when no meeting of the list overlaps
    it, the overlap being that of half-open intervals. *)
Theorem IsSlotAvailable_iff_no_overlap :
  forall slotStart slotEnd meetings,
    IsSlotAvailable slotStart slotEnd meetings = true <->
    (forall m, In m meetings -> ~ (slotStart < EndTime m /\ StartTime m < slotEnd)).
Proof.
  intros slotStart slotEnd meetings.
  rewrite IsSlotAvailable_true. apply Forall_forall.
Qed.

(** X2: every start the generator emits is not before the clock reading,
    its slot ends by the close time of the target date, and the slot
    overlaps no meeting of the input. *)
Theorem emitted_slots_are_free_and_not_past :
  forall fuel startStr endStr durationMinutes timeGapMinutes meetingsOnDate
         targetDate now c starts,
    ParseDBTime endStr = Some c ->
    slotStarts fuel startStr endStr durationMinutes timeGapMinutes
               meetingsOnDate targetDate now = Some (Ok starts) ->
    forall s, In s starts ->
      now <= s
      /\ s + minutes durationMinutes <= Date targetDate (clockHour c) (clockMinute c)
      /\ (forall m, In m meetingsOnDate ->
            ~ (s < EndTime m /\ StartTime m < s + minutes durationMinutes)).
Proof.
  intros fuel startStr endStr durationMinutes timeGapMinutes meetingsOnDate
         targetDate now c starts Hc Hrun s Hin.
  destruct (ParseDBTime startStr) as [o|] eqn:Ho.
  - destruct (slotStarts_sound _ _ _ _ _ _ _ _ _ _ _ Ho Hc Hrun s Hin)
      as (Hend & Hnow & Hfree & _).
    repeat split; try assumption. now apply Forall_forall.
  - unfold slotStarts in Hrun. rewrite Ho in Hrun. discriminate.
Qed.

Lemma emitted_slots_are_free_and_not_past_witness :
  ParseDBTime "17:00:00" = Some {| clockHour := 17; clockMinute := 0 |}
  /\ forall s,
       In s [Fixtures.at_ Fixtures.friday 9 0; Fixtures.at_ Fixtures.friday 11 0;
             Fixtures.at_ Fixtures.friday 13 0; Fixtures.at_ Fixtures.friday 15 0] ->
       Fixtures.at_ Fixtures.friday 8 0 <= s
       /\ s + minutes 60 <= Date Fixtures.friday 17 0
       /\ (forall m,
             In m [Fixtures.meetingOn "m1" (Fixtures.at_ Fixtures.friday 10 0)
                     (Fixtures.at_ Fixtures.friday 11 0) Scheduled] ->
             ~ (s < EndTime m /\ StartTime m < s + minutes 60)).
Proof.
  split; [reflexivity|].
  apply (emitted_slots_are_free_and_not_past 5 "09:00:00" "17:00:00" 60 120
           [Fixtures.meetingOn "m1" (Fixtures.at_ Fixtures.friday 10 0)
              (Fixtures.at_ Fixtures.friday 11 0) Scheduled]
           Fixtures.friday (Fixtures.at_ Fixtures.friday 8 0)
           {| clockHour := 17; clockMinute := 0 |}
           [Fixtures.at_ Fixtures.friday 9 0; Fixtures.at_ Fixtures.friday 11 0;
            Fixtures.at_ Fixtures.friday 13 0; Fixtures.at_ Fixtures.friday 15 0]).
  - reflexivity.
  - vm_compute. reflexivity.
Defined.

(** The starts the loop appends lie on the grid of the cursor and grow. *)
Lemma slotLoop_grid dayEnd now duration gap meetings fuel :
  0 < gap -> forall cur acc r,
  slotLoop fuel cur dayEnd now duration gap meetings acc = Some r ->
  exists new, r = (acc ++ new)%list
              /\ StronglySorted Z.lt new
              /\ Forall (fun s => exists k, 0 <= k /\ s = cur + k * gap) new.
Proof.
  intros Hgap. induction fuel as [|fuel IH]; intros cur acc r; simpl; [discriminate|].
  unfold Before, After, Equal, Add.
  destruct (cur <? dayEnd);
    [|intros [= <-]; exists []; rewrite app_nil_r; repeat constructor].
  destruct (dayEnd <? cur + duration);
    [intros [= <-]; exists []; rewrite app_nil_r; repeat constructor|].
  assert (Hshift : forall new,
             Forall (fun s => exists k, 0 <= k /\ s = cur + gap + k * gap) new ->
             Forall (fun s => exists k, 0 <= k /\ s = cur + k * gap) new).
  { intros new. apply Forall_impl. intros s (k & Hk & ->). exists (k + 1). lia. }
  destruct (((now <? cur) || (cur =? now)) &&
            IsSlotAvailable cur (cur + duration) meetings); intros Hrec;
    apply IH in Hrec as (new & -> & Hsorted & Hgrid).
  - exists (cur :: new). rewrite <- app_assoc. split; [reflexivity|]. split.
    + constructor; [exact Hsorted|].
      eapply Forall_impl; [|exact Hgrid]. intros s (k & Hk & ->). nia.
    + constructor; [exists 0; lia | now apply Hshift].
  - exists new. split; [reflexivity|]. split; [exact Hsorted | now apply Hshift].
Qed.

(** X3: when the gap is a positive duration, the emitted starts are in
    strictly ascending order and each is the first cursor value plus a
    whole number of gaps. *)
Theorem emitted_slots_ascend_on_the_grid :
  forall fuel startStr endStr durationMinutes timeGapMinutes meetingsOnDate
         targetDate now o c starts,
    ParseDBTime startStr = Some o ->
    ParseDBTime endStr = Some c ->
    0 < minutes (effectiveGap timeGapMinutes) ->
    slotStarts fuel startStr endStr durationMinutes timeGapMinutes
               meetingsOnDate targetDate now = Some (Ok starts) ->
    StronglySorted Z.lt starts
    /\ Forall (fun s => exists k, 0 <= k
                 /\ s = slotStartBase o c targetDate
                        + k * minutes (effectiveGap timeGapMinutes))
              starts.
Proof.
  intros fuel startStr endStr durationMinutes timeGapMinutes meetingsOnDate
         targetDate now o c starts Ho Hc Hgap.
  unfold slotStarts. rewrite Ho, Hc.
  destruct (slotLoop _ _ _ _ _ _ _ _) as [r|] eqn:Hloop; [|discriminate].
  intros [= <-].
  apply (slotLoop_grid _ _ _ _ _ _ Hgap) in Hloop as (new & -> & Hsorted & Hgrid).
  simpl. auto.
Qed.

Lemma emitted_slots_ascend_on_the_grid_witness :
  0 < minutes (effectiveGap 120)
  /\ StronglySorted Z.lt
       [Fixtures.at_ Fixtures.friday 9 0; Fixtures.at_ Fixtures.friday 11 0;
        Fixtures.at_ Fixtures.friday 13 0; Fixtures.at_ Fixtures.friday 15 0]
  /\ Forall (fun s => exists k, 0 <= k
               /\ s = slotStartBase {| clockHour := 9; clockMinute := 0 |}
                        {| clockHour := 17; clockMinute := 0 |} Fixtures.friday
                      + k * minutes (effectiveGap 120))
       [Fixtures.at_ Fixtures.friday 9 0; Fixtures.at_ Fixtures.friday 11 0;
        Fixtures.at_ Fixtures.friday 13 0; Fixtures.at_ Fixtures.friday 15 0].
Proof.
  split; [reflexivity|].
  apply (emitted_slots_ascend_on_the_grid 5 "09:00:00" "17:00:00" 60 120
           [Fixtures.meetingOn "m1" (Fixtures.at_ Fixtures.friday 10 0)
              (Fixtures.at_ Fixtures.friday 11 0) Scheduled]
           Fixtures.friday (Fixtures.at_ Fixtures.friday 8 0)).
  - reflexivity.
  - reflexivity.
  - reflexivity.
  - vm_compute. reflexivity.
Defined.

(** The generator reports an error exactly when the start or the end
    time string does not parse, whatever the other arguments and before any
    slot is looked at. *)
Theorem GenerateAvailableTimeSlots_fails_iff_unparseable :
  forall fuel startStr endStr durationMinutes timeGapMinutes meetingsOnDate
         targetDate now,
    (exists msg, GenerateAvailableTimeSlots fuel startStr endStr durationMinutes
                   timeGapMinutes meetingsOnDate targetDate now = Some (Err msg))
    <-> (ParseDBTime startStr = None \/ ParseDBTime endStr = None).
Proof.
  intros. split.
  - intros [msg Hrun]. unfold GenerateAvailableTimeSlots, slotStarts in Hrun.
    destruct (ParseDBTime startStr); [|now left].
    destruct (ParseDBTime endStr); [|now right].
    destruct (slotLoop _ _ _ _ _ _ _ _); discriminate.
  - apply GenerateAvailableTimeSlots_error.
Qed.

(** When the first slot does not fit between the first cursor value
    and the end of the day (a close hour not after the open hour, or an
    event longer than the window), the generator answers with the empty
    list and no error. *)
Theorem window_without_room_gives_no_slots :
  forall fuel startStr endStr durationMinutes timeGapMinutes meetingsOnDate
         targetDate now o c,
    ParseDBTime startStr = Some o ->
    ParseDBTime endStr = Some c ->
    dayEndBoundary c targetDate
      < Z.max (slotStartBase o c targetDate + 1)
              (slotStartBase o c targetDate + minutes durationMinutes) ->
    GenerateAvailableTimeSlots (S fuel) startStr endStr durationMinutes
      timeGapMinutes meetingsOnDate targetDate now = Some (Ok []).
Proof.
  intros fuel startStr endStr durationMinutes timeGapMinutes meetingsOnDate
         targetDate now o c Ho Hc Hroom.
  unfold GenerateAvailableTimeSlots, slotStarts. rewrite Ho, Hc.
  cbn [slotLoop]. unfold Before, After, Add.
  destruct (slotStartBase o c targetDate <? dayEndBoundary c targetDate) eqn:E1;
    [|reflexivity].
  destruct (dayEndBoundary c targetDate
              <? slotStartBase o c targetDate + minutes durationMinutes) eqn:E2;
    [reflexivity | lia].
Qed.

Lemma window_without_room_gives_no_slots_witness :
  dayEndBoundary {| clockHour := 10; clockMinute := 0 |} Fixtures.friday
    < Z.max (slotStartBase {| clockHour := 9; clockMinute := 0 |}
               {| clockHour := 10; clockMinute := 0 |} Fixtures.friday + 1)
            (slotStartBase {| clockHour := 9; clockMinute := 0 |}
               {| clockHour := 10; clockMinute := 0 |} Fixtures.friday + minutes 90)
  /\ GenerateAvailableTimeSlots 1 "09:00:00" "10:00:00" 90 30 []
       Fixtures.friday (Fixtures.at_ Fixtures.friday 8 0) = Some (Ok []).
Proof.
  split; [reflexivity|].
  apply (window_without_room_gives_no_slots 0 "09:00:00" "10:00:00" 90 30 []
           Fixtures.friday (Fixtures.at_ Fixtures.friday 8 0)
           {| clockHour := 9; clockMinute := 0 |}
           {| clockHour := 10; clockMinute := 0 |});
    reflexivity.
Defined.

(** * Further properties of the date of a weekday *)

Lemma weekdayIndex_range day : 0 <= weekdayIndex day <= 6.
Proof. destruct day; simpl; lia. Qed.

Lemma weekdayIndex_injective d1 d2 : weekdayIndex d1 = weekdayIndex d2 -> d1 = d2.
Proof. destruct d1, d2; simpl; intros H; try reflexivity; discriminate. Qed.

Lemma Day_value : Day = 86400000000000.
Proof. reflexivity. Qed.

(** The date in closed form: today's day number plus the days to wait. *)
Lemma GetNextDateForDay_closed today day :
  GetNextDateForDay today day
  = (today / Day + (weekdayIndex day - Weekday today) mod 7) * Day.
Proof.
  unfold GetNextDateForDay, midnight, AddDays.
  pose proof (weekdayIndex_range day) as Hidx.
  assert (Hwd : 0 <= Weekday today < 7) by (unfold Weekday; apply Z.mod_pos_bound; lia).
  rewrite Z.rem_mod_nonneg by lia.
  rewrite Z.div_add by (rewrite Day_value; lia).
  f_equal. f_equal.
  replace (weekdayIndex day - Weekday today + 7)
    with (weekdayIndex day - Weekday today + 1 * 7) by lia.
  apply Z.mod_add. lia.
Qed.

Lemma GetNextDateForDay_weekday today day :
  Weekday (GetNextDateForDay today day) = weekdayIndex day.
Proof.
  rewrite GetNextDateForDay_closed.
  pose proof (weekdayIndex_range day) as Hidx.
  assert (HDay : 0 < Day) by reflexivity.
  unfold Weekday at 1. rewrite Z.div_mul by lia.
  unfold Weekday.
  replace (today / Day + (weekdayIndex day - (today / Day + 4) mod 7) mod 7 + 4)
    with ((today / Day + 4) + (weekdayIndex day - (today / Day + 4) mod 7) mod 7)
    by lia.
  rewrite Z.add_mod_idemp_r by lia.
  replace (today / Day + 4 + (weekdayIndex day - (today / Day + 4) mod 7))
    with (weekdayIndex day + ((today / Day + 4) - (today / Day + 4) mod 7)) by lia.
  rewrite (Z.div_mod (today / Day + 4) 7) at 1 by lia.
  replace (weekdayIndex day
           + (7 * ((today / Day + 4) / 7) + (today / Day + 4) mod 7
              - (today / Day + 4) mod 7))
    with (weekdayIndex day + ((today / Day + 4) / 7) * 7) by lia.
  rewrite Z.mod_add by lia. apply Z.mod_small. lia.
Qed.

(** X4: the date computed for a weekday is a midnight, falls on that
    weekday, and is today's date or one of the six days after it; it is
    today's date when today is that weekday. *)
Theorem GetNextDateForDay_is_the_next_such_day :
  forall today day,
    midnight (GetNextDateForDay today day) = GetNextDateForDay today day
    /\ Weekday (GetNextDateForDay today day) = weekdayIndex day
    /\ midnight today <= GetNextDateForDay today day <= midnight today + 6 * Day
    /\ (Weekday today = weekdayIndex day ->
        GetNextDateForDay today day = midnight today).
Proof.
  intros today day. split; [|split; [apply GetNextDateForDay_weekday|]];
    rewrite GetNextDateForDay_closed.
  - assert (HDay : 0 < Day) by reflexivity.
    unfold midnight. now rewrite Z.div_mul by lia.
  - assert (HDay : 0 < Day) by reflexivity.
    assert (Hd : 0 <= (weekdayIndex day - Weekday today) mod 7 < 7)
      by (apply Z.mod_pos_bound; lia).
    unfold midnight. repeat split; try nia.
    intros ->. rewrite Z.sub_diag. rewrite Z.mod_0_l by lia. f_equal. lia.
Qed.

(** X5: the dates computed for the seven weekdays are pairwise different,
    and every one of the seven days that start with today is the date of
    some weekday. *)
Theorem GetNextDateForDay_covers_the_week :
  forall today,
    NoDup (map (GetNextDateForDay today) AllDayOfWeek)
    /\ (forall k, 0 <= k <= 6 ->
          exists day, GetNextDateForDay today day = midnight today + k * Day).
Proof.
  intros today. split.
  - assert (Hinj : forall d1 d2,
               GetNextDateForDay today d1 = GetNextDateForDay today d2 -> d1 = d2).
    { intros d1 d2 Heq. apply weekdayIndex_injective.
      rewrite <- (GetNextDateForDay_weekday today d1).
      rewrite <- (GetNextDateForDay_weekday today d2).
      now rewrite Heq. }
    unfold AllDayOfWeek. simpl.
    repeat (constructor;
            [simpl; intros Hin;
             repeat (destruct Hin as [Hin|Hin]; [apply Hinj in Hin; discriminate|]);
             exact Hin|]).
    constructor.
  - intros k Hk.
    assert (Hwd : 0 <= Weekday today < 7)
      by (unfold Weekday; apply Z.mod_pos_bound; lia).
    assert (Hpick : exists day, weekdayIndex day = (Weekday today + k) mod 7).
    { assert (Hr : 0 <= (Weekday today + k) mod 7 < 7) by (apply Z.mod_pos_bound; lia).
      assert (Hcases : (Weekday today + k) mod 7 = 0 \/ (Weekday today + k) mod 7 = 1
                       \/ (Weekday today + k) mod 7 = 2 \/ (Weekday today + k) mod 7 = 3
                       \/ (Weekday today + k) mod 7 = 4 \/ (Weekday today + k) mod 7 = 5
                       \/ (Weekday today + k) mod 7 = 6) by lia.
      destruct Hcases as [H|[H|[H|[H|[H|[H|H]]]]]]; rewrite H;
        [exists Sunday | exists Monday | exists Tuesday | exists Wednesday
         | exists Thursday | exists Friday | exists Saturday]; reflexivity. }
    destruct Hpick as [day Hday]. exists day.
    rewrite GetNextDateForDay_closed, Hday. unfold midnight.
    rewrite <- Z.mul_add_distr_r. f_equal. f_equal.
    rewrite Zminus_mod_idemp_l.
    replace (Weekday today + k - Weekday today) with k by lia.
    apply Z.mod_small. lia.
Qed.

(** * Further properties of the calendar client *)

Lemma remoteCalls_app tr1 tr2 :
  remoteCalls (tr1 ++ tr2) = (remoteCalls tr1 ++ remoteCalls tr2)%list.
Proof. apply filter_app. Qed.

(** What [GetCalendarClient] does, in closed form: its answer and the
    effects it adds depend on the environment and the integration only. *)
Lemma GetCalendarClient_closed env i w :
  GetCalendarClient env i w
  = if refreshable i then
      match tokenSourceToken env (storedToken i) with
      | None =>
          ((Err (NewAppError AuthInvalidToken
                   "Failed to validate/refresh Google token" true), AppType i),
           {| store := store w;
              trace := (trace w ++ [TokenSourceCall (storedToken i)])%list |})
      | Some newToken =>
          ((if calendarNewService env
            then Ok {| ServiceToken :=
                         {| TokenAccess := TokenAccess newToken;
                            TokenRefresh := NSString (RefreshToken i);
                            TokenExpiry := if NIValid (ExpiryDate i)
                                           then Some (NIInt64 (ExpiryDate i))
                                           else None |} |}
            else Err (NewAppError InternalServerError
                        "Failed to create Google Calendar service client" true),
            AppType i),
           {| store := store w;
              trace := (trace w
                          ++ TokenSourceCall (storedToken i)
                          :: (if negb (String.eqb (TokenAccess newToken)
                                         (NSString (AccessToken i)))
                              then [LogPrintf "Google token refreshed."]
                              else []))%list |})
      end
    else
      ((Err (match AppType i with
             | AppGoogleMeetAndCalendar =>
                 NewAppError AuthUnauthorizedAccess
                   "Google integration missing refresh token for offline access." false
             | other =>
                 NewAppError BadRequest
                   ("Unsupported calendar provider app type: "
                      ++ IntegrationAppType_string other)%string false
             end), AppType i), w).
Proof.
  unfold GetCalendarClient, refreshable, storedToken.
  destruct (AppType i) eqn:Happ; simpl; try reflexivity.
  destruct (NSValid (RefreshToken i)); simpl; [|reflexivity].
  destruct (String.eqb (NSString (RefreshToken i)) "") eqn:Hre; simpl; [reflexivity|].
  unfold bind, ValidateGoogleToken. cbv zeta. rewrite Hre.
  unfold bind, emit, ret. simpl.
  destruct (tokenSourceToken env _) as [newToken|]; simpl; [|reflexivity].
  destruct (negb (String.eqb (TokenAccess newToken) (NSString (AccessToken i)))); simpl;
    destruct (calendarNewService env); simpl; rewrite <- ?app_assoc; reflexivity.
Qed.

(** X6: a calendar client is obtained exactly when the integration is a
    Google one with a refresh token, the token source answers, and the
    service can be built; the client then carries the access token the
    provider returned, with the refresh token and the expiry of the stored
    row. *)
Theorem GetCalendarClient_succeeds_iff :
  forall env i w svc,
    fst (fst (GetCalendarClient env i w)) = Ok svc
    <-> (refreshable i = true
         /\ calendarNewService env = true
         /\ exists newToken,
              tokenSourceToken env (storedToken i) = Some newToken
              /\ svc = {| ServiceToken :=
                            {| TokenAccess := TokenAccess newToken;
                               TokenRefresh := NSString (RefreshToken i);
                               TokenExpiry := if NIValid (ExpiryDate i)
                                              then Some (NIInt64 (ExpiryDate i))
                                              else None |} |}).
Proof.
  intros env i w svc. rewrite GetCalendarClient_closed.
  destruct (refreshable i); simpl.
  - destruct (tokenSourceToken env (storedToken i)) as [newToken|]; simpl.
    + destruct (calendarNewService env); simpl.
      * split.
        -- intros [= <-]. repeat split. now exists newToken.
        -- intros (_ & _ & t & [= <-] & ->). reflexivity.
      * split; [discriminate | intros (_ & H & _); discriminate].
    + split; [discriminate | intros (_ & _ & t & H & _); discriminate].
  - split; [discriminate | intros (H & _); discriminate].
Qed.

(** X7: building a calendar client consults the token source once, with
    the stored token, when the integration is a Google one with a refresh
    token, and makes no remote call otherwise; it never calls the calendar
    API and never touches the store. *)
Theorem GetCalendarClient_remote_calls :
  forall env i w,
    remoteCalls (trace (snd (GetCalendarClient env i w)))
    = (remoteCalls (trace w)
         ++ (if refreshable i then [TokenSourceCall (storedToken i)] else []))%list
    /\ store (snd (GetCalendarClient env i w)) = store w.
Proof.
  intros env i w. rewrite GetCalendarClient_closed.
  destruct (refreshable i); simpl.
  - destruct (tokenSourceToken env (storedToken i)) as [newToken|]; simpl.
    + rewrite remoteCalls_app. split; [|reflexivity]. f_equal.
      destruct (negb _); reflexivity.
    + rewrite remoteCalls_app. split; reflexivity.
  - rewrite app_nil_r. split; reflexivity.
Qed.

(** * Further properties of bookings *)




Lemma failsOnly_WriteError {A} e : failsOnly (@WriteError A e).
Proof. intros w r w' [= <- _]. eauto. Qed.

Lemma failsOnly_continue {A} (a : A) : failsOnly (continue a).
Proof. intros w r w'. discriminate. Qed.

Lemma failsOnly_lift {A} (c : Eff A) : failsOnly (lift c).
Proof. intros w r w'. unfold lift. destruct (c w). discriminate. Qed.


#[local] Hint Resolve failsOnly_WriteError failsOnly_continue failsOnly_lift : preserve.





(** A booking for an id without a public event. *)
Lemma CreateBooking_without_public_event env dto w :
  driverError env QEvent = None ->
  publicEventRows (store w) (DtoEventID dto) = [] ->
  CreateBooking env (Some dto) w
  = (ErrorResponse (NewNotFoundError "Public event" false),
     {| store := store w; trace := (trace w ++ [LogFatalf])%list |}).
Proof.
  intros Hdrv Hrows.
  unfold CreateBooking, CreateBookingSteps, run, hbind, prepareBooking, hbind, lift,
    getStore, dbGet.
  rewrite Hdrv, Hrows. reflexivity.
Qed.

(** X9: when every stored event with the requested id is private (or
    there is none) and the event query works, the booking is answered with
    the 404 error "Resource 'Public event' not found."; no remote call is
    made and the store is left as it was. *)
Theorem CreateBooking_private_event_not_found :
  forall env dto w,
    driverError env QEvent = None ->
    (forall e, In e (events (store w)) -> EventID e = DtoEventID dto ->
               EventIsPrivate e = true) ->
    CreateBooking env (Some dto) w
    = (ErrorResponse (NewNotFoundError "Public event" false),
       {| store := store w; trace := (trace w ++ [LogFatalf])%list |})
    /\ StatusCode (fst (CreateBooking env (Some dto) w)) = StatusNotFound.
Proof.
  intros env dto w Hdrv Hprivate.
  assert (Hrows : publicEventRows (store w) (DtoEventID dto) = []).
  { unfold publicEventRows.
    destruct (filter _ (events (store w))) as [|e rest] eqn:Hf; [reflexivity|].
    assert (Hin : In e (filter (fun e => String.eqb (EventID e) (DtoEventID dto)
                                         && negb (EventIsPrivate e)) (events (store w))))
      by (rewrite Hf; now left).
    apply filter_In in Hin as [Hin Hcond].
    apply andb_true_iff in Hcond as [Hid Hpriv].
    apply String.eqb_eq in Hid. rewrite (Hprivate e Hin Hid) in Hpriv. discriminate. }
  rewrite (CreateBooking_without_public_event env dto w Hdrv Hrows).
  split; reflexivity.
Qed.

Lemma CreateBooking_private_event_not_found_witness :
  driverError Fixtures.healthyEnv QEvent = None
  /\ CreateBooking Fixtures.healthyEnv
       (Some {| DtoEventID := "no-such-event";
                DtoStartTime := Fixtures.at_ Fixtures.monday 12 0;
                DtoEndTime := Fixtures.at_ Fixtures.monday 13 0;
                DtoGuestName := "Guest"; DtoGuestEmail := "guest@example.org";
                DtoAdditionalInfo := "" |})
       Fixtures.emptyWorld
     = (ErrorResponse (NewNotFoundError "Public event" false),
        {| store := store Fixtures.emptyWorld;
           trace := (trace Fixtures.emptyWorld ++ [LogFatalf])%list |})
  /\ StatusCode
       (fst (CreateBooking Fixtures.healthyEnv
               (Some {| DtoEventID := "no-such-event";
                        DtoStartTime := Fixtures.at_ Fixtures.monday 12 0;
                        DtoEndTime := Fixtures.at_ Fixtures.monday 13 0;
                        DtoGuestName := "Guest"; DtoGuestEmail := "guest@example.org";
                        DtoAdditionalInfo := "" |})
               Fixtures.emptyWorld)) = StatusNotFound.
Proof.
  split; [reflexivity|].
  apply (CreateBooking_private_event_not_found Fixtures.healthyEnv
           {| DtoEventID := "no-such-event";
              DtoStartTime := Fixtures.at_ Fixtures.monday 12 0;
              DtoEndTime := Fixtures.at_ Fixtures.monday 13 0;
              DtoGuestName := "Guest"; DtoGuestEmail := "guest@example.org";
              DtoAdditionalInfo := "" |}
           Fixtures.emptyWorld).
  - reflexivity.
  - simpl. intros e [<-|[]] Hid. vm_compute in Hid. discriminate.
Defined.


(** X11: booking an event located on Zoom makes no call to the OAuth
    provider or to the calendar API, and the meeting it stores has no meet
    link, no calendar event id and no calendar app type. *)
Theorem CreateBooking_zoom_makes_no_remote_call :
  forall env dto w event,
    dbGet env QEvent (publicEventRows (store w) (DtoEventID dto)) = Ok event ->
    EventLocation event = LocationZoomMeeting ->
    remoteCalls (trace (snd (CreateBooking env (Some dto) w))) = remoteCalls (trace w)
    /\ (forall meetLink m,
          fst (CreateBooking env (Some dto) w)
          = JsonResponse StatusCreated (MeetingScheduled meetLink m) ->
          meetLink = "" /\ MeetLink m = "" /\ CalendarEventID m = ""
          /\ CalendarAppType m = None).
Proof.
  intros env dto w event Hevent Hloc.
  unfold CreateBooking, CreateBookingSteps, run, hbind, prepareBooking, hbind, lift,
    getStore.
  rewrite Hevent. unfold continue, ret; cbv beta iota. rewrite Hloc.
  change (existsb (IntegrationAppType_eqb LocationZoomMeeting) AllEventLocationType)
    with true.
  change (IntegrationAppTypeFromEventLocation LocationZoomMeeting)
    with (Some AppZoomMeeting).
  cbv beta iota.
  destruct (dbGet env QIntegration _) as [i|[|d]]; cbv beta iota.
  - unfold createRemoteEvent. rewrite Hloc.
    change (IntegrationAppType_eqb LocationZoomMeeting LocationGoogleMeetAndCalendar)
      with false.
    unfold continue, ret, insertMeeting; cbv beta iota. simpl fst. simpl snd.
    cbv beta iota.
    destruct (driverError env QInsertMeeting); simpl.
    + rewrite remoteCalls_app, app_nil_r. split; [reflexivity | discriminate].
    + split; [reflexivity|]. intros meetLink m [= <- <-]. auto.
  - simpl. rewrite remoteCalls_app, app_nil_r. split; [reflexivity | discriminate].
  - simpl. rewrite remoteCalls_app, app_nil_r. split; [reflexivity | discriminate].
Qed.

Lemma CreateBooking_zoom_makes_no_remote_call_witness :
  dbGet Fixtures.healthyEnv QEvent
    (publicEventRows (store Scenarios.zoomWorld) (DtoEventID Scenarios.zoomDto))
  = Ok Scenarios.zoomEvent
  /\ EventLocation Scenarios.zoomEvent = LocationZoomMeeting
  /\ remoteCalls
       (trace (snd (CreateBooking Fixtures.healthyEnv (Some Scenarios.zoomDto)
                      Scenarios.zoomWorld)))
     = remoteCalls (trace Scenarios.zoomWorld)
  /\ (forall meetLink m,
        fst (CreateBooking Fixtures.healthyEnv (Some Scenarios.zoomDto)
               Scenarios.zoomWorld)
        = JsonResponse StatusCreated (MeetingScheduled meetLink m) ->
        meetLink = "" /\ MeetLink m = "" /\ CalendarEventID m = ""
        /\ CalendarAppType m = None).
Proof.
  split; [reflexivity|]. split; [reflexivity|].
  apply (CreateBooking_zoom_makes_no_remote_call Fixtures.healthyEnv Scenarios.zoomDto
           Scenarios.zoomWorld Scenarios.zoomEvent); reflexivity.
Defined.

(** * Further properties of cancellations *)

(** The run of [CancelMeeting] on a meeting that is found and not yet
    cancelled, when the driver carries out the update. *)
Lemma CancelMeeting_scheduled_run env meetingID w meeting owner :
  String.eqb meetingID "" = false ->
  dbGet env QFetchMeeting (meetingWithOwnerRows (store w) meetingID) = Ok (meeting, owner) ->
  MeetingStatus_eqb (Status meeting) Cancelled = false ->
  CancelMeeting env meetingID w
  = match driverError env QUpdateMeeting with
    | Some _ =>
        (ErrorResponse (NewAppError InternalServerError
                          "Failed to update meeting status" true),
         {| store := store w;
            trace := (trace (snd (deleteRemoteEvent env meeting owner w))
                        ++ [LogFatalf])%list |})
    | None =>
        (JsonResponse StatusOK (SimpleMessage "Meeting cancelled successfully"),
         {| store := setMeetings (store w)
                       (updateStatus (meetings (store w)) meetingID Cancelled);
            trace := trace (snd (deleteRemoteEvent env meeting owner w)) |})
    end.
Proof.
  intros Hid Hfetch Hstatus.
  unfold CancelMeeting, CancelMeetingSteps, run. rewrite Hid.
  unfold hbind, lift, getStore. rewrite Hfetch. unfold continue, ret.
  cbv beta iota. rewrite Hstatus. cbv beta iota.
  pose proof (deleteRemoteEvent_preserves env meeting owner w) as Hst.
  destruct (deleteRemoteEvent env meeting owner w) as [[] w1]. simpl in Hst.
  destruct (driverError env QUpdateMeeting).
  - simpl. now rewrite Hst.
  - unfold putStore, ResponseJson, ret. simpl. rewrite Hst.
    apply dbGet_Ok_In, fetched_meeting_has_id in Hfetch as [Hin Hm].
    rewrite (rowsAffected_positive _ _ _ Hin Hm). reflexivity.
Qed.





(** The rows a cancel request fetches, after the rows of the id have been
    cancelled. *)
Lemma meetingWithOwnerRows_updateStatus st meetingID :
  meetingWithOwnerRows (setMeetings st (updateStatus (meetings st) meetingID Cancelled))
    meetingID
  = map (fun row => (setStatus (fst row) Cancelled, snd row))
        (meetingWithOwnerRows st meetingID).
Proof.
  unfold meetingWithOwnerRows. simpl.
  induction (meetings st) as [|m ms IH]; [reflexivity|].
  simpl. rewrite map_app, <- IH. f_equal.
  destruct (String.eqb (MeetingID m) meetingID) eqn:E; simpl; rewrite E; [|reflexivity].
  rewrite map_map. reflexivity.
Qed.

(** What a successful cancel request has found and done. *)
Lemma CancelMeeting_success env meetingID w code body :
  fst (CancelMeeting env meetingID w) = JsonResponse code body ->
  String.eqb meetingID "" = false
  /\ driverError env QUpdateMeeting = None
  /\ exists meeting owner,
       dbGet env QFetchMeeting (meetingWithOwnerRows (store w) meetingID)
       = Ok (meeting, owner)
       /\ Status meeting = Scheduled
       /\ CancelMeeting env meetingID w
          = (JsonResponse StatusOK (SimpleMessage "Meeting cancelled successfully"),
             {| store := setMeetings (store w)
                           (updateStatus (meetings (store w)) meetingID Cancelled);
                trace := trace (snd (deleteRemoteEvent env meeting owner w)) |}).
Proof.
  destruct (String.eqb meetingID "") eqn:Hid.
  - unfold CancelMeeting, CancelMeetingSteps, run. rewrite Hid. discriminate.
  - destruct (dbGet env QFetchMeeting (meetingWithOwnerRows (store w) meetingID))
      as [[meeting owner]|[|d]] eqn:Hfetch.
    + destruct (MeetingStatus_eqb (Status meeting) Cancelled) eqn:Hstatus.
      * unfold CancelMeeting, CancelMeetingSteps, run. rewrite Hid.
        unfold hbind, lift, getStore. rewrite Hfetch. unfold continue, ret.
        cbv beta iota. rewrite Hstatus. discriminate.
      * rewrite (CancelMeeting_scheduled_run _ _ _ _ _ Hid Hfetch Hstatus).
        destruct (driverError env QUpdateMeeting) eqn:Hdrv; [discriminate|].
        intros _. repeat split. exists meeting, owner.
        repeat split. destruct (Status meeting); [reflexivity | discriminate].
    + unfold CancelMeeting, CancelMeetingSteps, run. rewrite Hid.
      unfold hbind, lift, getStore. rewrite Hfetch. discriminate.
    + unfold CancelMeeting, CancelMeetingSteps, run. rewrite Hid.
      unfold hbind, lift, getStore. rewrite Hfetch. discriminate.
Qed.

(** X13: after a cancel request has succeeded, a second request for the
    same id (whose fetch the driver carries out) is answered with
    "Meeting is already cancelled", makes no remote call and changes
    nothing. *)
Theorem CancelMeeting_twice_is_refused :
  forall env env' meetingID w,
    fst (CancelMeeting env meetingID w)
    = JsonResponse StatusOK (SimpleMessage "Meeting cancelled successfully") ->
    driverError env' QFetchMeeting = None ->
    CancelMeeting env' meetingID (snd (CancelMeeting env meetingID w))
    = (ErrorResponse (NewAppError BadRequest "Meeting is already cancelled" false),
       {| store := store (snd (CancelMeeting env meetingID w));
          trace := (trace (snd (CancelMeeting env meetingID w)) ++ [LogFatalf])%list |}).
Proof.
  intros env env' meetingID w Hok Hdrv.
  apply CancelMeeting_success in Hok
    as (Hid & _ & meeting & owner & Hfetch & _ & Hrun).
  rewrite Hrun. simpl snd.
  set (w1 := {| store := setMeetings (store w)
                           (updateStatus (meetings (store w)) meetingID Cancelled);
                trace := trace (snd (deleteRemoteEvent env meeting owner w)) |}).
  assert (Hrows : dbGet env' QFetchMeeting (meetingWithOwnerRows (store w1) meetingID)
                  = Ok (setStatus meeting Cancelled, owner)).
  { unfold w1. simpl store. rewrite meetingWithOwnerRows_updateStatus.
    unfold dbGet in *. rewrite Hdrv.
    destruct (driverError env QFetchMeeting); [discriminate|].
    destruct (meetingWithOwnerRows (store w) meetingID) as [|row rows];
      [discriminate|].
    injection Hfetch as ->. reflexivity. }
  unfold CancelMeeting, CancelMeetingSteps, run. rewrite Hid.
  unfold hbind, lift, getStore. rewrite Hrows. reflexivity.
Qed.

(** A cancel request for an id that no stored meeting has (the fetch
    being carried out) is answered with the 404 error "Resource 'Meeting'
    not found."; nothing is changed and no remote call is made. *)
Theorem CancelMeeting_unknown_meeting :
  forall env meetingID w,
    String.eqb meetingID "" = false ->
    driverError env QFetchMeeting = None ->
    (forall m, In m (meetings (store w)) -> MeetingID m <> meetingID) ->
    CancelMeeting env meetingID w
    = (ErrorResponse (NewNotFoundError "Meeting" false),
       {| store := store w; trace := (trace w ++ [LogFatalf])%list |})
    /\ StatusCode (fst (CancelMeeting env meetingID w)) = StatusNotFound.
Proof.
  intros env meetingID w Hid Hdrv Hnone.
  assert (Hrows : meetingWithOwnerRows (store w) meetingID = []).
  { unfold meetingWithOwnerRows.
    induction (meetings (store w)) as [|m ms IH]; [reflexivity|].
    simpl. destruct (String.eqb (MeetingID m) meetingID) eqn:E.
    - apply String.eqb_eq in E. exfalso. apply (Hnone m); [now left | exact E].
    - simpl. apply IH. intros m' Hin. apply Hnone. now right. }
  assert (Hrun : CancelMeeting env meetingID w
                 = (ErrorResponse (NewNotFoundError "Meeting" false),
                    {| store := store w; trace := (trace w ++ [LogFatalf])%list |})).
  { unfold CancelMeeting, CancelMeetingSteps, run. rewrite Hid.
    unfold hbind, lift, getStore, dbGet. rewrite Hdrv, Hrows. reflexivity. }
  rewrite Hrun. split; reflexivity.
Qed.

Lemma CancelMeeting_unknown_meeting_witness :
  String.eqb "m7" "" = false
  /\ driverError Fixtures.healthyEnv QFetchMeeting = None
  /\ CancelMeeting Fixtures.healthyEnv "m7" Fixtures.scheduledWorld
     = (ErrorResponse (NewNotFoundError "Meeting" false),
        {| store := store Fixtures.scheduledWorld;
           trace := (trace Fixtures.scheduledWorld ++ [LogFatalf])%list |})
  /\ StatusCode (fst (CancelMeeting Fixtures.healthyEnv "m7" Fixtures.scheduledWorld))
     = StatusNotFound.
Proof.
  split; [reflexivity|]. split; [reflexivity|].
  apply (CancelMeeting_unknown_meeting Fixtures.healthyEnv "m7" Fixtures.scheduledWorld).
  - reflexivity.
  - reflexivity.
  - simpl. intros m [<-|[]] Hid. vm_compute in Hid. discriminate.
Defined.









Lemma CancelMeeting_twice_is_refused_witness :
  fst (CancelMeeting Fixtures.healthyEnv "m1" Fixtures.scheduledWorld)
  = JsonResponse StatusOK (SimpleMessage "Meeting cancelled successfully")
  /\ driverError Fixtures.calendarDownEnv QFetchMeeting = None
  /\ CancelMeeting Fixtures.calendarDownEnv "m1"
       (snd (CancelMeeting Fixtures.healthyEnv "m1" Fixtures.scheduledWorld))
     = (ErrorResponse (NewAppError BadRequest "Meeting is already cancelled" false),
        {| store := store (snd (CancelMeeting Fixtures.healthyEnv "m1"
                                  Fixtures.scheduledWorld));
           trace := (trace (snd (CancelMeeting Fixtures.healthyEnv "m1"
                                   Fixtures.scheduledWorld)) ++ [LogFatalf])%list |}).
Proof.
  split; [vm_compute; reflexivity|]. split; [reflexivity|].
  apply (CancelMeeting_twice_is_refused Fixtures.healthyEnv Fixtures.calendarDownEnv "m1"
           Fixtures.scheduledWorld).
  - vm_compute. reflexivity.
  - reflexivity.
Defined.

(** * Further properties of the availability of an event *)

Lemma dailySlots_store fuel env event timeGap dayRules meetingsInRange day w d w' :
  dailySlots fuel env event timeGap dayRules meetingsInRange day w = Some (d, w') ->
  store w' = store w /\ remoteCalls (trace w') = remoteCalls (trace w)
  /\ SlotsDay d = day
  /\ ((forall rule, dayRules day = Some rule -> RuleIsAvailable rule = false) ->
      Slots d = [] /\ SlotsIsAvailable d = false).
Proof.
  unfold dailySlots.
  destruct (dayRules day) as [rule|].
  - destruct (RuleIsAvailable rule) eqn:Havail.
    + assert (Hno : (forall rule0, Some rule = Some rule0 ->
                                   RuleIsAvailable rule0 = false) -> False).
      { intros Hrule. specialize (Hrule rule eq_refl). congruence. }
      destruct (GenerateAvailableTimeSlots _ _ _ _ _ _ _ _) as [[slots|msg]|];
        [| |discriminate]; intros [= <- <-]; simpl.
      * split; [reflexivity|]. split; [reflexivity|]. split; [reflexivity|].
        intros Hrule. contradiction.
      * split; [reflexivity|]. split; [rewrite remoteCalls_app; apply app_nil_r|].
        split; [reflexivity|]. intros Hrule. contradiction.
    + intros [= <- <-]. simpl. repeat split.
  - intros [= <- <-]. simpl. repeat split.
Qed.

Lemma slotsForDays_result fuel env event timeGap dayRules meetingsInRange :
  forall days resultSlots w r w',
    slotsForDays fuel env event timeGap dayRules meetingsInRange days resultSlots w
    = Some (r, w') ->
    store w' = store w /\ remoteCalls (trace w') = remoteCalls (trace w)
    /\ exists data,
         r = (resultSlots ++ data)%list
         /\ Forall2 (fun day d =>
                       SlotsDay d = day
                       /\ ((forall rule, dayRules day = Some rule ->
                                         RuleIsAvailable rule = false) ->
                           Slots d = [] /\ SlotsIsAvailable d = false))
                    days data.
Proof.
  induction days as [|day days IH]; intros resultSlots w r w'; simpl.
  - intros [= <- <-]. repeat split. exists []. rewrite app_nil_r. split; constructor.
  - destruct (dailySlots fuel env event timeGap dayRules meetingsInRange day w)
      as [[d w1]|] eqn:Hday; [|discriminate].
    intros Hrest. apply dailySlots_store in Hday as (Hst & Hcalls & Hday & Hempty).
    apply IH in Hrest as (Hst' & Hcalls' & data & -> & Hall).
    repeat split; try congruence.
    exists (d :: data). rewrite <- app_assoc. split; [reflexivity|].
    constructor; auto.
Qed.

(** A day all of whose rows are unavailable has no available rule. *)
Lemma buildDayRules_unavailable timeGap rows day :
  (forall row, In row rows -> RowDay row = Some day -> RowIsAvailable row = false) ->
  forall rule, buildDayRules timeGap rows day = Some rule -> RuleIsAvailable rule = false.
Proof.
  unfold buildDayRules.
  assert (Hgen : forall (init : DayRules),
             (forall rule, init day = Some rule -> RuleIsAvailable rule = false) ->
             (forall row, In row rows -> RowDay row = Some day ->
                          RowIsAvailable row = false) ->
             forall rule,
               fold_left
                 (fun (dayRules : DayRules) row =>
                    match RowDay row with
                    | Some day0 =>
                        if NSValid (RowAvailabilityID row) then
                          fun d => if DayOfWeek_eqb d day0
                                   then Some {| RuleTimeGap := timeGap; RuleDay := day0;
                                                RuleStartTime := RowStartTime row;
                                                RuleEndTime := RowEndTime row;
                                                RuleIsAvailable := RowIsAvailable row |}
                                   else dayRules d
                        else dayRules
                    | None => dayRules
                    end) rows init day = Some rule ->
               RuleIsAvailable rule = false).
  { induction rows as [|row rows IH]; intros init Hinit Hrows rule; simpl.
    - apply Hinit.
    - apply IH.
      + intros rule0. destruct (RowDay row) as [day0|] eqn:Hday; [|apply Hinit].
        destruct (NSValid (RowAvailabilityID row)); [|apply Hinit].
        destruct (DayOfWeek_eqb day day0) eqn:E; [|apply Hinit].
        intros [= <-]. simpl. apply Hrows; [now left|].
        rewrite Hday. f_equal. destruct day, day0; try discriminate; reflexivity.
      + intros row0 Hin. apply Hrows. now right. }
  intros Hrows. apply Hgen; [discriminate | exact Hrows].
Qed.

(** What an availability request that answers with a list has read. *)
Lemma GetPublicEventAvailability_list fuel env eventID w code data w' :
  GetPublicEventAvailability fuel env eventID w
  = Some (JsonResponse code (EventAvailability data), w') ->
  exists first rest,
    eventAvailabilityRows (store w) eventID = first :: rest
    /\ slotsForDays fuel env (RowEvent first) (NIInt64 (RowTimeGap first))
         (buildDayRules (NIInt64 (RowTimeGap first)) (first :: rest))
         (meetingsInRangeRows (store w) (EventUserID (RowEvent first))
            (AddDays (Now env) 7) (Now env))
         AllDayOfWeek [] w
       = Some (data, w').
Proof.
  unfold GetPublicEventAvailability.
  destruct (String.eqb eventID ""); [discriminate|].
  destruct (driverError env QEventAvailability); [discriminate|].
  destruct (eventAvailabilityRows (store w) eventID) as [|first rest]; [discriminate|].
  destruct (negb (NSValid (RowAvailabilityID first))); [discriminate|].
  destruct (driverError env QMeetingsInRange); [discriminate|].
  cbv zeta.
  destruct (slotsForDays _ _ _ _ _ _ _ _ _) as [[resultSlots w1]|] eqn:Hdays;
    [|discriminate].
  intros [= _ <- <-]. exists first, rest. auto.
Qed.

(** X16: in every list an availability request answers with, there is
    one entry per day of the week, in order, and a day all of whose stored
    rules are unavailable (or that has no rule) has an empty slot list and
    is marked unavailable, whatever the meetings. *)
Theorem unavailable_day_has_no_slots :
  forall fuel env eventID w code data w',
    GetPublicEventAvailability fuel env eventID w
    = Some (JsonResponse code (EventAvailability data), w') ->
    map SlotsDay data = AllDayOfWeek
    /\ forall d, In d data ->
         (forall row, In row (eventAvailabilityRows (store w) eventID) ->
                      RowDay row = Some (SlotsDay d) -> RowIsAvailable row = false) ->
         Slots d = [] /\ SlotsIsAvailable d = false.
Proof.
  intros fuel env eventID w code data w' Hrun.
  apply GetPublicEventAvailability_list in Hrun as (first & rest & Hrows & Hdays).
  apply slotsForDays_result in Hdays as (_ & _ & data' & Hdata & Hall).
  simpl in Hdata. subst data'. rewrite Hrows. split.
  - clear -Hall. induction Hall as [|day d days data [Hday _] _ IH]; simpl; congruence.
  - intros d Hin Hrule. revert Hin.
    clear -Hall Hrule. induction Hall as [|day d' days data [Hday Hempty] _ IH];
      [contradiction|].
    intros [->|Hin]; [|auto].
    apply Hempty. subst day. now apply buildDayRules_unavailable.
Qed.

Lemma unavailable_day_has_no_slots_witness :
  GetPublicEventAvailability 100 Fixtures.healthyEnv "e1" Fixtures.emptyWorld
  = Some (JsonResponse StatusOK (EventAvailability Scenarios.freeWeek),
          Fixtures.emptyWorld)
  /\ map SlotsDay Scenarios.freeWeek = AllDayOfWeek
  /\ forall d, In d Scenarios.freeWeek ->
       (forall row, In row (eventAvailabilityRows (store Fixtures.emptyWorld) "e1") ->
                    RowDay row = Some (SlotsDay d) -> RowIsAvailable row = false) ->
       Slots d = [] /\ SlotsIsAvailable d = false.
Proof.
  split; [vm_compute; reflexivity|].
  apply (unavailable_day_has_no_slots 100 Fixtures.healthyEnv "e1" Fixtures.emptyWorld
           StatusOK Scenarios.freeWeek Fixtures.emptyWorld).
  vm_compute; reflexivity.
Defined.

(** X17: an availability request reads only: whatever it answers, the
    store is as before and no call to the OAuth provider or the calendar
    API has been made. *)
Theorem GetPublicEventAvailability_reads_only :
  forall fuel env eventID w r w',
    GetPublicEventAvailability fuel env eventID w = Some (r, w') ->
    store w' = store w /\ remoteCalls (trace w') = remoteCalls (trace w).
Proof.
  intros fuel env eventID w r w'.
  assert (Hquiet : remoteCalls (trace w ++ [LogFatalf]) = remoteCalls (trace w))
    by (rewrite remoteCalls_app; apply app_nil_r).
  unfold GetPublicEventAvailability.
  destruct (String.eqb eventID ""); [intros [= _ <-]; simpl; auto|].
  destruct (driverError env QEventAvailability); [intros [= _ <-]; simpl; auto|].
  destruct (eventAvailabilityRows (store w) eventID) as [|first rest];
    [intros [= _ <-]; simpl; auto|].
  destruct (negb (NSValid (RowAvailabilityID first))); [intros [= _ <-]; simpl; auto|].
  destruct (driverError env QMeetingsInRange); [intros [= _ <-]; simpl; auto|].
  cbv zeta.
  destruct (slotsForDays _ _ _ _ _ _ _ _ _) as [[resultSlots w1]|] eqn:Hdays;
    [|discriminate].
  intros [= _ <-]. apply slotsForDays_result in Hdays as (Hst & Hcalls & _). auto.
Qed.

Lemma GetPublicEventAvailability_reads_only_witness :
  GetPublicEventAvailability 100 Fixtures.healthyEnv "e9" Fixtures.scheduledWorld
  = Some (ErrorResponse
            (NewAppError BadRequest "Event found but no availability for user" false),
          {| store := store Fixtures.scheduledWorld; trace := [LogFatalf] |})
  /\ store {| store := store Fixtures.scheduledWorld; trace := [LogFatalf] |}
     = store Fixtures.scheduledWorld
  /\ remoteCalls [LogFatalf] = remoteCalls (trace Fixtures.scheduledWorld).
Proof.
  split; [vm_compute; reflexivity|].
  apply (GetPublicEventAvailability_reads_only 100 Fixtures.healthyEnv "e9"
           Fixtures.scheduledWorld
           (ErrorResponse
              (NewAppError BadRequest "Event found but no availability for user" false))
           {| store := store Fixtures.scheduledWorld; trace := [LogFatalf] |}).
  vm_compute; reflexivity.
Defined.

(** A parsed time of day has a minute between 0 and 59. *)
Lemma ParseDBTime_minute s c :
  ParseDBTime s = Some c -> 0 <= clockMinute c < 60.
Proof.
  unfold ParseDBTime.
  destruct (getnum s false) as [[h s1]|]; [|discriminate].
  destruct (24 <=? h); [discriminate|].
  destruct (skipColon s1) as [s2|]; [|discriminate].
  destruct (getnum s2 true) as [[m s3]|] eqn:Em; [|discriminate].
  apply getnum_range in Em.
  destruct (60 <=? m) eqn:E60; [discriminate|].
  destruct (skipColon s3) as [s4|]; [|discriminate].
  destruct (getnum s4 true) as [[sec s5]|]; [|discriminate].
  destruct (60 <=? sec); [discriminate|].
  destruct (skipFraction s5); [|discriminate].
  intros [= <-]. simpl. lia.
Qed.

Lemma IsSlotAvailable_filter (p : Meeting -> bool) slotStart slotEnd ms :
  (forall m, In m ms -> p m = false ->
             ~ (slotStart < EndTime m /\ StartTime m < slotEnd)) ->
  IsSlotAvailable slotStart slotEnd (filter p ms) = IsSlotAvailable slotStart slotEnd ms.
Proof.
  induction ms as [|m ms IH]; intros Hdrop; [reflexivity|].
  simpl. destruct (p m) eqn:Hp; simpl.
  - rewrite IH; [reflexivity|]. intros m' Hin. apply Hdrop. now right.
  - rewrite IH by (intros m' Hin; apply Hdrop; now right).
    unfold Before, After.
    destruct ((slotStart <? EndTime m) && (StartTime m <? slotEnd)) eqn:E;
      [|reflexivity].
    exfalso. apply (Hdrop m); [now left | exact Hp |].
    apply andb_true_iff in E. lia.
Qed.

(** A cursor that does not move forward: the loop is left in its first
    iteration or never, whatever the meetings. *)
Lemma slotLoop_stuck dayEnd now duration gap meetings fuel cur acc :
  gap <= 0 ->
  slotLoop (S fuel) cur dayEnd now duration gap meetings acc
  = if cur <? dayEnd
    then if dayEnd <? cur + duration then Some acc else None
    else Some acc.
Proof.
  intros Hgap. cbn [slotLoop]. unfold Before, After, Add.
  destruct (cur <? dayEnd) eqn:E1; [|reflexivity].
  destruct (dayEnd <? cur + duration) eqn:E2; [reflexivity|].
  apply slotLoop_diverges; lia.
Qed.

(** The loop gives the same result on two lists of meetings that agree on
    every slot it can reach. *)
Lemma slotLoop_ext dayEnd now duration gap ms1 ms2 fuel :
  forall cur acc,
    (forall s, cur <= s -> now <= s -> s + duration <= dayEnd ->
               IsSlotAvailable s (s + duration) ms1
               = IsSlotAvailable s (s + duration) ms2) ->
    slotLoop fuel cur dayEnd now duration gap ms1 acc
    = slotLoop fuel cur dayEnd now duration gap ms2 acc.
Proof.
  destruct (Z_le_gt_dec gap 0) as [Hgap|Hgap].
  - intros cur acc _. destruct fuel as [|fuel]; [reflexivity|].
    now rewrite !slotLoop_stuck.
  - induction fuel as [|fuel IH]; intros cur acc Hagree; [reflexivity|].
    cbn [slotLoop]. unfold Before, After, Equal, Add.
    destruct (cur <? dayEnd) eqn:E1; [|reflexivity].
    destruct (dayEnd <? cur + duration) eqn:E2; [reflexivity|].
    assert (Hhere : ((now <? cur) || (cur =? now))
                    && IsSlotAvailable cur (cur + duration) ms1
                    = ((now <? cur) || (cur =? now))
                      && IsSlotAvailable cur (cur + duration) ms2).
    { destruct ((now <? cur) || (cur =? now)) eqn:Efut; [|reflexivity].
      simpl. apply Hagree; lia. }
    rewrite Hhere. apply IH. intros s Hs. apply Hagree. lia.
Qed.

(** Meetings that cannot overlap a slot of the target date may be dropped. *)
Lemma slotStarts_filter (p : Meeting -> bool) fuel startStr endStr durationMinutes
    timeGapMinutes meetingsOnDate targetDate now :
  (forall m, In m meetingsOnDate -> p m = false ->
             EndTime m <= Z.max now (midnight targetDate)
             \/ midnight targetDate + Day <= StartTime m) ->
  slotStarts fuel startStr endStr durationMinutes timeGapMinutes
    (filter p meetingsOnDate) targetDate now
  = slotStarts fuel startStr endStr durationMinutes timeGapMinutes
      meetingsOnDate targetDate now.
Proof.
  intros Hdrop. unfold slotStarts.
  destruct (ParseDBTime startStr) as [o|] eqn:Ho; [|reflexivity].
  destruct (ParseDBTime endStr) as [c|] eqn:Hc; [|reflexivity].
  rewrite (slotLoop_ext _ _ _ _ (filter p meetingsOnDate) meetingsOnDate);
    [reflexivity|].
  intros s Hbase Hnow Hend. apply IsSlotAvailable_filter.
  intros m Hin Hp.
  pose proof (ParseDBTime_hour _ _ Ho) as Hoh.
  pose proof (ParseDBTime_hour _ _ Hc) as Hch.
  pose proof (ParseDBTime_minute _ _ Hc) as Hcm.
  unfold slotStartBase, dayEndBoundary, Date in *.
  assert (HHour : Hour = 3600000000000) by reflexivity.
  assert (HMinute : Minute = 60000000000) by reflexivity.
  assert (HDay : Day = 86400000000000) by reflexivity.
  destruct (Hdrop m Hin Hp) as [Hpast|Hfuture]; lia.
Qed.

(** X18: dropping from the input meetings that have ended by the clock
    reading or by the start of the target date, or that start after the
    target date, never changes the generator's result: such meetings
    overlap no slot it can emit. *)
Theorem GenerateAvailableTimeSlots_ignores_distant_meetings :
  forall (p : Meeting -> bool) fuel startStr endStr durationMinutes timeGapMinutes
         meetingsOnDate targetDate now,
    (forall m, In m meetingsOnDate -> p m = false ->
               EndTime m <= Z.max now (midnight targetDate)
               \/ midnight targetDate + Day <= StartTime m) ->
    GenerateAvailableTimeSlots fuel startStr endStr durationMinutes timeGapMinutes
      (filter p meetingsOnDate) targetDate now
    = GenerateAvailableTimeSlots fuel startStr endStr durationMinutes timeGapMinutes
        meetingsOnDate targetDate now.
Proof.
  intros p fuel startStr endStr durationMinutes timeGapMinutes meetingsOnDate
         targetDate now Hdrop.
  unfold GenerateAvailableTimeSlots.
  rewrite (slotStarts_filter p _ _ _ _ _ _ _ _ Hdrop). reflexivity.
Qed.

Lemma GenerateAvailableTimeSlots_ignores_distant_meetings_witness :
  GenerateAvailableTimeSlots 100 "09:00:00" "17:00:00" 60 30
    (filter (fun m => Before (StartTime m) (AddDays Fixtures.monday 1)
                      && After (EndTime m) Fixtures.monday)
            [Fixtures.meetingOn "m0" (Fixtures.at_ Fixtures.friday 10 0)
               (Fixtures.at_ Fixtures.friday 11 0) Scheduled;
             Fixtures.meetingOn "m1" (Fixtures.at_ Fixtures.monday 10 0)
               (Fixtures.at_ Fixtures.monday 11 0) Scheduled])
    Fixtures.monday (Fixtures.at_ Fixtures.friday 8 0)
  = GenerateAvailableTimeSlots 100 "09:00:00" "17:00:00" 60 30
      [Fixtures.meetingOn "m0" (Fixtures.at_ Fixtures.friday 10 0)
         (Fixtures.at_ Fixtures.friday 11 0) Scheduled;
       Fixtures.meetingOn "m1" (Fixtures.at_ Fixtures.monday 10 0)
         (Fixtures.at_ Fixtures.monday 11 0) Scheduled]
      Fixtures.monday (Fixtures.at_ Fixtures.friday 8 0).
Proof.
  apply (GenerateAvailableTimeSlots_ignores_distant_meetings
           (fun m => Before (StartTime m) (AddDays Fixtures.monday 1)
                     && After (EndTime m) Fixtures.monday)).
  simpl. intros m [<-|[<-|[]]] Hp.
  - left. vm_compute. discriminate.
  - vm_compute in Hp. discriminate.
Defined.

Lemma GetNextDateForDay_range today day :
  midnight (GetNextDateForDay today day) = GetNextDateForDay today day
  /\ midnight today <= GetNextDateForDay today day <= midnight today + 6 * Day.
Proof.
  rewrite GetNextDateForDay_closed.
  assert (HDay : 0 < Day) by reflexivity.
  assert (Hd : 0 <= (weekdayIndex day - Weekday today) mod 7 < 7)
    by (apply Z.mod_pos_bound; lia).
  unfold midnight. rewrite Z.div_mul by lia. split; [reflexivity | nia].
Qed.

Lemma filter_andb {A} (p q : A -> bool) (l : list A) :
  filter (fun a => p a && q a) l = filter q (filter p l).
Proof.
  induction l as [|a l IH]; [reflexivity|].
  simpl. destruct (p a); simpl; [destruct (q a)|]; now rewrite IH.
Qed.

Lemma filter_comm {A} (p q : A -> bool) (l : list A) :
  filter p (filter q l) = filter q (filter p l).
Proof.
  rewrite <- !filter_andb. apply filter_ext. intros a. apply andb_comm.
Qed.

(** X19: restricting the meetings query to the seven days that start now
    loses no conflict: for every day of the week, the entry computed from
    the rows of the query is the entry computed from all the meetings of
    the owner. *)
Theorem availability_range_query_is_lossless :
  forall fuel env event timeGap dayRules st userID day w,
    dailySlots fuel env event timeGap dayRules
      (meetingsInRangeRows st userID (AddDays (Now env) 7) (Now env)) day w
    = dailySlots fuel env event timeGap dayRules
        (filter (fun m => String.eqb (MeetingUserID m) userID) (meetings st)) day w.
Proof.
  intros fuel env event timeGap dayRules st userID day w.
  unfold dailySlots.
  destruct (dayRules day) as [rule|]; [|reflexivity].
  destruct (RuleIsAvailable rule); [|reflexivity].
  set (target := GetNextDateForDay (Now env) day).
  set (dayP := fun m => Before (StartTime m) (AddDays target 1)
                        && After (EndTime m) target).
  set (owner := fun m => String.eqb (MeetingUserID m) userID).
  set (inRange := fun m => (StartTime m <? AddDays (Now env) 7)
                           && (Now env <? EndTime m)).
  assert (Hrows : meetingsInRangeRows st userID (AddDays (Now env) 7) (Now env)
                  = filter inRange (filter owner (meetings st))).
  { unfold meetingsInRangeRows. rewrite <- filter_andb. apply filter_ext.
    intros m. unfold owner, inRange. now rewrite andb_assoc. }
  rewrite Hrows, (filter_comm dayP inRange).
  unfold GenerateAvailableTimeSlots.
  rewrite (slotStarts_filter inRange); [reflexivity|].
  intros m _ Hp. unfold inRange in Hp.
  destruct (GetNextDateForDay_range (Now env) day) as [Hmid [_ Hhi]].
  fold target in Hmid, Hhi. rewrite Hmid.
  assert (HDay : 0 < Day) by reflexivity.
  assert (Hnow : midnight (Now env) <= Now env).
  { unfold midnight. pose proof (Z.mul_div_le (Now env) Day HDay). lia. }
  unfold AddDays in Hp.
  apply andb_false_iff in Hp as [Hp|Hp]; [right | left]; lia.
Qed.

Lemma eventAvailabilityRows_without_availability st eventID :
  (forall e a, In e (events st) -> EventID e = eventID -> EventIsPrivate e = false ->
               In a (availability st) -> AvailabilityUserID a <> EventUserID e) ->
  Forall (fun row => NSValid (RowAvailabilityID row) = false)
         (eventAvailabilityRows st eventID).
Proof.
  intros Hnone. unfold eventAvailabilityRows.
  apply Forall_forall. intros row Hrow.
  apply in_flat_map in Hrow as (e & He & Hrow).
  apply in_flat_map in Hrow as (u & Hu & Hrow).
  unfold publicEventRows in He. apply filter_In in He as [Hin Hcond].
  apply andb_true_iff in Hcond as [Hid Hpriv].
  apply String.eqb_eq in Hid. apply negb_true_iff in Hpriv.
  destruct (String.eqb (UserIDOf u) (EventUserID e)) eqn:Huser; [|contradiction].
  apply String.eqb_eq in Huser.
  destruct (filter _ (availability st)) as [|a avs] eqn:Hf.
  - destruct Hrow as [<-|[]]. reflexivity.
  - exfalso.
    assert (Ha : In a (filter (fun a => String.eqb (AvailabilityUserID a) (UserIDOf u))
                              (availability st))) by (rewrite Hf; now left).
    apply filter_In in Ha as [Ha Hau]. apply String.eqb_eq in Hau.
    apply (Hnone e a Hin Hid Hpriv Ha). congruence.
Qed.

(** When no availability row belongs to the owner of a public event
    with the requested id (in particular when there is no such event), an
    availability request whose first query is carried out answers with the
    error [BadRequest] "Event found but no availability for user", for
    every fuel, and changes nothing. *)
Theorem availability_without_rules_is_a_bad_request :
  forall fuel env eventID w,
    String.eqb eventID "" = false ->
    driverError env QEventAvailability = None ->
    (forall e a, In e (events (store w)) -> EventID e = eventID ->
                 EventIsPrivate e = false ->
                 In a (availability (store w)) ->
                 AvailabilityUserID a <> EventUserID e) ->
    GetPublicEventAvailability fuel env eventID w
    = Some (ErrorResponse (NewAppError BadRequest
                             "Event found but no availability for user" false),
            {| store := store w; trace := (trace w ++ [LogFatalf])%list |}).
Proof.
  intros fuel env eventID w Hid Hdrv Hnone.
  apply eventAvailabilityRows_without_availability in Hnone.
  unfold GetPublicEventAvailability. rewrite Hid, Hdrv.
  destruct (eventAvailabilityRows (store w) eventID) as [|first rest]; [reflexivity|].
  inversion Hnone as [|? ? Hfirst _]. rewrite Hfirst. reflexivity.
Qed.

Lemma availability_without_rules_is_a_bad_request_witness :
  String.eqb "e9" "" = false
  /\ driverError Fixtures.healthyEnv QEventAvailability = None
  /\ GetPublicEventAvailability 0 Fixtures.healthyEnv "e9" Fixtures.emptyWorld
     = Some (ErrorResponse (NewAppError BadRequest
                              "Event found but no availability for user" false),
             {| store := store Fixtures.emptyWorld;
                trace := (trace Fixtures.emptyWorld ++ [LogFatalf])%list |}).
Proof.
  split; [reflexivity|]. split; [reflexivity|].
  apply (availability_without_rules_is_a_bad_request 0 Fixtures.healthyEnv "e9"
           Fixtures.emptyWorld).
  - reflexivity.
  - reflexivity.
  - simpl. intros e a [<-|[]] Hid. vm_compute in Hid. discriminate.
Defined.

(** * The listing of a user's meetings *)

Import Meetings.

Lemma MeetingStatus_eqb_eq a b : MeetingStatus_eqb a b = true <-> a = b.
Proof. destruct a, b; simpl; split; intros H; congruence. Qed.

Lemma filterClause_matches filter now m :
  filterClause filter now m = true <-> meetingMatches filter now m.
Proof.
  destruct filter; simpl.
  - rewrite andb_true_iff, MeetingStatus_eqb_eq, Z.ltb_lt. reflexivity.
  - rewrite andb_true_iff, MeetingStatus_eqb_eq, Z.ltb_lt. reflexivity.
  - apply MeetingStatus_eqb_eq.
Qed.

Lemma selectedRows_listed st userID filter now r :
  In r (selectedRows st userID filter now) <-> listedRow st userID filter now r.
Proof.
  unfold selectedRows, listedRow. rewrite in_flat_map. split.
  - intros (m & Hm & Hr).
    destruct (String.eqb (MeetingUserID m) userID && filterClause filter now m) eqn:Hc;
      [|contradiction].
    apply andb_true_iff in Hc as [Hu Hf]. apply String.eqb_eq in Hu.
    apply filterClause_matches in Hf.
    apply in_map_iff in Hr as (e & <- & He). apply filter_In in He as [He Hid].
    apply String.eqb_eq in Hid. simpl. repeat split; try assumption.
    exists e. auto.
  - intros (Hm & Hu & Hf & e & He & Hid & Ht & Hl).
    exists (RowMeeting r). split; [assumption|].
    apply filterClause_matches in Hf. apply String.eqb_eq in Hu. rewrite Hu, Hf. simpl.
    apply in_map_iff. exists e. split.
    + destruct r as [m t l]. simpl in *. congruence.
    + apply filter_In. split; [assumption|]. now apply String.eqb_eq.
Qed.

Lemma insertByStartTime_perm r : forall sorted,
  Permutation (insertByStartTime r sorted) (r :: sorted).
Proof.
  induction sorted as [|x rest IH]; simpl; [reflexivity|].
  destruct (StartTime (RowMeeting r) <? StartTime (RowMeeting x)); [reflexivity|].
  rewrite IH. apply perm_swap.
Qed.

Lemma insertByStartTime_sorted r : forall sorted,
  ascendingByStart sorted -> ascendingByStart (insertByStartTime r sorted).
Proof.
  unfold ascendingByStart.
  induction sorted as [|x rest IH]; intros Hs; simpl.
  - constructor; constructor.
  - inversion Hs as [|? ? Hrest Hall]; subst.
    destruct (StartTime (RowMeeting r) <? StartTime (RowMeeting x)) eqn:E.
    + apply Z.ltb_lt in E. constructor; [assumption|].
      constructor; [lia|]. eapply Forall_impl; [|exact Hall]. simpl. intros a Ha. lia.
    + apply Z.ltb_ge in E. constructor; [now apply IH|].
      eapply Permutation_Forall; [symmetry; apply insertByStartTime_perm|].
      constructor; assumption.
Qed.

Lemma orderByStartTime_spec rows :
  Permutation (orderByStartTime rows) rows /\ ascendingByStart (orderByStartTime rows).
Proof.
  unfold orderByStartTime.
  assert (H : forall acc, ascendingByStart acc ->
            Permutation (fold_left (fun sorted r => insertByStartTime r sorted) rows acc)
                        (acc ++ rows)
            /\ ascendingByStart
                 (fold_left (fun sorted r => insertByStartTime r sorted) rows acc)).
  { induction rows as [|r rows IH]; intros acc Hacc; simpl.
    - rewrite app_nil_r. split; [reflexivity | assumption].
    - destruct (IH (insertByStartTime r acc) (insertByStartTime_sorted r acc Hacc))
        as [Hp Hs].
      split; [|assumption].
      eapply perm_trans; [exact Hp|].
      eapply perm_trans; [apply Permutation_app_tail, insertByStartTime_perm|].
      simpl. apply Permutation_middle. }
  destruct (H [] ltac:(constructor)) as [Hp Hs]. split; assumption.
Qed.

(** X20: when the query is carried out, the listing of a user's meetings
    is answered with rows in ascending order of start time; a row is listed
    exactly when its meeting is a stored meeting of that user that matches
    the filter (upcoming: scheduled and starting after now; past: scheduled
    and started before now; cancelled) and its title and location are those
    of a stored event with the meeting's event id. The world is left as it
    was. *)
Theorem GetUserMeetings_lists_matching_meetings_in_order :
  forall now userID upperFilterQuery w,
    exists rows,
      GetUserMeetings now None (Some userID) upperFilterQuery w
      = (MeetingsJson StatusOK "Meetings fetched successfully" rows, w)
      /\ ascendingByStart rows
      /\ forall r, In r rows
                   <-> listedRow (store w) userID (filterOfQuery upperFilterQuery) now r.
Proof.
  intros now userID q w.
  exists (orderByStartTime (selectedRows (store w) userID (filterOfQuery q) now)).
  destruct (orderByStartTime_spec (selectedRows (store w) userID (filterOfQuery q) now))
    as [Hp Hs].
  split; [reflexivity|]. split; [assumption|].
  intros r. rewrite <- selectedRows_listed. split; intros Hin.
  - eapply Permutation_in; [exact Hp | assumption].
  - eapply Permutation_in; [symmetry; exact Hp | assumption].
Qed.

Lemma listed_matches now dbError userID q w code message rows r :
  fst (GetUserMeetings now dbError userID q w) = MeetingsJson code message rows ->
  In r rows ->
  meetingMatches (filterOfQuery q) now (RowMeeting r).
Proof.
  unfold GetUserMeetings, writeMeetingsError.
  destruct userID as [userID|]; [|discriminate].
  destruct dbError; [discriminate|]. simpl. intros [= _ _ <-] Hin.
  destruct (orderByStartTime_spec (selectedRows (store w) userID (filterOfQuery q) now))
    as [Hp _].
  apply (Permutation_in _ Hp) in Hin. apply selectedRows_listed in Hin.
  apply Hin.
Qed.

(** X21: a meeting that the listing shows under one filter is shown under
    no other filter at the same clock reading, and a scheduled meeting that
    starts exactly at the clock reading is shown under none: it is neither
    upcoming nor past. *)
Theorem GetUserMeetings_filters_are_exclusive :
  forall now dbError userID q w code message rows r,
    fst (GetUserMeetings now dbError userID q w) = MeetingsJson code message rows ->
    In r rows ->
    (Status (RowMeeting r) = Scheduled -> StartTime (RowMeeting r) <> now)
    /\ forall dbError' userID' q' code' message' rows',
         filterOfQuery q' <> filterOfQuery q ->
         fst (GetUserMeetings now dbError' userID' q' w)
         = MeetingsJson code' message' rows' ->
         forall r', In r' rows' -> RowMeeting r' <> RowMeeting r.
Proof.
  intros now dbError userID q w code message rows r Hrows Hin.
  pose proof (listed_matches _ _ _ _ _ _ _ _ _ Hrows Hin) as Hm.
  split.
  - intros Hs Hstart. destruct (filterOfQuery q); simpl in Hm.
    + lia.
    + lia.
    + congruence.
  - intros dbError' userID' q' code' message' rows' Hq Hrows' r' Hin' Heq.
    pose proof (listed_matches _ _ _ _ _ _ _ _ _ Hrows' Hin') as Hm'.
    rewrite Heq in Hm'. apply Hq.
    destruct (filterOfQuery q), (filterOfQuery q'); simpl in Hm, Hm';
      try reflexivity; try lia; exfalso; intuition congruence.
Qed.

Lemma GetUserMeetings_filters_are_exclusive_witness :
  let r := {| RowMeeting :=
                Fixtures.meetingOn "m1" (Fixtures.at_ Fixtures.monday 10 0)
                  (Fixtures.at_ Fixtures.monday 11 0) Scheduled;
              RowEventTitle := "Intro call";
              RowEventLocationType := LocationGoogleMeetAndCalendar |} in
  fst (GetUserMeetings (Fixtures.at_ Fixtures.friday 8 0) None (Some "u1") "UPCOMING"
         Fixtures.scheduledWorld)
  = MeetingsJson StatusOK "Meetings fetched successfully" [r]
  /\ In r [r]
  /\ (Status (RowMeeting r) = Scheduled
      -> StartTime (RowMeeting r) <> Fixtures.at_ Fixtures.friday 8 0)
  /\ forall dbError' userID' q' code' message' rows',
       filterOfQuery q' <> filterOfQuery "UPCOMING" ->
       fst (GetUserMeetings (Fixtures.at_ Fixtures.friday 8 0) dbError' userID' q'
              Fixtures.scheduledWorld)
       = MeetingsJson code' message' rows' ->
       forall r', In r' rows' -> RowMeeting r' <> RowMeeting r.
Proof.
  intros r. split; [vm_compute; reflexivity|]. split; [now left|].
  apply (GetUserMeetings_filters_are_exclusive (Fixtures.at_ Fixtures.friday 8 0) None
           (Some "u1") "UPCOMING" Fixtures.scheduledWorld StatusOK
           "Meetings fetched successfully" [r] r).
  - vm_compute; reflexivity.
  - now left.
Defined.

(** * Event privacy *)

Import Events.

(** [TogglePrivacy] without the monad. *)
Lemma TogglePrivacy_closed dbError userID eventID w :
  TogglePrivacy dbError userID eventID w
  = let failed e :=
      (ErrorResponse e, {| store := store w; trace := (trace w ++ [LogFatalf])%list |}) in
    match userID with
    | None => failed (NewUnauthorizedError false)
    | Some userID =>
        if String.eqb eventID "" then
          failed (NewAppError BadRequest "Missing eventId in path" false)
        else
          match dbError with
          | Some _ =>
              failed (NewAppError InternalServerError
                        "Failed to toggle event privacy" true)
          | None =>
              let st := setEvents (store w)
                          (fst (togglePrivacyRows (events (store w)) eventID userID)) in
              match snd (togglePrivacyRows (events (store w)) eventID userID) with
              | [] =>
                  (ErrorResponse
                     (NewNotFoundError
                        ("Event with ID " ++ eventID ++ " for user")%string false),
                   {| store := st; trace := (trace w ++ [LogFatalf])%list |})
              | event :: _ =>
                  (JsonResponse StatusOK
                     (SimpleMessage
                        ("Event sent to "
                         ++ (if EventIsPrivate event then "private" else "public")
                         ++ " successfully")%string),
                   {| store := st; trace := trace w |})
              end
          end
    end.
Proof.
  unfold TogglePrivacy, TogglePrivacySteps, run.
  destruct userID as [userID|]; [|reflexivity].
  destruct (String.eqb eventID ""); [reflexivity|].
  destruct dbError; [reflexivity|].
  unfold hbind, lift, getStore, putStore, togglePrivacyRows. cbv beta iota zeta.
  simpl fst. simpl snd.
  destruct (map togglePrivate (filter (ownedEvent eventID userID) (events (store w))));
    reflexivity.
Qed.





Lemma setEvents_events st : setEvents st (events st) = st.
Proof. destruct st; reflexivity. Qed.





(** X24: once a privacy toggle has answered that the event was set to
    private, a booking for that event id is answered with the 404 error
    "Resource 'Public event' not found." and stores nothing, the event id
    being the key of the events table. *)
Theorem private_event_cannot_be_booked :
  forall env dto dbError userID w w1,
    driverError env QEvent = None ->
    (forall e1 e2, In e1 (events (store w)) -> In e2 (events (store w)) ->
                   EventID e1 = EventID e2 -> e1 = e2) ->
    TogglePrivacy dbError userID (DtoEventID dto) w
    = (JsonResponse StatusOK (SimpleMessage "Event sent to private successfully"), w1) ->
    fst (CreateBooking env (Some dto) w1)
    = ErrorResponse (NewNotFoundError "Public event" false)
    /\ store (snd (CreateBooking env (Some dto) w1)) = store w1.
Proof.
  intros env dto dbError userID w w1 Hdrv Hkey. rewrite TogglePrivacy_closed. cbv zeta.
  destruct userID as [userID|]; [|discriminate].
  destruct (String.eqb (DtoEventID dto) ""); [discriminate|].
  destruct dbError; [discriminate|].
  destruct (snd (togglePrivacyRows (events (store w)) (DtoEventID dto) userID))
    as [|event rest] eqn:Hrows; [discriminate|].
  intros [= Hmsg <-].
  assert (Hprivate : EventIsPrivate event = true).
  { destruct (EventIsPrivate event); [reflexivity|]. simpl in Hmsg. discriminate. }
  clear Hmsg.
  assert (Hnone : publicEventRows
                    (setEvents (store w)
                       (fst (togglePrivacyRows (events (store w)) (DtoEventID dto)
                               userID)))
                    (DtoEventID dto) = []).
  { unfold publicEventRows, togglePrivacyRows in *. cbn [fst snd events setEvents] in *.
    destruct (filter (ownedEvent (DtoEventID dto) userID) (events (store w)))
      as [|e0 es0] eqn:Hf; [discriminate|].
    injection Hrows as <- _.
    assert (Hin0 : In e0 (filter (ownedEvent (DtoEventID dto) userID)
                            (events (store w)))) by (rewrite Hf; now left).
    apply filter_In in Hin0 as [Hin0 Hown0].
    pose proof Hown0 as Hown0'.
    apply andb_true_iff in Hown0' as [Hid0 _]. apply String.eqb_eq in Hid0.
    match goal with |- filter ?p ?l = [] => destruct (filter p l) as [|e' rest'] eqn:Hf' end;
      [reflexivity|].
    exfalso.
    match type of Hf' with filter ?p ?l = _ =>
      assert (Hin' : In e' (filter p l)) by (rewrite Hf'; now left) end.
    apply filter_In in Hin' as [Hin' Hcond].
    apply andb_true_iff in Hcond as [Hid' Hpub]. apply String.eqb_eq in Hid'.
    apply negb_true_iff in Hpub.
    apply in_map_iff in Hin' as (e & He' & Hin).
    assert (EventID e = DtoEventID dto).
    { destruct (ownedEvent (DtoEventID dto) userID e); subst e'; exact Hid'. }
    assert (e = e0) by (apply Hkey; congruence). subst e.
    rewrite Hown0 in He'. subst e'. congruence. }
  pose proof (CreateBooking_without_public_event env dto
                {| store := setEvents (store w)
                              (fst (togglePrivacyRows (events (store w))
                                      (DtoEventID dto) userID));
                   trace := trace w |} Hdrv Hnone) as Hrun.
  unfold togglePrivacyRows in Hrun. cbn [fst] in Hrun.
  rewrite Hrun. split; reflexivity.
Qed.

Lemma private_event_cannot_be_booked_witness :
  let w1 := {| store := setEvents (store Fixtures.emptyWorld)
                          [togglePrivate Fixtures.introEvent];
               trace := [] |} in
  driverError Fixtures.healthyEnv QEvent = None
  /\ TogglePrivacy None (Some "u1") (DtoEventID Fixtures.bookingDto) Fixtures.emptyWorld
     = (JsonResponse StatusOK (SimpleMessage "Event sent to private successfully"), w1)
  /\ fst (CreateBooking Fixtures.healthyEnv (Some Fixtures.bookingDto) w1)
     = ErrorResponse (NewNotFoundError "Public event" false)
  /\ store (snd (CreateBooking Fixtures.healthyEnv (Some Fixtures.bookingDto) w1))
     = store w1.
Proof.
  intros w1. split; [reflexivity|]. split; [vm_compute; reflexivity|].
  apply (private_event_cannot_be_booked Fixtures.healthyEnv Fixtures.bookingDto None
           (Some "u1") Fixtures.emptyWorld w1).
  - reflexivity.
  - simpl. intros e1 e2 [<-|[]] [<-|[]] _. reflexivity.
  - vm_compute; reflexivity.
Defined.

(** * Error codes and their HTTP status *)

Import HttpStatus.

(** X25: every application error is answered with a status of the 4xx or
    the 5xx class, never a success, and with a message that is not empty.
    The status is of the 5xx class exactly for [InternalServerError] and for
    a code [IsValid] rejects ([BadRequest], which has no entry in the
    configuration); [IsValid] accepts exactly the codes of [AllErrorCodes],
    which are exactly the codes with an entry. *)
Theorem error_status_is_never_a_success :
  forall e,
    IsSuccess (HTTPStatus e) = false
    /\ xorb (IsClientError (HTTPStatus e)) (IsServerError (HTTPStatus e)) = true
    /\ Error e <> ""
    /\ (IsServerError (HTTPStatus e) = true
        <-> Code e = InternalServerError \/ IsValid (Code e) = false)
    /\ (IsValid (Code e) = true <-> In (Code e) AllErrorCodes)
    /\ (IsValid (Code e) = true <-> exists d, appErrorConfig (Code e) = Some d).
Proof.
  intros [c m h].
  assert (Hmsg : Error {| Code := c; Message := m; HasCause := h |} <> "").
  { unfold Error. simpl Message. destruct (String.eqb m "") eqn:E.
    - destruct c; discriminate.
    - now apply String.eqb_neq. }
  split; [destruct c; reflexivity|].
  split; [destruct c; reflexivity|].
  split; [exact Hmsg|]. clear Hmsg.
  split; [|split].
  - destruct c; vm_compute; split; intros H;
      try reflexivity; try discriminate; try (now left); try (now right);
      destruct H as [H|H]; discriminate.
  - unfold AllErrorCodes. destruct c; simpl; split; intros H;
      try reflexivity; try discriminate; try tauto.
    repeat (destruct H as [H|H]; [discriminate|]). contradiction.
  - destruct c; simpl; split; intros H;
      try reflexivity; try discriminate; try (eexists; reflexivity).
    destruct H as [d H]. discriminate.
Qed.

(** * Times of day as text *)

Import Availabilities.

Lemma HourOf_range t : 0 <= HourOf t < 24.
Proof.
  unfold HourOf. assert (HDay : Day = 24 * Hour) by reflexivity.
  assert (HHour : 0 < Hour) by reflexivity.
  pose proof (Z.mod_pos_bound t Day ltac:(reflexivity)) as Hm.
  split.
  - apply Z.div_pos; lia.
  - apply Z.div_lt_upper_bound; lia.
Qed.

Lemma MinuteOf_range t : 0 <= MinuteOf t < 60.
Proof.
  unfold MinuteOf. assert (HHour : Hour = 60 * Minute) by reflexivity.
  assert (HMinute : 0 < Minute) by reflexivity.
  pose proof (Z.mod_pos_bound t Hour ltac:(reflexivity)) as Hm.
  split.
  - apply Z.div_pos; lia.
  - apply Z.div_lt_upper_bound; lia.
Qed.

(** The text of an hour and a minute passes the validator and parses back. *)
Lemma clock_text_valid h m :
  0 <= h < 24 -> 0 <= m < 60 ->
  ValidateTimeHM (pad2 h ++ ":" ++ pad2 m) = true
  /\ ParseHM (pad2 h ++ ":" ++ pad2 m) = Some {| clockHour := h; clockMinute := m |}.
Proof.
  intros Hh Hm.
  assert (Hall : forallb
            (fun h => forallb
               (fun m =>
                  ValidateTimeHM (pad2 h ++ ":" ++ pad2 m)
                  && match ParseHM (pad2 h ++ ":" ++ pad2 m) with
                     | Some c => (clockHour c =? h) && (clockMinute c =? m)
                     | None => false
                     end)
               (map Z.of_nat (seq 0 60)))
            (map Z.of_nat (seq 0 24)) = true) by (vm_compute; reflexivity).
  rewrite forallb_forall in Hall.
  assert (Hin : In h (map Z.of_nat (seq 0 24))).
  { apply in_map_iff. exists (Z.to_nat h). split; [lia|]. apply in_seq. lia. }
  specialize (Hall h Hin). rewrite forallb_forall in Hall.
  assert (Hin' : In m (map Z.of_nat (seq 0 60))).
  { apply in_map_iff. exists (Z.to_nat m). split; [lia|]. apply in_seq. lia. }
  specialize (Hall m Hin'). apply andb_true_iff in Hall as [Hv Hp].
  split; [exact Hv|].
  destruct (ParseHM (pad2 h ++ ":" ++ pad2 m)) as [[ch cm]|]; [|discriminate].
  simpl in Hp. apply andb_true_iff in Hp as [H1 H2].
  apply Z.eqb_eq in H1, H2. now subst.
Qed.

(** A character between two digits is the character of its digit. *)
Lemma between_digit lo hi c :
  between lo hi c = true ->
  (48 <= N_of_ascii lo)%N -> (N_of_ascii hi <= 57)%N ->
  digitChar (digitOf c) = c
  /\ Z.of_N (N_of_ascii lo) - 48 <= digitOf c <= Z.of_N (N_of_ascii hi) - 48.
Proof.
  unfold between, digitChar, digitOf. intros H Hlo Hhi.
  apply andb_true_iff in H as [H1 H2]. apply N.leb_le in H1, H2.
  split; [|lia].
  replace (48 + Z.to_N (Z.of_N (N_of_ascii c) - 48))%N with (N_of_ascii c) by lia.
  apply ascii_N_embedding.
Qed.

Lemma clock_time h m :
  0 <= h < 24 -> 0 <= m < 60 ->
  HourOf (h * Hour + m * Minute) = h /\ MinuteOf (h * Hour + m * Minute) = m.
Proof.
  intros Hh Hm. unfold HourOf, MinuteOf.
  change Day with 86400000000000. change Hour with 3600000000000.
  change Minute with 60000000000.
  split.
  - rewrite Z.mod_small by lia. symmetry. apply (Z.div_unique _ _ _ (m * 60000000000)); lia.
  - replace (h * 3600000000000 + m * 60000000000)
      with (m * 60000000000 + h * 3600000000000) by lia.
    rewrite Z.mod_add by lia. rewrite Z.mod_small by lia.
    apply Z.div_mul. lia.
Qed.

Lemma pad2_digits a b :
  0 <= a -> 0 <= b <= 9 ->
  pad2 (10 * a + b) = String (digitChar a) (String (digitChar b) EmptyString).
Proof.
  intros Ha Hb. unfold pad2.
  replace ((10 * a + b) / 10) with a
    by (apply (Z.div_unique _ _ _ b); lia).
  replace ((10 * a + b) mod 10) with b
    by (apply (Z.mod_unique _ _ a); lia).
  reflexivity.
Qed.

(** A text the validator accepts is the text of an hour and a minute. *)
Lemma ValidateTimeHM_clock s :
  ValidateTimeHM s = true ->
  exists h m, 0 <= h < 24 /\ 0 <= m < 60 /\ s = (pad2 h ++ ":" ++ pad2 m)%string.
Proof.
  destruct s as [|h1 [|h2 [|c [|m1 [|m2 [|x rest]]]]]]; try discriminate.
  unfold ValidateTimeHM. intros H.
  apply andb_true_iff in H as [H Hm2]. apply andb_true_iff in H as [H Hm1].
  apply andb_true_iff in H as [Hh Hc]. apply Ascii.eqb_eq in Hc. subst c.
  apply between_digit in Hm1 as [Em1 Rm1]; [|vm_compute; discriminate..].
  apply between_digit in Hm2 as [Em2 Rm2]; [|vm_compute; discriminate..].
  change (Z.of_N (N_of_ascii "0")) with 48 in *.
  change (Z.of_N (N_of_ascii "5")) with 53 in *.
  change (Z.of_N (N_of_ascii "9")) with 57 in *.
  assert (Hhour : digitChar (digitOf h1) = h1 /\ digitChar (digitOf h2) = h2
                  /\ 0 <= digitOf h1 /\ 0 <= digitOf h2 <= 9
                  /\ 10 * digitOf h1 + digitOf h2 < 24).
  { apply orb_true_iff in Hh as [Hh|Hh]; apply andb_true_iff in Hh as [Hh1 Hh2].
    - apply between_digit in Hh1 as [E1 R1]; [|vm_compute; discriminate..].
      apply between_digit in Hh2 as [E2 R2]; [|vm_compute; discriminate..].
      change (Z.of_N (N_of_ascii "0")) with 48 in *.
      change (Z.of_N (N_of_ascii "1")) with 49 in *.
      change (Z.of_N (N_of_ascii "9")) with 57 in *.
      repeat split; try assumption; lia.
    - apply Ascii.eqb_eq in Hh1. subst h1.
      apply between_digit in Hh2 as [E2 R2]; [|vm_compute; discriminate..].
      change (Z.of_N (N_of_ascii "0")) with 48 in *.
      change (Z.of_N (N_of_ascii "3")) with 51 in *.
      change (digitOf "2") with 2.
      repeat split; try assumption; try reflexivity; lia. }
  destruct Hhour as (E1 & E2 & R1 & R2 & R).
  exists (10 * digitOf h1 + digitOf h2), (10 * digitOf m1 + digitOf m2).
  split; [lia|]. split; [lia|].
  rewrite !pad2_digits by lia. rewrite E1, E2, Em1, Em2. reflexivity.
Qed.

(** X26: the [time_hm] validator accepts exactly the texts that the slot
    generator's [Format("15:04")] produces, and every such text is parsed
    by [time.Parse("15:04", _)] to the hour and the minute it was made
    from. *)
Theorem ValidateTimeHM_accepts_exactly_the_formatted_times :
  (forall s, ValidateTimeHM s = true <-> exists t, s = FormatHM t)
  /\ (forall t, ParseHM (FormatHM t)
                = Some {| clockHour := HourOf t; clockMinute := MinuteOf t |}).
Proof.
  split.
  - intros s. split.
    + intros Hvalid.
      apply ValidateTimeHM_clock in Hvalid as (h & m & Hh & Hm & ->).
      exists (h * Hour + m * Minute). unfold FormatHM.
      destruct (clock_time h m Hh Hm) as [-> ->]. reflexivity.
    + intros [t ->]. unfold FormatHM.
      apply clock_text_valid; [apply HourOf_range | apply MinuteOf_range].
  - intros t. unfold FormatHM.
    apply clock_text_valid; [apply HourOf_range | apply MinuteOf_range].
Qed.

(** The handler's check accepts an hour of one digit, which the validator
    refuses. *)
Example ParseHM_accepts_more :
  ParseHM "9:30" = Some {| clockHour := 9; clockMinute := 30 |}
  /\ ValidateTimeHM "9:30" = false.
Proof. split; reflexivity. Qed.

(** * The update of a user's availability *)

(** [UpdateAvailability] without the monad, for a known user and a
    validated body: the availability row and the new table, the new day
    rows, then the response and the world. *)
Lemma UpdateAvailability_closed env userID dto w :
  UpdateAvailability env (Some userID) (Some dto) w
  = let failed e :=
      (ErrorResponse e,
       {| store := store w; trace := (trace w ++ [LogFatalf])%list |}) in
    let internal msg := failed (NewAppError InternalServerError msg true) in
    match txError env QBeginTx with
    | Some _ => internal "Failed to start transaction"
    | None =>
    match txError env QFindAvailability with
    | Some _ => internal "Failed to find availability record"
    | None =>
    match
      match availabilityIDRows (store w) userID with
      | [] =>
          match txError env QCreateAvailability with
          | Some _ => Err "Failed to create availability record"
          | None =>
              Ok (newAvailabilityID env,
                  (availability (store w)
                   ++ [{| AvailabilityID := newAvailabilityID env;
                          AvailabilityUserID := userID;
                          TimeGap := DtoTimeGap dto |}])%list)
          end
      | availabilityID :: _ =>
          match txError env QUpdateTimeGap with
          | Some _ => Err "Failed to update time gap"
          | None =>
              Ok (availabilityID,
                  updateTimeGap (availability (store w)) availabilityID
                    (DtoTimeGap dto))
          end
      end
    with
    | Err msg => internal msg
    | Ok (availabilityID, avs) =>
    match txError env QDeleteDays with
    | Some _ => internal "Failed to delete old availability days"
    | None =>
    match
      match DtoDays dto with
      | [] => Ok []
      | _ :: _ =>
          match find (fun dayDto => negb (parsesHM dayDto)) (DtoDays dto) with
          | Some dayDto =>
              Err (NewAppError ValidationError (invalidTimeFormat dayDto) false)
          | None =>
              match txError env QInsertDays with
              | Some _ =>
                  Err (NewAppError InternalServerError
                         "Failed to insert new availability days" true)
              | None => Ok (map (dayInsert env availabilityID) (DtoDays dto))
              end
          end
      end
    with
    | Err e => failed e
    | Ok newDays =>
        (JsonResponse StatusOK (SimpleMessage "Availability updated successfully"),
         match txError env QCommit with
         | Some _ => {| store := store w; trace := trace w |}
         | None =>
             {| store :=
                  {| users := users (store w);
                     events := events (store w);
                     availability := avs;
                     day_availability :=
                       (deleteDays (day_availability (store w)) availabilityID
                        ++ newDays)%list;
                     integrations := integrations (store w);
                     meetings := meetings (store w) |};
                trace := trace w |}
         end)
    end end end end end.
Proof.
  unfold UpdateAvailability. cbv zeta.
  destruct (txError env QBeginTx); [reflexivity|].
  unfold UpdateAvailabilitySteps, findOrCreateAvailability, deleteOldDays,
    insertNewDays, endTransaction, run, hbind, lift, getStore, putStore, continue, ret,
    WriteError, ResponseJson.
  cbv beta iota zeta.
  destruct (txError env QFindAvailability); [reflexivity|].
  destruct (availabilityIDRows (store w) userID) as [|availabilityID ids].
  - destruct (txError env QCreateAvailability); [reflexivity|].
    cbv beta iota zeta.
    destruct (txError env QDeleteDays); [reflexivity|].
    cbv beta iota zeta.
    destruct (DtoDays dto) as [|d ds] eqn:Hdays.
    + cbn. rewrite app_nil_r. destruct (txError env QCommit); reflexivity.
    + destruct (find _ (d :: ds)); [reflexivity|].
      destruct (txError env QInsertDays); [reflexivity|].
      cbn. destruct (txError env QCommit); reflexivity.
  - destruct (txError env QUpdateTimeGap); [reflexivity|].
    cbv beta iota zeta.
    destruct (txError env QDeleteDays); [reflexivity|].
    cbv beta iota zeta.
    destruct (DtoDays dto) as [|d ds] eqn:Hdays.
    + cbn. rewrite app_nil_r. destruct (txError env QCommit); reflexivity.
    + destruct (find _ (d :: ds)); [reflexivity|].
      destruct (txError env QInsertDays); [reflexivity|].
      cbn. destruct (txError env QCommit); reflexivity.
Qed.

Ltac update_paths env :=
  repeat match goal with
         | |- context [match txError env ?q with _ => _ end] =>
             destruct (txError env q)
         | |- context [match availabilityIDRows ?st ?u with _ => _ end] =>
             destruct (availabilityIDRows st u)
         | |- context [match DtoDays ?dto with _ => _ end] =>
             destruct (DtoDays dto)
         | |- context [match find ?f ?l with _ => _ end] =>
             destruct (find f l)
         end.

(** X27: an availability update is all or nothing: when it is answered
    with an error, or when the commit fails, every table is as it was
    before the request; and whatever happens the users, events,
    integrations and meetings are left alone. *)
Theorem UpdateAvailability_is_atomic :
  forall env userID validated w,
    let r := fst (UpdateAvailability env userID validated w) in
    let st' := store (snd (UpdateAvailability env userID validated w)) in
    (forall e, r = ErrorResponse e -> st' = store w)
    /\ (txError env QCommit <> None -> st' = store w)
    /\ users st' = users (store w)
    /\ events st' = events (store w)
    /\ integrations st' = integrations (store w)
    /\ meetings st' = meetings (store w).
Proof.
  intros env userID validated w. cbv zeta.
  destruct userID as [userID|]; [|repeat split; reflexivity].
  destruct validated as [dto|]; [|repeat split; reflexivity].
  rewrite UpdateAvailability_closed. cbv zeta.
  update_paths env; cbn [fst snd store users events integrations meetings];
    (split; [intros e He; try reflexivity; discriminate|]);
    (split; [intros Hc; try reflexivity; now contradiction Hc|]);
    repeat split; reflexivity.
Qed.

(** The response of an update does not depend on what the database
    answers to the commit, nor on the id and the texts it chooses. *)
Lemma UpdateAvailability_response env env' userID validated w :
  (forall q, q <> QCommit -> txError env' q = txError env q) ->
  fst (UpdateAvailability env' userID validated w)
  = fst (UpdateAvailability env userID validated w).
Proof.
  intros Hsame.
  destruct userID as [userID|]; [|reflexivity].
  destruct validated as [dto|]; [|reflexivity].
  rewrite !UpdateAvailability_closed. cbv zeta.
  rewrite (Hsame QBeginTx), (Hsame QFindAvailability), (Hsame QCreateAvailability),
    (Hsame QUpdateTimeGap), (Hsame QDeleteDays), (Hsame QInsertDays) by discriminate.
  destruct (txError env QBeginTx); [reflexivity|].
  destruct (txError env QFindAvailability); [reflexivity|].
  destruct (availabilityIDRows (store w) userID);
    [destruct (txError env QCreateAvailability) | destruct (txError env QUpdateTimeGap)];
    try reflexivity;
    (destruct (txError env QDeleteDays); [reflexivity|]);
    (destruct (DtoDays dto); [reflexivity|]);
    (destruct (find _ _); [reflexivity|]);
    destruct (txError env QInsertDays); reflexivity.
Qed.

(** X28: a failing commit is not reported: an update whose commit the
    database refuses is answered exactly like the same update with a
    successful commit (with 200 when the statements before it succeed),
    though it stores nothing. *)
Theorem UpdateAvailability_does_not_report_the_commit :
  forall env env' userID validated w,
    (forall q, q <> QCommit -> txError env' q = txError env q) ->
    txError env' QCommit <> None ->
    fst (UpdateAvailability env' userID validated w)
    = fst (UpdateAvailability env userID validated w)
    /\ store (snd (UpdateAvailability env' userID validated w)) = store w.
Proof.
  intros env env' userID validated w Hsame Hcommit. split.
  - now apply UpdateAvailability_response.
  - destruct userID as [userID|]; [|reflexivity].
    destruct validated as [dto|]; [|reflexivity].
    rewrite UpdateAvailability_closed. cbv zeta.
    update_paths env'; try reflexivity; now contradiction Hcommit.
Qed.

Lemma UpdateAvailability_does_not_report_the_commit_witness :
  (forall q, q <> QCommit ->
             txError Scenarios.commitFailsTx q = txError Scenarios.healthyTx q)
  /\ txError Scenarios.commitFailsTx QCommit <> None
  /\ fst (UpdateAvailability Scenarios.commitFailsTx (Some "u1")
            (Some Scenarios.weekendDto) Fixtures.emptyWorld)
     = fst (UpdateAvailability Scenarios.healthyTx (Some "u1")
              (Some Scenarios.weekendDto) Fixtures.emptyWorld)
  /\ store (snd (UpdateAvailability Scenarios.commitFailsTx (Some "u1")
                   (Some Scenarios.weekendDto) Fixtures.emptyWorld))
     = store Fixtures.emptyWorld.
Proof.
  split; [intros q Hq; destruct q; try reflexivity; now contradiction Hq|].
  split; [discriminate|].
  apply (UpdateAvailability_does_not_report_the_commit Scenarios.healthyTx
           Scenarios.commitFailsTx (Some "u1") (Some Scenarios.weekendDto)
           Fixtures.emptyWorld).
  - intros q Hq; destruct q; try reflexivity; now contradiction Hq.
  - discriminate.
Defined.

(** The answer to the example: 200, with or without the commit. *)
Example commit_failure_is_answered_with_200 :
  fst (UpdateAvailability Scenarios.commitFailsTx (Some "u1")
         (Some Scenarios.weekendDto) Fixtures.emptyWorld)
  = JsonResponse StatusOK (SimpleMessage "Availability updated successfully").
Proof. reflexivity. Qed.

Lemma filter_none {A} (p : A -> bool) l :
  (forall x, In x l -> p x = false) -> filter p l = [].
Proof.
  induction l as [|x l IH]; intros H; [reflexivity|]. simpl.
  rewrite (H x (or_introl eq_refl)). apply IH. intros y Hy. apply H. now right.
Qed.

Lemma filter_all {A} (p : A -> bool) l :
  (forall x, In x l -> p x = true) -> filter p l = l.
Proof.
  induction l as [|x l IH]; intros H; [reflexivity|]. simpl.
  rewrite (H x (or_introl eq_refl)). f_equal. apply IH. intros y Hy. apply H. now right.
Qed.

(** The day rows after a committed update. *)
Lemma replaced_days env availabilityID old (days : list DayAvailabilityDto) :
  let table := (deleteDays old availabilityID
                ++ map (dayInsert env availabilityID) days)%list in
  filter (fun d => String.eqb (DayAvailabilityOf d) availabilityID) table
  = map (dayInsert env availabilityID) days
  /\ filter (fun d => negb (String.eqb (DayAvailabilityOf d) availabilityID)) table
     = filter (fun d => negb (String.eqb (DayAvailabilityOf d) availabilityID)) old.
Proof.
  cbv zeta. rewrite !filter_app. unfold deleteDays. split.
  - rewrite filter_none, filter_all; [reflexivity| |].
    + intros d Hin. apply in_map_iff in Hin as (x & <- & _). simpl. apply String.eqb_refl.
    + intros d Hin. apply filter_In in Hin as [_ Hd]. now apply negb_true_iff.
  - rewrite (filter_none _ (map _ _)), app_nil_r.
    + apply filter_all. intros d Hin. now apply filter_In in Hin.
    + intros d Hin. apply in_map_iff in Hin as (x & <- & _). simpl.
      now rewrite String.eqb_refl.
Qed.

Lemma find_none_Forall {A} (p : A -> bool) l :
  find (fun x => negb (p x)) l = None -> Forall (fun x => p x = true) l.
Proof.
  intros H. apply Forall_forall. intros x Hin.
  pose proof (find_none _ _ H x Hin) as Hx. now apply negb_false_iff.
Qed.

(** X29: after an availability update that was answered with 200 and
    committed, the first availability row of the user carries the requested
    gap, the day rows of that availability are exactly the requested days,
    in order, each of them with times the handler's check parsed, and the
    day rows of every other availability are as before. *)
Theorem UpdateAvailability_replaces_the_days :
  forall env userID dto w body w',
    UpdateAvailability env (Some userID) (Some dto) w
    = (JsonResponse StatusOK body, w') ->
    txError env QCommit = None ->
    exists availabilityID,
      hd_error (filter (fun a => String.eqb (AvailabilityUserID a) userID)
                       (availability (store w')))
      = Some {| AvailabilityID := availabilityID;
                AvailabilityUserID := userID;
                TimeGap := DtoTimeGap dto |}
      /\ filter (fun d => String.eqb (DayAvailabilityOf d) availabilityID)
                (day_availability (store w'))
         = map (dayInsert env availabilityID) (DtoDays dto)
      /\ filter (fun d => negb (String.eqb (DayAvailabilityOf d) availabilityID))
                (day_availability (store w'))
         = filter (fun d => negb (String.eqb (DayAvailabilityOf d) availabilityID))
                  (day_availability (store w))
      /\ Forall (fun d => parsesHM d = true) (DtoDays dto).
Proof.
  intros env userID dto w body w' Hrun Hcommit.
  rewrite UpdateAvailability_closed in Hrun. cbv zeta in Hrun. rewrite Hcommit in Hrun.
  destruct (txError env QBeginTx); [discriminate|].
  destruct (txError env QFindAvailability); [discriminate|].
  assert (Hdays : forall availabilityID newDays,
             match DtoDays dto with
             | [] => Ok []
             | _ :: _ =>
                 match find (fun dayDto => negb (parsesHM dayDto)) (DtoDays dto) with
                 | Some dayDto =>
                     Err (NewAppError ValidationError (invalidTimeFormat dayDto) false)
                 | None =>
                     match txError env QInsertDays with
                     | Some _ =>
                         Err (NewAppError InternalServerError
                                "Failed to insert new availability days" true)
                     | None => Ok (map (dayInsert env availabilityID) (DtoDays dto))
                     end
                 end
             end = Ok newDays ->
             newDays = map (dayInsert env availabilityID) (DtoDays dto)
             /\ Forall (fun d => parsesHM d = true) (DtoDays dto)).
  { intros availabilityID newDays.
    destruct (DtoDays dto) as [|d ds]; [intros [= <-]; split; [reflexivity|constructor]|].
    destruct (find _ (d :: ds)) eqn:Hfind; [discriminate|].
    destruct (txError env QInsertDays); [discriminate|].
    intros [= <-]. split; [reflexivity|]. now apply find_none_Forall. }
  unfold availabilityIDRows in Hrun.
  destruct (filter (fun a => String.eqb (AvailabilityUserID a) userID)
                   (availability (store w))) as [|a0 rest] eqn:Hf;
    cbn [map] in Hrun.
  - destruct (txError env QCreateAvailability); [discriminate|].
    destruct (txError env QDeleteDays); [discriminate|].
    match type of Hrun with
    | match ?days with _ => _ end = _ => destruct days as [newDays|e] eqn:Hnew
    end; [|discriminate].
    injection Hrun as _ <-. cbn [store availability day_availability].
    apply Hdays in Hnew as [-> Hparse].
    exists (newAvailabilityID env).
    split; [|split; [|split]]; [| apply replaced_days | apply replaced_days | exact Hparse].
    rewrite filter_app, Hf. cbn [filter AvailabilityUserID app].
    now rewrite String.eqb_refl.
  - destruct (txError env QUpdateTimeGap); [discriminate|].
    destruct (txError env QDeleteDays); [discriminate|].
    match type of Hrun with
    | match ?days with _ => _ end = _ => destruct days as [newDays|e] eqn:Hnew
    end; [|discriminate].
    injection Hrun as _ <-. cbn [store availability day_availability].
    apply Hdays in Hnew as [-> Hparse].
    exists (AvailabilityID a0).
    split; [|split; [|split]]; [| apply replaced_days | apply replaced_days | exact Hparse].
    assert (Hu : AvailabilityUserID a0 = userID).
    { assert (Hin : In a0 (filter (fun a => String.eqb (AvailabilityUserID a) userID)
                             (availability (store w)))) by (rewrite Hf; now left).
      apply filter_In in Hin as [_ Hin]. now apply String.eqb_eq. }
    unfold updateTimeGap.
    revert Hf. induction (availability (store w)) as [|a avs IH]; [discriminate|].
    cbn [filter map].
    destruct (String.eqb (AvailabilityUserID a) userID) eqn:Ea.
    + intros [= -> _]. rewrite String.eqb_refl. cbn [AvailabilityUserID].
      rewrite Ea. cbn [hd_error]. now rewrite Hu.
    + intros Hf.
      assert (Hkeep : String.eqb
                        (AvailabilityUserID
                           (if String.eqb (AvailabilityID a) (AvailabilityID a0)
                            then {| AvailabilityID := AvailabilityID a;
                                    AvailabilityUserID := AvailabilityUserID a;
                                    TimeGap := DtoTimeGap dto |}
                            else a)) userID = false).
      { destruct (String.eqb (AvailabilityID a) (AvailabilityID a0)); exact Ea. }
      rewrite Hkeep. now apply IH.
Qed.

Lemma UpdateAvailability_replaces_the_days_witness :
  let w' := snd (UpdateAvailability Scenarios.healthyTx (Some "u1")
                   (Some Scenarios.weekendDto) Fixtures.emptyWorld) in
  UpdateAvailability Scenarios.healthyTx (Some "u1") (Some Scenarios.weekendDto)
    Fixtures.emptyWorld
  = (JsonResponse StatusOK (SimpleMessage "Availability updated successfully"), w')
  /\ txError Scenarios.healthyTx QCommit = None
  /\ exists availabilityID,
       hd_error (filter (fun a => String.eqb (AvailabilityUserID a) "u1")
                        (availability (store w')))
       = Some {| AvailabilityID := availabilityID;
                 AvailabilityUserID := "u1";
                 TimeGap := DtoTimeGap Scenarios.weekendDto |}
       /\ filter (fun d => String.eqb (DayAvailabilityOf d) availabilityID)
                 (day_availability (store w'))
          = map (dayInsert Scenarios.healthyTx availabilityID)
                (DtoDays Scenarios.weekendDto)
       /\ filter (fun d => negb (String.eqb (DayAvailabilityOf d) availabilityID))
                 (day_availability (store w'))
          = filter (fun d => negb (String.eqb (DayAvailabilityOf d) availabilityID))
                   (day_availability (store Fixtures.emptyWorld))
       /\ Forall (fun d => parsesHM d = true) (DtoDays Scenarios.weekendDto).
Proof.
  intros w'. split; [reflexivity|]. split; [reflexivity|].
  apply (UpdateAvailability_replaces_the_days Scenarios.healthyTx "u1"
           Scenarios.weekendDto Fixtures.emptyWorld
           (SimpleMessage "Availability updated successfully") w');
    reflexivity.
Defined.

(** The stored rules of the example afterwards: the two requested days. *)
Example weekend_rules_stored :
  day_availability
    (store (snd (UpdateAvailability Scenarios.healthyTx (Some "u1")
                   (Some Scenarios.weekendDto) Fixtures.emptyWorld)))
  = [ {| DayAvailabilityOf := "a1"; DayAvailabilityDay := Saturday;
         DayStartTime := "10:00:00"; DayEndTime := "14:00:00";
         DayIsAvailable := true |};
      {| DayAvailabilityOf := "a1"; DayAvailabilityDay := Sunday;
         DayStartTime := "10:00:00"; DayEndTime := "12:30:00";
         DayIsAvailable := false |} ].
Proof. reflexivity. Qed.

(** X30: a body whose times all pass the [time_hm] validator is never
    answered with a validation error by the update handler: its own check
    of the times cannot fail, and every other failure is reported as an
    internal error or as a missing user. *)
Theorem validated_times_pass_the_handler_check :
  forall env userID dto w e,
    Forall (fun d => ValidateTimeHM (DtoDayStartTime d) = true
                     /\ ValidateTimeHM (DtoDayEndTime d) = true) (DtoDays dto) ->
    fst (UpdateAvailability env userID (Some dto) w) = ErrorResponse e ->
    Code e = InternalServerError \/ Code e = AccessUnauthorized.
Proof.
  intros env userID dto w e Hvalid.
  assert (Hfind : find (fun dayDto => negb (parsesHM dayDto)) (DtoDays dto) = None).
  { induction Hvalid as [|d ds [Hs He] _ IH]; [reflexivity|]. simpl.
    apply ValidateTimeHM_clock in Hs as (h1 & m1 & Hh1 & Hm1 & Es).
    apply ValidateTimeHM_clock in He as (h2 & m2 & Hh2 & Hm2 & Ee).
    unfold parsesHM. rewrite Es, Ee.
    destruct (clock_text_valid h1 m1 Hh1 Hm1) as [_ ->].
    destruct (clock_text_valid h2 m2 Hh2 Hm2) as [_ ->].
    exact IH. }
  destruct userID as [userID|]; [|intros [= <-]; now right].
  rewrite UpdateAvailability_closed. cbv zeta. rewrite Hfind.
  update_paths env; cbn [fst]; intros [= <-]; now left.
Qed.

Lemma validated_times_pass_the_handler_check_witness :
  let e := NewAppError InternalServerError "Failed to delete old availability days"
             true in
  Forall (fun d => ValidateTimeHM (DtoDayStartTime d) = true
                   /\ ValidateTimeHM (DtoDayEndTime d) = true)
         (DtoDays Scenarios.weekendDto)
  /\ fst (UpdateAvailability Scenarios.deleteFailsTx (Some "u1")
            (Some Scenarios.weekendDto) Fixtures.emptyWorld)
     = ErrorResponse e
  /\ (Code e = InternalServerError \/ Code e = AccessUnauthorized).
Proof.
  intros e.
  assert (Hvalid : Forall (fun d => ValidateTimeHM (DtoDayStartTime d) = true
                                    /\ ValidateTimeHM (DtoDayEndTime d) = true)
                          (DtoDays Scenarios.weekendDto))
    by (repeat constructor).
  split; [exact Hvalid|]. split; [reflexivity|].
  apply (validated_times_pass_the_handler_check Scenarios.deleteFailsTx (Some "u1")
           Scenarios.weekendDto Fixtures.emptyWorld e Hvalid).
  reflexivity.
Defined.
